(** * LootLook: appraisal orchestration and price statistics

    A shallow embedding of the Python services of the LootLook backend

      - [app/schemas/loot.py]              (module [Schemas])
      - [app/services/serpapi_service.py]  (module [SerpApiPricingService])
      - [app/services/gemini_service.py]   (module [GeminiVisionService])
      - [app/services/appraiser_service.py] (module [AppraiserService])

    followed by the properties of the specification that concern them.

    Modelling conventions.
      - A Python [float] is modelled twice.  Where neither rounding nor
        the values that are not finite matter, it is a rational number of
        [Q] and arithmetic is exact.  The outlier filter, its fall-back
        and the value display depend on both: they are embedded again over
        [Binary64.float], the finite doubles with the two infinities and
        NaN, where every operation rounds to the nearest double, ties to
        even (modules [SerpApiPricingService64], [AppraiserService64]).
      - A Python [int] is a [Z]; [len] gives a [nat].
      - A Python [str] is a [string]; its characters are the code points
        below 256.
      - [None] is [None]; an optional field is an [option].
      - A call that may raise returns an [outcome]; [try]/[except] is a
        match on it. *)

From Stdlib Require Import ZArith QArith Qround Qminmax List String Ascii Bool.
From Stdlib Require Import Lia Lqa Qpower.
From Stdlib Require Import Sorting.Permutation Sorting.Sorted.
From Stdlib Require Import Numbers.DecimalString.
Import ListNotations.

Set Implicit Arguments.

(* ===================================================================== *)
(** * Calls that may raise *)
(* ===================================================================== *)

(** The result of running a Python call: a value, or a raised exception
    carrying its message. *)
Inductive outcome (A : Type) : Type :=
| Returned (a : A)
| Raised (e : string).

Arguments Returned {A} a.
Arguments Raised {A} e.

Definition bind {A B : Type} (c : outcome A) (k : A -> outcome B) : outcome B :=
  match c with
  | Returned a => k a
  | Raised e => Raised e
  end.

Notation "x <- c ;; k" := (bind c (fun x => k))
  (at level 61, c at next level, right associativity).

(* ===================================================================== *)
(** * Python builtins used by the services *)
(* ===================================================================== *)

Module Py.

Local Open Scope string_scope.

(** ** Truthiness *)

(** [if s:] for [s : str | None]. *)
Definition truthy_str (o : option string) : bool :=
  match o with
  | Some s => negb (s =? "")
  | None => false
  end.

(** [if x:] for [x : float | None]. *)
Definition truthy_float (o : option Q) : bool :=
  match o with
  | Some q => negb (Qeq_bool q 0)
  | None => false
  end.

(** [not l] for a list. *)
Definition is_empty {A : Type} (l : list A) : bool :=
  match l with
  | [] => true
  | _ :: _ => false
  end.

(** ** Strings *)

(** [c.isspace()]: tab to carriage return, the four separators
    0x1c..0x1f, space, NEL (0x85) and no-break space (0xa0). *)
Definition isspace (c : ascii) : bool :=
  let n := nat_of_ascii c in
  ((9 <=? n) && (n <=? 13) || (28 <=? n) && (n <=? 32)
   || (n =? 133) || (n =? 160))%nat.

Fixpoint lstrip (s : string) : string :=
  match s with
  | EmptyString => EmptyString
  | String c s' => if isspace c then lstrip s' else s
  end.

Fixpoint rstrip (s : string) : string :=
  match s with
  | EmptyString => EmptyString
  | String c s' =>
      match rstrip s' with
      | EmptyString => if isspace c then EmptyString else String c EmptyString
      | r => String c r
      end
  end.

(** [s.strip()] *)
Definition strip (s : string) : string := rstrip (lstrip s).

(** [c.lower()] on one character: A..Z and the Latin-1 capitals. *)
Definition lower_char (c : ascii) : ascii :=
  let n := nat_of_ascii c in
  if ((65 <=? n) && (n <=? 90)
      || (192 <=? n) && (n <=? 222) && negb (n =? 215))%nat
  then ascii_of_nat (n + 32)
  else c.

(** [s.lower()] *)
Fixpoint lower (s : string) : string :=
  match s with
  | EmptyString => EmptyString
  | String c s' => String (lower_char c) (lower s')
  end.

(** [s.replace(c, "")] for a one-character [c]. *)
Fixpoint remove_char (c : ascii) (s : string) : string :=
  match s with
  | EmptyString => EmptyString
  | String d s' =>
      if Ascii.eqb c d then remove_char c s' else String d (remove_char c s')
  end.

(** [sep in s] *)
Fixpoint contains (sep s : string) : bool :=
  prefix sep s ||
  match s with
  | EmptyString => false
  | String _ s' => contains sep s'
  end.

(** [s.split(sep)[0]] for a non-empty [sep]: the text before the first
    occurrence of [sep], the whole of [s] when there is none. *)
Fixpoint split_head (sep s : string) : string :=
  if prefix sep s then EmptyString
  else match s with
       | EmptyString => EmptyString
       | String c s' => String c (split_head sep s')
       end.

(** [s.rsplit(sep, 1)[0]] for a non-empty [sep]: the text before the last
    occurrence of [sep], the whole of [s] when there is none. *)
Fixpoint rsplit1_head (sep s : string) : string :=
  match s with
  | EmptyString => EmptyString
  | String c s' =>
      if contains sep s' then String c (rsplit1_head sep s')
      else if prefix sep s then EmptyString
      else s
  end.

(** [s[:n]] *)
Fixpoint slice_to (n : nat) (s : string) : string :=
  match n, s with
  | S n', String c s' => String c (slice_to n' s')
  | _, _ => EmptyString
  end.

(** [sep.join(parts)] *)
Definition join (sep : string) (parts : list string) : string :=
  String.concat sep parts.

(** ** Numbers *)

(** [a < b] on floats. *)
Definition Qlt_bool (a b : Q) : bool := negb (Qle_bool b a).

(** Rounding to the nearest integer, ties to the even one. *)
Definition round_half_even (q : Q) : Z :=
  let f := Qfloor q in
  match (q - inject_Z f ?= 1 # 2)%Q with
  | Lt => f
  | Gt => (f + 1)%Z
  | Eq => if Z.even f then f else (f + 1)%Z
  end.

(** [round(x, 2)] *)
Definition round2 (x : Q) : Q :=
  (inject_Z (round_half_even (x * 100)) / 100)%Q.

(** The decimal digits of an integer. *)
Definition str_of_Z (n : Z) : string :=
  NilZero.string_of_int (Z.to_int n).

(** [f"{x:.0f}"]: the sign of [x], then the digits of [x] rounded to an
    integer (a negative [x] that rounds to zero prints as [-0]). *)
Definition format_0f (x : Q) : string :=
  if Qlt_bool x 0
  then "-" ++ str_of_Z (Z.abs (round_half_even x))
  else str_of_Z (round_half_even x).

(** [sum(l)] *)
Fixpoint Qsum (l : list Q) : Q :=
  match l with
  | [] => 0
  | x :: l' => x + Qsum l'
  end.

(** [statistics.mean(l)]; raises [StatisticsError] on an empty list. *)
Definition mean (l : list Q) : outcome Q :=
  match l with
  | [] => Raised "mean requires at least one data point"
  | _ :: _ => Returned (Qsum l / inject_Z (Z.of_nat (List.length l)))%Q
  end.

(** The running minimum of [min]: the first least element. *)
Fixpoint min_from (m : Q) (l : list Q) : Q :=
  match l with
  | [] => m
  | x :: l' => min_from (if Qlt_bool x m then x else m) l'
  end.

(** The running maximum of [max]: the first greatest element. *)
Fixpoint max_from (m : Q) (l : list Q) : Q :=
  match l with
  | [] => m
  | x :: l' => max_from (if Qlt_bool m x then x else m) l'
  end.

(** [min(l)]; raises [ValueError] on an empty list. *)
Definition min (l : list Q) : outcome Q :=
  match l with
  | [] => Raised "min() arg is an empty sequence"
  | x :: l' => Returned (min_from x l')
  end.

(** [max(l)]; raises [ValueError] on an empty list. *)
Definition max (l : list Q) : outcome Q :=
  match l with
  | [] => Raised "max() arg is an empty sequence"
  | x :: l' => Returned (max_from x l')
  end.

(** Insertion in front of the first element that is not smaller. *)
Fixpoint insert (x : Q) (l : list Q) : list Q :=
  match l with
  | [] => [x]
  | y :: l' => if Qle_bool x y then x :: l else y :: insert x l'
  end.

(** [sorted(l)]: ascending and stable. *)
Fixpoint sorted (l : list Q) : list Q :=
  match l with
  | [] => []
  | x :: l' => insert x (sorted l')
  end.

(** [l[i]] for [0 <= i]; raises [IndexError] out of range. *)
Definition getitem (l : list Q) (i : nat) : outcome Q :=
  match nth_error l i with
  | Some x => Returned x
  | None => Raised "list index out of range"
  end.

(** ** A decimal instance of [float(s)]

    [float] itself is a parameter of the pricing service below.  This
    instance reads the plain decimal literals [ddd] and [ddd.ddd], with
    surrounding white space, and is used to run the service on concrete
    listings. *)

Definition digit_of (c : ascii) : option Z :=
  let n := nat_of_ascii c in
  if ((48 <=? n) && (n <=? 57))%nat then Some (Z.of_nat (n - 48)) else None.

(** Reads digits into [(value, number of digits)]. *)
Fixpoint read_digits (acc : Z) (k : nat) (s : string) : option (Z * nat) :=
  match s with
  | EmptyString => Some (acc, k)
  | String c s' =>
      match digit_of c with
      | Some d => read_digits (10 * acc + d)%Z (S k) s'
      | None => None
      end
  end.

Definition float_decimal (s : string) : option Q :=
  let s := strip s in
  let int_part := split_head "." s in
  let frac_part :=
    if contains "." s
    then substring (S (String.length int_part)) (String.length s) s
    else EmptyString in
  match read_digits 0 0 int_part, read_digits 0 0 frac_part with
  | Some (i, ki), Some (f, kf) =>
      if ((ki + kf =? 0)%nat) then None
      else Some (Qred (inject_Z i + inject_Z f / inject_Z (10 ^ Z.of_nat kf)))%Q
  | _, _ => None
  end.

End Py.

(* ===================================================================== *)
(** * app/schemas/loot.py *)
(* ===================================================================== *)

Module Schemas.

(** [class GeminiVisionResult]: every field is [str | None = None]. *)
Record GeminiVisionResult : Type := {
  brand : option string;
  model : option string;
  condition : option string;
  color : option string;
  category : option string;
  raw_description : option string
}.

(** [class PriceDataResult] *)
Record PriceDataResult : Type := {
  min_price : option Q;
  max_price : option Q;
  avg_price : option Q;
  currency : string;
  source_count : Z
}.

(** [PriceDataResult(source_count=n)]: the other fields at their
    defaults. *)
Definition PriceDataResult_of_count (n : Z) : PriceDataResult :=
  {| min_price := None; max_price := None; avg_price := None;
     currency := "USD"; source_count := n |}.

(** [GeminiVisionResult(category=c, raw_description=d)]: the other fields
    at their defaults. *)
Definition GeminiVisionResult_of_description (c d : string)
  : GeminiVisionResult :=
  {| brand := None; model := None; condition := None; color := None;
     category := Some c; raw_description := Some d |}.

(** [class LootAnalysisResponse] *)
Module LootAnalysisResponse.
Record t : Type := {
  item_name : string;
  estimated_value : string;
  confidence_score : Q;
  description : string;
  rarity_score : string;
  category : string;
  market_demand : string;
  source_count : Z
}.
End LootAnalysisResponse.

End Schemas.

(* ===================================================================== *)
(** * app/services/serpapi_service.py *)
(* ===================================================================== *)

Module SerpApiPricingService.
Import Schemas.

Local Open Scope string_scope.

(** One entry of ["shopping_results"]: the two keys the service reads.
    [None] is a missing key or a JSON [null]. *)
Record ShoppingItem : Type := {
  extracted_price : option Q;
  price : option string
}.

(** The dictionary returned by [GoogleSearch(params).get_dict()]; [None]
    is a missing ["shopping_results"] key. *)
Record SearchResults : Type := {
  shopping_results : option (list ShoppingItem)
}.

(** [results.get("shopping_results", [])] *)
Definition get_shopping_results (results : SearchResults)
  : list ShoppingItem :=
  match shopping_results results with
  | Some l => l
  | None => []
  end.

(** [_remove_outliers] *)
Definition _remove_outliers (prices : list Q) : list Q :=
  if (List.length prices <? 4)%nat then prices
  else
    let sorted_prices := Py.sorted prices in
    let n := List.length sorted_prices in
    let q1_idx := (n / 4)%nat in
    let q3_idx := ((3 * n) / 4)%nat in
    let q1 := nth q1_idx sorted_prices 0%Q in
    let q3 := nth q3_idx sorted_prices 0%Q in
    let iqr := (q3 - q1)%Q in
    let lower_bound := (q1 - 1.5 * iqr)%Q in
    let upper_bound := (q3 + 1.5 * iqr)%Q in
    filter (fun p => Qle_bool lower_bound p && Qle_bool p upper_bound) prices.

(** Lines 68 to 91 of [get_price_data]: the statistics of the filtered
    prices, from the fall-back on the unfiltered ones to the returned
    summary. *)
Definition price_statistics (prices filtered_prices : list Q)
  : outcome PriceDataResult :=
  let filtered_prices :=
    if Py.is_empty filtered_prices then prices else filtered_prices in
  avg_price <- Py.mean filtered_prices ;;
  range <-
    (if (4 <=? List.length filtered_prices)%nat then
       let sorted_prices := Py.sorted filtered_prices in
       let q1_idx := (List.length sorted_prices / 4)%nat in
       let q3_idx := ((3 * List.length sorted_prices) / 4)%nat in
       min_price <- Py.getitem sorted_prices q1_idx ;;
       max_price <- Py.getitem sorted_prices q3_idx ;;
       Returned (min_price, max_price)
     else
       min_price <- Py.min filtered_prices ;;
       max_price <- Py.max filtered_prices ;;
       Returned (min_price, max_price)) ;;
  Returned
    {| min_price := Some (Py.round2 (fst range));
       max_price := Some (Py.round2 (snd range));
       avg_price := Some (Py.round2 avg_price);
       currency := "USD";
       source_count := Z.of_nat (List.length filtered_prices) |}.

Section Service.

(** [float(s)] on a string: [None] when it raises [ValueError]. *)
Variable float : string -> option Q.

(** [GoogleSearch(params).get_dict()] for the query [q]. *)
Variable get_dict : string -> outcome SearchResults.

(** [_parse_price_string] *)
Definition _parse_price_string (price_str : string) : option Q :=
  if price_str =? "" then None
  else
    let cleaned :=
      Py.strip (Py.remove_char "," (Py.remove_char "$" price_str)) in
    let cleaned :=
      if Py.contains " - " cleaned then Py.split_head " - " cleaned
      else cleaned in
    let cleaned :=
      if Py.contains " to " (Py.lower cleaned)
      then Py.split_head " to " (Py.lower cleaned)
      else cleaned in
    float cleaned.

(** [_extract_prices] *)
Fixpoint _extract_prices (shopping_results : list ShoppingItem) : list Q :=
  match shopping_results with
  | [] => []
  | item :: rest =>
      let price :=
        match extracted_price item with
        | Some p => Some p
        | None =>
            let price_str :=
              match price item with Some s => s | None => "" end in
            _parse_price_string price_str
        end in
      match price with
      | Some p =>
          if Py.Qlt_bool 0 p then p :: _extract_prices rest
          else _extract_prices rest
      | None => _extract_prices rest
      end
  end.

(** The body of the [try] block of [get_price_data]. *)
Definition get_price_data_try (query : string) : outcome PriceDataResult :=
  results <- get_dict query ;;
  let shopping_results := get_shopping_results results in
  if Py.is_empty shopping_results then
    Returned (PriceDataResult_of_count 0)
  else
    let prices := _extract_prices shopping_results in
    if Py.is_empty prices then
      Returned
        (PriceDataResult_of_count (Z.of_nat (List.length shopping_results)))
    else
      let filtered_prices := _remove_outliers prices in
      price_statistics prices filtered_prices.

(** [get_price_data]: the [try] block and its [except Exception]. *)
Definition get_price_data (query : string) : outcome PriceDataResult :=
  match get_price_data_try query with
  | Returned r => Returned r
  | Raised _ => Returned (PriceDataResult_of_count 0)
  end.

End Service.

End SerpApiPricingService.

(* ===================================================================== *)
(** * app/services/gemini_service.py *)
(* ===================================================================== *)

Module GeminiVisionService.
Import Schemas.

Local Open Scope string_scope.

(** The member values of a JSON object, as far as the service tells them
    apart: [null], a string, anything else. *)
Inductive jvalue : Type :=
| JNull
| JString (s : string)
| JOther.

(** The values [json.loads] can return: an object, or anything else. *)
Inductive json : Type :=
| JObject (members : list (string * jvalue))
| JNotObject.

(** [data.get(key)] on a dictionary; [None] is a missing key. *)
Fixpoint dict_get (key : string) (data : list (string * jvalue))
  : option jvalue :=
  match data with
  | [] => None
  | (k, v) :: rest => if k =? key then Some v else dict_get key rest
  end.

(** Validation of a [str | None] field of [GeminiVisionResult]: a value
    that is neither a string nor [None] raises a validation error. *)
Definition validate_optional_str (v : option jvalue)
  : outcome (option string) :=
  match v with
  | None => Returned None
  | Some JNull => Returned None
  | Some (JString s) => Returned (Some s)
  | Some JOther => Raised "Input should be a valid string"
  end.

(** [s[n:]] *)
Fixpoint slice_from (n : nat) (s : string) : string :=
  match n, s with
  | S n', String _ s' => slice_from n' s'
  | _, _ => s
  end.

(** [s.endswith(suffix)] *)
Definition endswith (suffix s : string) : bool :=
  (String.length suffix <=? String.length s)%nat
  && (slice_from (String.length s - String.length suffix) s =? suffix).

Section Service.

(** [self.model.generate_content(...).text] for the image [image_data]. *)
Variable generate_content_text : list Byte.byte -> outcome string.

(** [json.loads(s)]; [None] when it raises [JSONDecodeError]. *)
Variable json_loads : string -> option json.

(** [_parse_response] *)
Definition _parse_response (response_text : string)
  : outcome GeminiVisionResult :=
  let cleaned := Py.strip response_text in
  let cleaned :=
    if prefix "```json" cleaned then slice_from 7 cleaned else cleaned in
  let cleaned :=
    if prefix "```" cleaned then slice_from 3 cleaned else cleaned in
  let cleaned :=
    if endswith "```" cleaned
    then Py.slice_to (String.length cleaned - 3) cleaned
    else cleaned in
  let cleaned := Py.strip cleaned in
  match json_loads cleaned with
  | None =>
      Returned
        (GeminiVisionResult_of_description "Unknown"
           (if response_text =? "" then "Parse error"
            else Py.slice_to 200 response_text))
  | Some (JObject data) =>
      brand <- validate_optional_str (dict_get "brand" data) ;;
      model <- validate_optional_str (dict_get "model" data) ;;
      condition <- validate_optional_str (dict_get "condition" data) ;;
      color <- validate_optional_str (dict_get "color" data) ;;
      category <-
        validate_optional_str
          (match dict_get "category" data with
           | None => Some (JString "Unknown")
           | v => v
           end) ;;
      raw_description <-
        validate_optional_str
          (match dict_get "raw_description" data with
           | None => Some (JString "No description available")
           | v => v
           end) ;;
      Returned
        {| brand := brand; model := model; condition := condition;
           color := color; category := category;
           raw_description := raw_description |}
  | Some JNotObject => Raised "object has no attribute 'get'"
  end.

(** The body of the [try] block of [identify_item]. *)
Definition identify_item_try (image_data : list Byte.byte)
  : outcome GeminiVisionResult :=
  text <- generate_content_text image_data ;;
  _parse_response text.

(** [identify_item]: the [try] block and its [except Exception]. *)
Definition identify_item (image_data : list Byte.byte)
  : outcome GeminiVisionResult :=
  match identify_item_try image_data with
  | Returned r => Returned r
  | Raised e =>
      Returned
        (GeminiVisionResult_of_description "Unknown"
           ("Unable to identify item: " ++ e))
  end.

End Service.

End GeminiVisionService.

(* ===================================================================== *)
(** * app/services/appraiser_service.py *)
(* ===================================================================== *)

Module AppraiserService.
Import Schemas.

Local Open Scope string_scope.

(** The [parts] list that [_build_search_query] and [_format_item_name]
    start with: the brand, then the model, each when truthy. *)
Definition brand_model_parts (vision_result : GeminiVisionResult)
  : list string :=
  ((if Py.truthy_str (brand vision_result)
    then match brand vision_result with Some b => [b] | None => [] end
    else [])
   ++
   (if Py.truthy_str (model vision_result)
    then match model vision_result with Some m => [m] | None => [] end
    else []))%list.

(** [_build_search_query] *)
Definition _build_search_query (vision_result : GeminiVisionResult) : string :=
  let parts := brand_model_parts vision_result in
  if negb (Py.is_empty parts) then Py.join " " parts
  else
    match raw_description vision_result with
    | Some d =>
        if Py.truthy_str (Some d) then
          let desc := Py.strip d in
          if Py.contains ". " desc then Py.split_head ". " desc
          else if (80 <? String.length desc)%nat then Py.slice_to 80 desc
          else desc
        else
          match category vision_result with
          | Some c =>
              if Py.truthy_str (Some c) && negb (c =? "Unknown") then c
              else "unknown item"
          | None => "unknown item"
          end
    | None =>
        match category vision_result with
        | Some c =>
            if Py.truthy_str (Some c) && negb (c =? "Unknown") then c
            else "unknown item"
        | None => "unknown item"
        end
    end.

(** The last resort of [_format_item_name]: the category, or the
    literal. *)
Definition category_item_name (vision_result : GeminiVisionResult) : string :=
  match category vision_result with
  | Some c =>
      if Py.truthy_str (Some c) && negb (c =? "Unknown") then c ++ " Item"
      else "Unidentified Item"
  | None => "Unidentified Item"
  end.

(** [_format_item_name] *)
Definition _format_item_name (vision_result : GeminiVisionResult) : string :=
  let parts := brand_model_parts vision_result in
  if negb (Py.is_empty parts) then Py.join " " parts
  else
    match raw_description vision_result with
    | Some d =>
        if Py.truthy_str (Some d) then
          let desc := Py.strip d in
          if Py.contains ". " desc then Py.split_head ". " desc
          else if (50 <? String.length desc)%nat then
            Py.rsplit1_head " " (Py.slice_to 50 desc) ++ "..."
          else desc
        else category_item_name vision_result
    | None => category_item_name vision_result
    end.

(** [_format_price_range] *)
Definition _format_price_range (price_data : PriceDataResult) : string :=
  match avg_price price_data with
  | None => "Price unavailable"
  | Some avg =>
      match min_price price_data, max_price price_data with
      | Some lo, Some hi =>
          if Py.truthy_float (Some lo) && Py.truthy_float (Some hi) then
            let spread := (hi - lo)%Q in
            if Qle_bool spread (avg * 0.3)%Q then "~$" ++ Py.format_0f avg
            else "$" ++ Py.format_0f lo ++ " - $" ++ Py.format_0f hi
          else "~$" ++ Py.format_0f avg
      | _, _ => "~$" ++ Py.format_0f avg
      end
  end.

(** [_calculate_confidence] *)
Definition _calculate_confidence
  (vision_result : GeminiVisionResult) (price_data : PriceDataResult) : Q :=
  let score := 0.5%Q in
  let score :=
    if Py.truthy_str (brand vision_result) then (score + 0.15)%Q else score in
  let score :=
    if Py.truthy_str (model vision_result) then (score + 0.15)%Q else score in
  let score :=
    if Py.truthy_str (condition vision_result) then (score + 0.05)%Q
    else score in
  let score :=
    if (10 <=? source_count price_data)%Z then (score + 0.15)%Q
    else if (5 <=? source_count price_data)%Z then (score + 0.10)%Q
    else score in
  if Py.Qlt_bool 1.0 score then 1.0%Q else score.

(** [_generate_description] *)
Definition _generate_description (vision_result : GeminiVisionResult)
  : string :=
  let parts :=
    ((match raw_description vision_result with
      | Some d => if Py.truthy_str (Some d) then [d] else []
      | None => []
      end)
     ++
     (match condition vision_result with
      | Some c =>
          if Py.truthy_str (Some c)
          then [("Condition: " ++ c ++ ".")%string] else []
      | None => []
      end)
     ++
     (match color vision_result with
      | Some c =>
          if Py.truthy_str (Some c)
          then [("Color: " ++ c ++ ".")%string] else []
      | None => []
      end))%list in
  if negb (Py.is_empty parts) then Py.join " " parts
  else "No description available.".

(** [_calculate_rarity] *)
Definition _calculate_rarity (price_data : PriceDataResult) : string :=
  match avg_price price_data with
  | None => "Unknown"
  | Some avg =>
      let sources := source_count price_data in
      if Py.Qlt_bool 500 avg && (sources <? 5)%Z then "Legendary"
      else if Py.Qlt_bool 300 avg || (sources <? 3)%Z then "Epic"
      else if Py.Qlt_bool 150 avg || (sources <? 8)%Z then "Rare"
      else if Py.Qlt_bool 75 avg then "Uncommon"
      else "Common"
  end.

(** [_calculate_market_demand] *)
Definition _calculate_market_demand (price_data : PriceDataResult) : string :=
  let sources := source_count price_data in
  if (15 <=? sources)%Z then "High"
  else if (5 <=? sources)%Z then "Medium"
  else "Low".

(** [_build_response] *)
Definition _build_response
  (vision_result : GeminiVisionResult) (price_data : PriceDataResult)
  : LootAnalysisResponse.t :=
  {| LootAnalysisResponse.item_name := _format_item_name vision_result;
     LootAnalysisResponse.estimated_value := _format_price_range price_data;
     LootAnalysisResponse.confidence_score :=
       _calculate_confidence vision_result price_data;
     LootAnalysisResponse.description := _generate_description vision_result;
     LootAnalysisResponse.rarity_score := _calculate_rarity price_data;
     LootAnalysisResponse.category :=
       match category vision_result with
       | Some c => if Py.truthy_str (Some c) then c else "Unknown"
       | None => "Unknown"
       end;
     LootAnalysisResponse.market_demand := _calculate_market_demand price_data;
     LootAnalysisResponse.source_count := source_count price_data |}.

Section Orchestrator.

(** [self.vision_service.identify_item] *)
Variable vision_service : list Byte.byte -> outcome GeminiVisionResult.

(** [self.pricing_service.get_price_data] *)
Variable pricing_service : string -> outcome PriceDataResult.

(** [analyze_item] *)
Definition analyze_item (image_data : list Byte.byte)
  : outcome LootAnalysisResponse.t :=
  vision_result <- vision_service image_data ;;
  let search_query := _build_search_query vision_result in
  price_data <- pricing_service search_query ;;
  Returned (_build_response vision_result price_data).

End Orchestrator.

End AppraiserService.

(* ===================================================================== *)
(** * Concrete listings and identifications *)
(* ===================================================================== *)

Module Examples.
Import Schemas SerpApiPricingService.

Local Open Scope string_scope.

(** A listing that carries an extracted price. *)
Definition priced (p : Q) : ShoppingItem :=
  {| extracted_price := Some p; price := None |}.

(** A search engine that answers every query with the same listings. *)
Definition search_returning (items : list ShoppingItem)
  : string -> outcome SearchResults :=
  fun _ => Returned {| shopping_results := Some items |}.

(** A search engine whose every call fails. *)
Definition search_failing (e : string) : string -> outcome SearchResults :=
  fun _ => Raised e.

(** Four listings at 7, 10, 10 and 12 dollars. *)
Definition four_listings : list ShoppingItem :=
  [priced 7; priced 10; priced 10; priced 12].

(** The six listings of the specification's scenario. *)
Definition six_listings : list ShoppingItem :=
  [priced 100; priced 110; priced 105; priced 95; priced 1000; priced 90].

(** Two listings, neither with a usable price. *)
Definition unpriced_listings : list ShoppingItem :=
  [ {| extracted_price := None; price := Some "Call for price" |};
    {| extracted_price := None; price := None |} ].

(** A summary with an average and no range. *)
Definition average_only : PriceDataResult :=
  {| min_price := None; max_price := None; avg_price := Some 100%Q;
     currency := "USD"; source_count := 5 |}.

(** The summaries of property P5. *)
Definition tight_summary : PriceDataResult :=
  {| min_price := Some 95%Q; max_price := Some 105%Q;
     avg_price := Some 100%Q; currency := "USD"; source_count := 5 |}.

Definition wide_summary : PriceDataResult :=
  {| min_price := Some 50%Q; max_price := Some 200%Q;
     avg_price := Some 100%Q; currency := "USD"; source_count := 5 |}.

(** The summary of property P6. *)
Definition scarce_summary : PriceDataResult :=
  {| min_price := Some 180%Q; max_price := Some 220%Q;
     avg_price := Some 200%Q; currency := "USD"; source_count := 2 |}.

(** An identification that carries a description only. *)
Definition described (d : string) : GeminiVisionResult :=
  {| brand := None; model := None; condition := None; color := None;
     category := Some "Other"; raw_description := Some d |}.

(** An identification that carries a category only. *)
Definition categorised (c : option string) : GeminiVisionResult :=
  {| brand := None; model := None; condition := None; color := None;
     category := c; raw_description := None |}.

(** A description of 54 characters without a space. *)
Definition unbroken_description : string :=
  "Supercalifragilisticexpialidocious-extraordinary-thing".

(** A description of 67 characters without a sentence boundary. *)
Definition long_description : string :=
  "A hand-painted ceramic vase with blue floral patterns and gold trim".

(** The first mock identification of the development vision service. *)
Definition sneaker : GeminiVisionResult :=
  {| brand := Some "Nike"; model := Some "Air Jordan 1 Retro High OG";
     condition := Some "Excellent"; color := Some "Chicago Red/White/Black";
     category := Some "Sneakers";
     raw_description := Some "Classic high-top basketball sneaker" |}.

(** An identification call that always fails. *)
Definition vision_failing (e : string)
  : list Byte.byte -> outcome string :=
  fun _ => Raised e.

(** A JSON decoder that accepts nothing. *)
Definition json_rejecting : string -> option GeminiVisionService.json :=
  fun _ => None.

End Examples.

(* ===================================================================== *)
(** * app/services/appraiser_service.py: the development services *)
(* ===================================================================== *)

Module MockServices.
Import Schemas.

Local Open Scope string_scope.

(** The [mock_items] of [MockGeminiService.identify_item]. *)
Definition mock_items : list GeminiVisionResult :=
  [ {| brand := Some "Nike"; model := Some "Air Jordan 1 Retro High OG";
       condition := Some "Excellent";
       color := Some "Chicago Red/White/Black";
       category := Some "Sneakers";
       raw_description := Some "Classic high-top basketball sneaker" |};
    {| brand := Some "Apple"; model := Some "iPhone 14 Pro";
       condition := Some "Good"; color := Some "Space Black";
       category := Some "Electronics";
       raw_description := Some "Smartphone with minor scratches" |};
    {| brand := Some "Vintage"; model := Some "1985 Coca-Cola Sign";
       condition := Some "Fair"; color := Some "Red/White";
       category := Some "Vintage";
       raw_description := Some "Original metal advertising sign" |} ].

(** [MockGeminiService.identify_item]; [random.choice(mock_items)] returns
    the item at the drawn position [k], taken below the length. *)
Definition mock_identify_item (k : nat) (image_data : list Byte.byte)
  : outcome GeminiVisionResult :=
  match nth_error mock_items (k mod List.length mock_items) with
  | Some item => Returned item
  | None => Raised "Cannot choose from an empty sequence"
  end.

(** The [mock_prices] of [MockSerpApiService.get_price_data], in the
    insertion order of the dictionary. *)
Definition mock_prices : list (string * PriceDataResult) :=
  [ ("sneakers",
     {| min_price := Some 150.0%Q; max_price := Some 350.0%Q;
        avg_price := Some 220.0%Q; currency := "USD"; source_count := 15 |});
    ("electronics",
     {| min_price := Some 600.0%Q; max_price := Some 1100.0%Q;
        avg_price := Some 850.0%Q; currency := "USD"; source_count := 25 |});
    ("vintage",
     {| min_price := Some 75.0%Q; max_price := Some 200.0%Q;
        avg_price := Some 125.0%Q; currency := "USD"; source_count := 8 |}) ].

(** The loop of [MockSerpApiService.get_price_data] over the items of
    [mock_prices], ending in the default summary. *)
Fixpoint mock_lookup (query_lower : string)
  (table : list (string * PriceDataResult)) : PriceDataResult :=
  match table with
  | [] =>
      {| min_price := Some 50.0%Q; max_price := Some 150.0%Q;
         avg_price := Some 100.0%Q; currency := "USD"; source_count := 5 |}
  | (category, prices) :: rest =>
      if Py.contains category query_lower then prices
      else mock_lookup query_lower rest
  end.

(** [MockSerpApiService.get_price_data] *)
Definition mock_get_price_data (query : string) : outcome PriceDataResult :=
  let query_lower := Py.lower query in
  Returned (mock_lookup query_lower mock_prices).

End MockServices.

(* ===================================================================== *)
(** * app/routers/scan.py *)
(* ===================================================================== *)

Module ScanRouter.
Import Schemas.

Local Open Scope string_scope.

Definition MAX_FILE_SIZE : Z := 10 * 1024 * 1024.

(** The set [ALLOWED_CONTENT_TYPES]. *)
Definition ALLOWED_CONTENT_TYPES : list string :=
  ["image/jpeg"; "image/png"; "image/webp"; "image/heic"].

(** [x in ALLOWED_CONTENT_TYPES] for [x : str | None]. *)
Definition is_allowed (content_type : option string) : bool :=
  match content_type with
  | Some t => existsb (String.eqb t) ALLOWED_CONTENT_TYPES
  | None => false
  end.

(** The upload as the endpoint reads it: its declared content type and
    the bytes [await image.read()] returns. *)
Record UploadFile : Type := {
  content_type : option string;
  read : list Byte.byte
}.

(** What the endpoint does: returns a report, raises an [HTTPException],
    or lets another exception through. *)
Inductive endpoint_result : Type :=
| Response (report : LootAnalysisResponse.t)
| HTTPException (status_code : Z) (detail : string)
| Unhandled (e : string).

Definition HTTP_415_UNSUPPORTED_MEDIA_TYPE : Z := 415.
Definition HTTP_413_REQUEST_ENTITY_TOO_LARGE : Z := 413.
Definition HTTP_400_BAD_REQUEST : Z := 400.

Section Endpoint.

(** [service.analyze_item] of the injected [AppraiserService]. *)
Variable service_analyze_item
  : list Byte.byte -> outcome LootAnalysisResponse.t.

(** [', '.join(ALLOWED_CONTENT_TYPES)]: the order in which the set is
    iterated is not fixed by the language. *)
Variable allowed_types_joined : string.

(** [analyze_item], the [/scan/analyze] endpoint. *)
Definition analyze_item (image : UploadFile) : endpoint_result :=
  if negb (is_allowed (content_type image)) then
    HTTPException HTTP_415_UNSUPPORTED_MEDIA_TYPE
      ("Unsupported file type: "
       ++ match content_type image with Some t => t | None => "None" end
       ++ ". " ++ "Allowed types: " ++ allowed_types_joined)
  else
    let image_data := read image in
    if (MAX_FILE_SIZE <? Z.of_nat (List.length image_data))%Z then
      HTTPException HTTP_413_REQUEST_ENTITY_TOO_LARGE
        ("File too large. Maximum size is "
         ++ Py.str_of_Z (MAX_FILE_SIZE / (1024 * 1024)) ++ " MB.")
    else if (Z.of_nat (List.length image_data) =? 0)%Z then
      HTTPException HTTP_400_BAD_REQUEST "Empty file uploaded."
    else
      match service_analyze_item image_data with
      | Returned result => Response result
      | Raised e => Unhandled e
      end.

End Endpoint.

End ScanRouter.

(* ===================================================================== *)
(** * The order of the tiers *)
(* ===================================================================== *)

Module Tiers.

Local Open Scope string_scope.

(** The rarity tiers from the most common to the rarest; ["Unknown"] and
    any other text rank lowest. *)
Definition rarity_rank (tier : string) : nat :=
  if tier =? "Legendary" then 5
  else if tier =? "Epic" then 4
  else if tier =? "Rare" then 3
  else if tier =? "Uncommon" then 2
  else if tier =? "Common" then 1
  else 0.

(** The demand tiers from the lowest to the highest. *)
Definition demand_rank (tier : string) : nat :=
  if tier =? "High" then 3
  else if tier =? "Medium" then 2
  else if tier =? "Low" then 1
  else 0.

End Tiers.

(* ===================================================================== *)
(** * app/services/gemini_service.py: the text handed to the decoder *)
(* ===================================================================== *)

Module GeminiCleaning.
Import GeminiVisionService.

Local Open Scope string_scope.

(** Lines 106 to 113 of [_parse_response]: the response without its
    surrounding white space and markdown code fence. *)
Definition cleaned_response (response_text : string) : string :=
  let cleaned := Py.strip response_text in
  let cleaned :=
    if prefix "```json" cleaned then slice_from 7 cleaned else cleaned in
  let cleaned :=
    if prefix "```" cleaned then slice_from 3 cleaned else cleaned in
  let cleaned :=
    if endswith "```" cleaned
    then Py.slice_to (String.length cleaned - 3) cleaned
    else cleaned in
  Py.strip cleaned.

End GeminiCleaning.

(* ===================================================================== *)
(** * Binary64 floating point

    The services compute on Python [float]s.  Where a property depends on
    rounding or on the values that are not finite, the functions are
    embedded a second time over the type below: a finite value carries the
    rational it denotes, every arithmetic result is rounded to the nearest
    double with ties to even, and infinities and NaN follow IEEE 754. *)
(* ===================================================================== *)

Module Binary64.

Local Open Scope Q_scope.

Inductive float : Type :=
| Fin (q : Q)
| PInf
| NInf
| NaN.

(** The exponent [e] with [2 ^ e <= q < 2 ^ (e + 1)], for [0 < q]. *)
Definition log2_floor (q : Q) : Z :=
  let k := (Z.log2 (Qnum q) - Z.log2 (Zpos (Qden q)))%Z in
  if Qle_bool (2 ^ k) q then k else (k - 1)%Z.

(** The exponent of the unit in the last place of the doubles around
    [q]: 52 below the binade of [q], and never below that of the
    subnormal doubles. *)
Definition ulp_exponent (q : Q) : Z :=
  (Z.max (log2_floor q) (-1022) - 52)%Z.

(** Rounding of a positive rational to the nearest double, ties to the
    even significand; a result of [2 ^ 1024] or more overflows. *)
Definition round_pos (q : Q) : float :=
  let e := ulp_exponent q in
  let r := inject_Z (Py.round_half_even (q / 2 ^ e)) * 2 ^ e in
  if Qle_bool (2 ^ 1024) r then PInf else Fin (Qred r).

(** The value [round_pos] rounds to, before the overflow test. *)
Definition rounded_value (q : Q) : Q :=
  inject_Z (Py.round_half_even (q / 2 ^ ulp_exponent q)) * 2 ^ ulp_exponent q.

(** [-x] *)
Definition fneg (x : float) : float :=
  match x with
  | Fin q => Fin (- q)
  | PInf => NInf
  | NInf => PInf
  | NaN => NaN
  end.

(** Rounding of a rational to the nearest double. *)
Definition rnd (q : Q) : float :=
  match q ?= 0 with
  | Eq => Fin 0
  | Gt => round_pos q
  | Lt => fneg (round_pos (- q))
  end.

(** A finite value that is a double: rounding leaves it unchanged. *)
Definition is_double (x : float) : bool :=
  match x with
  | Fin q => match rnd q with Fin r => Qeq_bool r q | _ => false end
  | _ => false
  end.

(** Every element of a list is a finite double. *)
Definition doubles (l : list float) : Prop :=
  Forall (fun x => is_double x = true) l.

(** [x <= y] *)
Definition fle (x y : float) : bool :=
  match x, y with
  | NaN, _ | _, NaN => false
  | Fin a, Fin b => Qle_bool a b
  | NInf, _ => true
  | _, PInf => true
  | _, _ => false
  end.

(** [x < y] *)
Definition flt (x y : float) : bool :=
  match x, y with
  | NaN, _ | _, NaN => false
  | Fin a, Fin b => Py.Qlt_bool a b
  | NInf, NInf => false
  | PInf, PInf => false
  | NInf, _ => true
  | _, PInf => true
  | _, _ => false
  end.

(** [x + y] *)
Definition fadd (x y : float) : float :=
  match x, y with
  | NaN, _ | _, NaN => NaN
  | Fin a, Fin b => rnd (a + b)
  | PInf, NInf | NInf, PInf => NaN
  | PInf, _ | _, PInf => PInf
  | NInf, _ | _, NInf => NInf
  end.

(** [x - y] *)
Definition fsub (x y : float) : float := fadd x (fneg y).

(** The product of an infinity of sign [positive] and [y]. *)
Definition inf_times (positive : bool) (y : float) : float :=
  match y with
  | NaN => NaN
  | Fin b =>
      match b ?= 0 with
      | Eq => NaN
      | Gt => if positive then PInf else NInf
      | Lt => if positive then NInf else PInf
      end
  | PInf => if positive then PInf else NInf
  | NInf => if positive then NInf else PInf
  end.

(** [x * y] *)
Definition fmul (x y : float) : float :=
  match x, y with
  | NaN, _ | _, NaN => NaN
  | Fin a, Fin b => rnd (a * b)
  | PInf, _ => inf_times true y
  | NInf, _ => inf_times false y
  | _, PInf => inf_times true x
  | _, NInf => inf_times false x
  end.

(** [if x:] for [x : float | None]: zero and [None] are false. *)
Definition truthy_float (o : option float) : bool :=
  match o with
  | Some (Fin q) => negb (Qeq_bool q 0)
  | Some _ => true
  | None => false
  end.

(** Not zero: what makes a present price true in a condition. *)
Definition nonzero (x : float) : Prop :=
  match x with
  | Fin q => ~ q == 0
  | _ => True
  end.

(** [round(x, 2)]: the decimal rounding of the value, as a double;
    infinities and NaN round to themselves. *)
Definition round2 (x : float) : float :=
  match x with
  | Fin q => rnd (Py.round2 q)
  | _ => x
  end.

(** [f"{x:.0f}"] *)
Definition format_0f (x : float) : string :=
  match x with
  | Fin q => Py.format_0f q
  | PInf => "inf"
  | NInf => "-inf"
  | NaN => "nan"
  end.

(** The sum of the values of a list that are not finite, [None] when all
    are finite: what [statistics.mean] keeps apart from the exact sum. *)
Fixpoint special_sum (l : list float) : option float :=
  match l with
  | [] => None
  | Fin _ :: l' => special_sum l'
  | x :: l' =>
      match special_sum l' with
      | None => Some x
      | Some y => Some (fadd x y)
      end
  end.

(** The exact sum of the finite values of a list. *)
Fixpoint finite_sum (l : list float) : Q :=
  match l with
  | [] => 0
  | Fin q :: l' => q + finite_sum l'
  | _ :: l' => finite_sum l'
  end.

(** [statistics.mean(l)]: the exact mean rounded once, or the sum of the
    values that are not finite when there are some; raises
    [StatisticsError] on an empty list. *)
Definition mean (l : list float) : outcome float :=
  match l with
  | [] => Raised "mean requires at least one data point"
  | _ :: _ =>
      match special_sum l with
      | Some s => Returned s
      | None =>
          Returned (rnd (finite_sum l / inject_Z (Z.of_nat (List.length l))))
      end
  end.

(** The running minimum of [min]. *)
Fixpoint min_from (m : float) (l : list float) : float :=
  match l with
  | [] => m
  | x :: l' => min_from (if flt x m then x else m) l'
  end.

(** The running maximum of [max]. *)
Fixpoint max_from (m : float) (l : list float) : float :=
  match l with
  | [] => m
  | x :: l' => max_from (if flt m x then x else m) l'
  end.

(** [min(l)] *)
Definition min (l : list float) : outcome float :=
  match l with
  | [] => Raised "min() arg is an empty sequence"
  | x :: l' => Returned (min_from x l')
  end.

(** [max(l)] *)
Definition max (l : list float) : outcome float :=
  match l with
  | [] => Raised "max() arg is an empty sequence"
  | x :: l' => Returned (max_from x l')
  end.

(** Insertion in front of the first element that is not smaller; the
    sort compares with [<] only. *)
Fixpoint insert (x : float) (l : list float) : list float :=
  match l with
  | [] => [x]
  | y :: l' => if flt y x then y :: insert x l' else x :: l
  end.

(** [sorted(l)] on a list without NaN: ascending and stable. *)
Fixpoint sorted (l : list float) : list float :=
  match l with
  | [] => []
  | x :: l' => insert x (sorted l')
  end.

(** In ascending order. *)
Definition ascending (l : list float) : Prop :=
  StronglySorted (fun x y => fle x y = true) l.

(** [l[i]] for [0 <= i]; raises [IndexError] out of range. *)
Definition getitem (l : list float) (i : nat) : outcome float :=
  match nth_error l i with
  | Some x => Returned x
  | None => Raised "list index out of range"
  end.

(** [float(s)] on the plain decimal literals and on the spellings of
    infinity and NaN; [None] when it raises [ValueError]. *)
Definition float_of_string (s : string) : option float :=
  let t := Py.lower (Py.strip s) in
  if (t =? "inf")%string || (t =? "+inf")%string
     || (t =? "infinity")%string || (t =? "+infinity")%string
  then Some PInf
  else if (t =? "-inf")%string || (t =? "-infinity")%string then Some NInf
  else if (t =? "nan")%string || (t =? "+nan")%string
          || (t =? "-nan")%string then Some NaN
  else match Py.float_decimal s with
       | Some q => Some (rnd q)
       | None => None
       end.

End Binary64.

(* ===================================================================== *)
(** * The price statistics and the value display over binary64 *)
(* ===================================================================== *)

Module Schemas64.

(** [class PriceDataResult], its prices as doubles. *)
Record PriceDataResult : Type := {
  min_price : option Binary64.float;
  max_price : option Binary64.float;
  avg_price : option Binary64.float;
  currency : string;
  source_count : Z
}.

(** [PriceDataResult(source_count=n)] *)
Definition PriceDataResult_of_count (n : Z) : PriceDataResult :=
  {| min_price := None; max_price := None; avg_price := None;
     currency := "USD"; source_count := n |}.

End Schemas64.

Module SerpApiPricingService64.
Import Binary64 Schemas64.

Local Open Scope string_scope.

(** One entry of ["shopping_results"]; the extracted price is the double
    the JSON number denotes. *)
Record ShoppingItem : Type := {
  extracted_price : option float;
  price : option string
}.

Record SearchResults : Type := {
  shopping_results : option (list ShoppingItem)
}.

(** [results.get("shopping_results", [])] *)
Definition get_shopping_results (results : SearchResults)
  : list ShoppingItem :=
  match shopping_results results with
  | Some l => l
  | None => []
  end.

(** [_remove_outliers] *)
Definition _remove_outliers (prices : list float) : list float :=
  if (List.length prices <? 4)%nat then prices
  else
    let sorted_prices := sorted prices in
    let n := List.length sorted_prices in
    let q1_idx := (n / 4)%nat in
    let q3_idx := ((3 * n) / 4)%nat in
    let q1 := nth q1_idx sorted_prices NaN in
    let q3 := nth q3_idx sorted_prices NaN in
    let iqr := fsub q3 q1 in
    let lower_bound := fsub q1 (fmul (Fin 1.5) iqr) in
    let upper_bound := fadd q3 (fmul (Fin 1.5) iqr) in
    filter (fun p => fle lower_bound p && fle p upper_bound) prices.

(** Lines 68 to 91 of [get_price_data]. *)
Definition price_statistics (prices filtered_prices : list float)
  : outcome PriceDataResult :=
  let filtered_prices :=
    if Py.is_empty filtered_prices then prices else filtered_prices in
  avg_price <- mean filtered_prices ;;
  range <-
    (if (4 <=? List.length filtered_prices)%nat then
       let sorted_prices := sorted filtered_prices in
       let q1_idx := (List.length sorted_prices / 4)%nat in
       let q3_idx := ((3 * List.length sorted_prices) / 4)%nat in
       min_price <- getitem sorted_prices q1_idx ;;
       max_price <- getitem sorted_prices q3_idx ;;
       Returned (min_price, max_price)
     else
       min_price <- Binary64.min filtered_prices ;;
       max_price <- Binary64.max filtered_prices ;;
       Returned (min_price, max_price)) ;;
  Returned
    {| min_price := Some (round2 (fst range));
       max_price := Some (round2 (snd range));
       avg_price := Some (round2 avg_price);
       currency := "USD";
       source_count := Z.of_nat (List.length filtered_prices) |}.

Section Service.

(** [float(s)] on a string: [None] when it raises [ValueError]. *)
Variable float_of : string -> option float.

(** [GoogleSearch(params).get_dict()] for the query [q]. *)
Variable get_dict : string -> outcome SearchResults.

(** [_parse_price_string] *)
Definition _parse_price_string (price_str : string) : option float :=
  if price_str =? "" then None
  else
    let cleaned :=
      Py.strip (Py.remove_char "," (Py.remove_char "$" price_str)) in
    let cleaned :=
      if Py.contains " - " cleaned then Py.split_head " - " cleaned
      else cleaned in
    let cleaned :=
      if Py.contains " to " (Py.lower cleaned)
      then Py.split_head " to " (Py.lower cleaned)
      else cleaned in
    float_of cleaned.

(** [_extract_prices] *)
Fixpoint _extract_prices (shopping_results : list ShoppingItem)
  : list float :=
  match shopping_results with
  | [] => []
  | item :: rest =>
      let price :=
        match extracted_price item with
        | Some p => Some p
        | None =>
            let price_str :=
              match price item with Some s => s | None => "" end in
            _parse_price_string price_str
        end in
      match price with
      | Some p =>
          if flt (Fin 0) p then p :: _extract_prices rest
          else _extract_prices rest
      | None => _extract_prices rest
      end
  end.

(** The local [price] of the loop of [_extract_prices] for one listing:
    the extracted price, or else the parsed price string. *)
Definition listing_price (item : ShoppingItem) : option float :=
  match extracted_price item with
  | Some p => Some p
  | None =>
      _parse_price_string
        (match price item with Some s => s | None => "" end)
  end.

(** The body of the [try] block of [get_price_data]. *)
Definition get_price_data_try (query : string) : outcome PriceDataResult :=
  results <- get_dict query ;;
  let shopping_results := get_shopping_results results in
  if Py.is_empty shopping_results then
    Returned (PriceDataResult_of_count 0)
  else
    let prices := _extract_prices shopping_results in
    if Py.is_empty prices then
      Returned
        (PriceDataResult_of_count (Z.of_nat (List.length shopping_results)))
    else
      let filtered_prices := _remove_outliers prices in
      price_statistics prices filtered_prices.

(** [get_price_data]: the [try] block and its [except Exception]. *)
Definition get_price_data (query : string) : outcome PriceDataResult :=
  match get_price_data_try query with
  | Returned r => Returned r
  | Raised _ => Returned (PriceDataResult_of_count 0)
  end.

End Service.

End SerpApiPricingService64.

Module AppraiserService64.
Import Binary64 Schemas64.

Local Open Scope string_scope.

(** The literal [0.3]. *)
Definition literal_0_3 : float := rnd 0.3.

(** [_format_price_range] *)
Definition _format_price_range (price_data : PriceDataResult) : string :=
  match avg_price price_data with
  | None => "Price unavailable"
  | Some avg =>
      match min_price price_data, max_price price_data with
      | Some lo, Some hi =>
          if truthy_float (Some lo) && truthy_float (Some hi) then
            let spread := fsub hi lo in
            if fle spread (fmul avg literal_0_3) then "~$" ++ format_0f avg
            else "$" ++ format_0f lo ++ " - $" ++ format_0f hi
          else "~$" ++ format_0f avg
      | _, _ => "~$" ++ format_0f avg
      end
  end.

End AppraiserService64.

(* ===================================================================== *)
(** * The specification's wording of the value display *)
(* ===================================================================== *)

Module Specification.
Import Binary64 Schemas64 AppraiserService64.

Local Open Scope string_scope.

(** "Both low and high present and [(high - low) <= 0.3 * average]". *)
Definition tight_spread (price_summary : PriceDataResult) (average : float)
  : bool :=
  match min_price price_summary, max_price price_summary with
  | Some low, Some high => fle (fsub high low) (fmul literal_0_3 average)
  | _, _ => false
  end.

(** [estimatedValueDisplay] as the specification words it: "Price
    unavailable" without an average; the single value under a tight
    spread; otherwise the range of low and high. *)
Definition display_as_specified
  (price_summary : PriceDataResult) (display : string) : Prop :=
  match avg_price price_summary with
  | None => display = "Price unavailable"
  | Some average =>
      if tight_spread price_summary average
      then display = "~$" ++ format_0f average
      else exists low high,
          min_price price_summary = Some low
          /\ max_price price_summary = Some high
          /\ display = "$" ++ format_0f low ++ " - $" ++ format_0f high
  end.

End Specification.

Module Examples64.
Import Binary64 Schemas64 SerpApiPricingService64.

Local Open Scope string_scope.

(** A listing whose price string is [s]. *)
Definition listed (s : string) : ShoppingItem :=
  {| extracted_price := None; price := Some s |}.

(** A search engine that answers every query with the same listings. *)
Definition search_returning (items : list ShoppingItem)
  : string -> outcome SearchResults :=
  fun _ => Returned {| shopping_results := Some items |}.

(** The prices of the specification's scenario. *)
Definition scenario_prices : list float :=
  [Fin 100; Fin 110; Fin 105; Fin 95; Fin 1000; Fin 90].

(** Four listings priced ["inf"]. *)
Definition infinite_listings : list ShoppingItem :=
  [listed "inf"; listed "inf"; listed "inf"; listed "inf"].

(** The listings of the specification's scenario. *)
Definition scenario_listings : list ShoppingItem :=
  [listed "$100"; listed "$110"; listed "$105"; listed "$95";
   listed "$1,000"; listed "$90"].

(** Listings at 0.70, 1.00, 1.00 and 1.30 dollars. *)
Definition cent_listings : list ShoppingItem :=
  [listed "$0.70"; listed "$1.00"; listed "$1.00"; listed "$1.30"].

(** Five listings at 20 dollars. *)
Definition uniform_listings : list ShoppingItem :=
  [listed "$20"; listed "$20"; listed "$20"; listed "$20"; listed "$20"].

(** A summary with an average and no range. *)
Definition average_only : PriceDataResult :=
  {| min_price := None; max_price := None; avg_price := Some (Fin 100);
     currency := "USD"; source_count := 5 |}.

(** The summaries of property P5. *)
Definition tight_summary : PriceDataResult :=
  {| min_price := Some (Fin 95); max_price := Some (Fin 105);
     avg_price := Some (Fin 100); currency := "USD"; source_count := 5 |}.

Definition wide_summary : PriceDataResult :=
  {| min_price := Some (Fin 50); max_price := Some (Fin 200);
     avg_price := Some (Fin 100); currency := "USD"; source_count := 5 |}.

(** Low 1.0, high 1.3 and average 1.0, each the nearest double. *)
Definition cent_summary : PriceDataResult :=
  {| min_price := Some (Fin 1); max_price := Some (rnd 1.3);
     avg_price := Some (Fin 1); currency := "USD"; source_count := 4 |}.

(** The summary of four listings priced ["inf"]. *)
Definition infinite_summary : PriceDataResult :=
  {| min_price := Some PInf; max_price := Some PInf;
     avg_price := Some PInf; currency := "USD"; source_count := 4 |}.

End Examples64.

(* ===================================================================== *)
(** * Further concrete inputs *)
(* ===================================================================== *)

Module Scenarios.
Import Schemas SerpApiPricingService.

Local Open Scope string_scope.

(** The prices of the specification's scenario. *)
Definition scenario_prices : list Q := [100; 110; 105; 95; 1000; 90]%Q.

(** Uploads of two bytes, of no byte and of one byte more than the
    limit. *)
Definition small_jpeg : ScanRouter.UploadFile :=
  {| ScanRouter.content_type := Some "image/jpeg";
     ScanRouter.read := [Byte.xff; Byte.xd8] |}.

Definition empty_png : ScanRouter.UploadFile :=
  {| ScanRouter.content_type := Some "image/png";
     ScanRouter.read := [] |}.

Definition oversized_png : ScanRouter.UploadFile :=
  {| ScanRouter.content_type := Some "image/png";
     ScanRouter.read :=
       repeat Byte.x00 (Z.to_nat (ScanRouter.MAX_FILE_SIZE + 1)) |}.

Definition oversized_pdf : ScanRouter.UploadFile :=
  {| ScanRouter.content_type := Some "application/pdf";
     ScanRouter.read :=
       repeat Byte.x00 (Z.to_nat (ScanRouter.MAX_FILE_SIZE + 1)) |}.

(** An appraiser that answers every image with the same report. *)
Definition fixed_report : LootAnalysisResponse.t :=
  AppraiserService._build_response Examples.sneaker Examples.tight_summary.

Definition appraiser_returning
  : list Byte.byte -> outcome LootAnalysisResponse.t :=
  fun _ => Returned fixed_report.

(** A decoder that reads the empty object and rejects any other text. *)
Definition json_of_empty_object (s : string)
  : option GeminiVisionService.json :=
  if s =? "{}" then Some (GeminiVisionService.JObject []) else None.

End Scenarios.

(* ===================================================================== *)
(** * Facts about the builtins *)
(* ===================================================================== *)

Module PyFacts.

Local Open Scope Q_scope.

Lemma Qlt_bool_iff (a b : Q) : Py.Qlt_bool a b = true <-> a < b.
Proof.
  unfold Py.Qlt_bool. rewrite negb_true_iff.
  split; intro H.
  - apply Qnot_le_lt. intro Hle. apply Qle_bool_iff in Hle. congruence.
  - destruct (Qle_bool b a) eqn:E; trivial.
    apply Qle_bool_iff in E. exfalso. apply (Qlt_not_le _ _ H E).
Qed.

Lemma Qlt_bool_false (a b : Q) : Py.Qlt_bool a b = false <-> b <= a.
Proof.
  unfold Py.Qlt_bool. rewrite negb_false_iff. apply Qle_bool_iff.
Qed.

Lemma Qle_bool_false (a b : Q) : Qle_bool a b = false -> b < a.
Proof.
  intro H. apply Qnot_le_lt. intro Hle. apply Qle_bool_iff in Hle. congruence.
Qed.

(** ** Rounding is monotone *)

Lemma round_half_even_range (q : Q) :
  (Qfloor q <= Py.round_half_even q <= Qfloor q + 1)%Z.
Proof.
  unfold Py.round_half_even.
  destruct (q - inject_Z (Qfloor q) ?= 1 # 2); try lia.
  destruct (Z.even (Qfloor q)); lia.
Qed.

Lemma round_half_even_mono (a b : Q) :
  a <= b -> (Py.round_half_even a <= Py.round_half_even b)%Z.
Proof.
  intro Hab.
  pose proof (Qfloor_resp_le _ _ Hab) as Hf.
  pose proof (round_half_even_range a) as Ha.
  pose proof (round_half_even_range b) as Hb.
  destruct (Z.eq_dec (Qfloor a) (Qfloor b)) as [E | NE]; [ | lia ].
  unfold Py.round_half_even in *. rewrite <- E in *.
  destruct (Qcompare_spec (a - inject_Z (Qfloor a)) (1 # 2)) as [Ea | Ea | Ea];
    destruct (Qcompare_spec (b - inject_Z (Qfloor a)) (1 # 2)) as [Eb | Eb | Eb];
    try (destruct (Z.even (Qfloor a))); try lia; exfalso; lra.
Qed.

Lemma round2_mono (a b : Q) : a <= b -> Py.round2 a <= Py.round2 b.
Proof.
  intro Hab. unfold Py.round2.
  assert (H : (Py.round_half_even (a * 100) <= Py.round_half_even (b * 100))%Z)
    by (apply round_half_even_mono; lra).
  rewrite Zle_Qle in H.
  unfold Qdiv. apply Qmult_le_compat_r; [ exact H | discriminate ].
Qed.

(** The rounded value is a nearest integer. *)
Lemma round_half_even_nearest (q : Q) :
  inject_Z (Py.round_half_even q) - (1 # 2) <= q
  /\ q <= inject_Z (Py.round_half_even q) + (1 # 2).
Proof.
  pose proof (Qfloor_le q) as Hlo.
  pose proof (Qlt_floor q) as Hhi.
  rewrite inject_Z_plus in Hhi. change (inject_Z 1) with 1 in Hhi.
  unfold Py.round_half_even.
  destruct (Qcompare_spec (q - inject_Z (Qfloor q)) (1 # 2)) as [E | E | E];
    try (destruct (Z.even (Qfloor q)));
    rewrite ?inject_Z_plus; change (inject_Z 1) with 1; split; lra.
Qed.

(** ** [sorted] returns an ascending rearrangement *)

Lemma insert_perm (x : Q) (l : list Q) : Permutation (x :: l) (Py.insert x l).
Proof.
  induction l as [ | y l IH ]; simpl.
  - apply Permutation_refl.
  - destruct (Qle_bool x y).
    + apply Permutation_refl.
    + eapply perm_trans; [ apply perm_swap | apply perm_skip, IH ].
Qed.

Lemma sorted_perm (l : list Q) : Permutation l (Py.sorted l).
Proof.
  induction l as [ | x l IH ]; simpl.
  - apply perm_nil.
  - eapply perm_trans; [ apply perm_skip, IH | apply insert_perm ].
Qed.

Lemma sorted_length (l : list Q) : List.length (Py.sorted l) = List.length l.
Proof. symmetry. apply Permutation_length, sorted_perm. Qed.

Lemma insert_ascending (x : Q) (l : list Q) :
  StronglySorted Qle l -> StronglySorted Qle (Py.insert x l).
Proof.
  induction 1 as [ | y l Hs IH Hy ]; simpl.
  - constructor; constructor.
  - destruct (Qle_bool x y) eqn:E.
    + apply Qle_bool_iff in E.
      constructor; [ constructor; assumption | ].
      constructor; [ exact E | ].
      eapply Forall_impl; [ | exact Hy ].
      intros z Hz. eapply Qle_trans; eassumption.
    + apply Qle_bool_false in E.
      constructor; [ exact IH | ].
      eapply Permutation_Forall; [ apply insert_perm | ].
      constructor; [ apply Qlt_le_weak, E | exact Hy ].
Qed.

Lemma sorted_ascending (l : list Q) : StronglySorted Qle (Py.sorted l).
Proof.
  induction l as [ | x l IH ]; simpl.
  - constructor.
  - apply insert_ascending, IH.
Qed.

Lemma ascending_nth (l : list Q) :
  StronglySorted Qle l ->
  forall i j, (i <= j)%nat -> (j < List.length l)%nat ->
  nth i l 0 <= nth j l 0.
Proof.
  induction 1 as [ | x l Hs IH Hx ]; intros i j Hij Hj; simpl in Hj.
  - lia.
  - destruct i as [ | i ], j as [ | j ]; simpl.
    + apply Qle_refl.
    + rewrite Forall_forall in Hx. apply Hx, nth_In. lia.
    + lia.
    + apply IH; lia.
Qed.

Lemma getitem_in_range (l : list Q) (i : nat) :
  (i < List.length l)%nat -> Py.getitem l i = Returned (nth i l 0).
Proof.
  intro Hi. unfold Py.getitem.
  rewrite (nth_error_nth' l 0 Hi). reflexivity.
Qed.

(** The quartile positions are positions of the list, in this order. *)
Lemma quartile_indices (n : nat) :
  (1 <= n)%nat -> (n / 4 <= 3 * n / 4)%nat /\ (3 * n / 4 < n)%nat.
Proof.
  intro Hn. split.
  - apply Nat.Div0.div_le_mono. lia.
  - apply Nat.Div0.div_lt_upper_bound. lia.
Qed.

(** ** The mean lies between the least and the greatest element *)

Lemma min_from_lower (l : list Q) :
  forall m, Py.min_from m l <= m /\ Forall (Qle (Py.min_from m l)) l.
Proof.
  induction l as [ | x l IH ]; intro m; simpl.
  - split; [ apply Qle_refl | constructor ].
  - destruct (Py.Qlt_bool x m) eqn:E.
    + apply Qlt_bool_iff in E. destruct (IH x) as [H1 H2].
      split; [ lra | constructor; assumption ].
    + apply Qlt_bool_false in E. destruct (IH m) as [H1 H2].
      split; [ assumption | constructor; [ lra | assumption ] ].
Qed.

Lemma max_from_upper (l : list Q) :
  forall m, m <= Py.max_from m l /\ Forall (fun y => y <= Py.max_from m l) l.
Proof.
  induction l as [ | x l IH ]; intro m; simpl.
  - split; [ apply Qle_refl | constructor ].
  - destruct (Py.Qlt_bool m x) eqn:E.
    + apply Qlt_bool_iff in E. destruct (IH x) as [H1 H2].
      split; [ lra | constructor; assumption ].
    + apply Qlt_bool_false in E. destruct (IH m) as [H1 H2].
      split; [ assumption | constructor; [ lra | assumption ] ].
Qed.

Lemma Qsum_lower (m : Q) (l : list Q) :
  Forall (Qle m) l -> m * inject_Z (Z.of_nat (List.length l)) <= Py.Qsum l.
Proof.
  induction 1 as [ | x l Hx Hl IH ].
  - simpl. rewrite Qmult_0_r. apply Qle_refl.
  - change (List.length (x :: l)) with (S (List.length l)).
    rewrite Nat2Z.inj_succ. unfold Z.succ. rewrite inject_Z_plus.
    simpl Py.Qsum. set (n := inject_Z (Z.of_nat (List.length l))) in *.
    change (inject_Z 1) with 1. lra.
Qed.

Lemma Qsum_upper (m : Q) (l : list Q) :
  Forall (fun y => y <= m) l ->
  Py.Qsum l <= m * inject_Z (Z.of_nat (List.length l)).
Proof.
  induction 1 as [ | x l Hx Hl IH ].
  - simpl. rewrite Qmult_0_r. apply Qle_refl.
  - change (List.length (x :: l)) with (S (List.length l)).
    rewrite Nat2Z.inj_succ. unfold Z.succ. rewrite inject_Z_plus.
    simpl Py.Qsum. set (n := inject_Z (Z.of_nat (List.length l))) in *.
    change (inject_Z 1) with 1. lra.
Qed.

Lemma length_positive (A : Type) (x : A) (l : list A) :
  0 < inject_Z (Z.of_nat (List.length (x :: l))).
Proof.
  change 0 with (inject_Z 0). rewrite <- Zlt_Qlt. simpl List.length. lia.
Qed.

Lemma mean_between (x : Q) (l : list Q) :
  Py.min_from x l <= Py.Qsum (x :: l) / inject_Z (Z.of_nat (List.length (x :: l)))
  /\ Py.Qsum (x :: l) / inject_Z (Z.of_nat (List.length (x :: l)))
     <= Py.max_from x l.
Proof.
  pose proof (length_positive x l) as Hn.
  destruct (min_from_lower l x) as [Hm1 Hm2].
  destruct (max_from_upper l x) as [HM1 HM2].
  split.
  - apply Qle_shift_div_l; [ exact Hn | ].
    apply Qsum_lower. constructor; assumption.
  - apply Qle_shift_div_r; [ exact Hn | ].
    apply Qsum_upper. constructor; assumption.
Qed.

End PyFacts.

(* ===================================================================== *)
(** * The price statistics engine *)
(* ===================================================================== *)

Module PricingFacts.
Import Schemas SerpApiPricingService.

Local Open Scope Q_scope.

Lemma is_empty_false (A : Type) (l : list A) :
  l <> [] -> Py.is_empty l = false.
Proof. destruct l; [ congruence | reflexivity ]. Qed.

Lemma is_empty_true (A : Type) (l : list A) :
  Py.is_empty l = true -> l = [].
Proof. destruct l; [ reflexivity | discriminate ]. Qed.

(** Both quartile positions of a sorted non-empty list exist. *)
Lemma quartile_indices_of (fp : list Q) :
  fp <> [] ->
  (List.length (Py.sorted fp) / 4 <= 3 * List.length (Py.sorted fp) / 4)%nat
  /\ (3 * List.length (Py.sorted fp) / 4 < List.length (Py.sorted fp))%nat.
Proof.
  intro Hne. apply PyFacts.quartile_indices.
  rewrite PyFacts.sorted_length. destruct fp; [ congruence | simpl; lia ].
Qed.

(** The statistics of a non-empty list of prices are returned, not
    raised: both quartile positions exist, and [mean], [min] and [max] get
    a non-empty argument. *)
Lemma price_statistics_of_nonempty (prices filtered : list Q) (x : Q) (l : list Q) :
  (if Py.is_empty filtered then prices else filtered) = x :: l ->
  exists lo hi av,
    price_statistics prices filtered =
      Returned {| min_price := Some (Py.round2 lo);
                  max_price := Some (Py.round2 hi);
                  avg_price := Some (Py.round2 av);
                  currency := "USD";
                  source_count := Z.of_nat (List.length (x :: l)) |}
    /\ lo <= hi
    /\ ((List.length (x :: l) < 4)%nat -> lo <= av <= hi).
Proof.
  intro Hsel. unfold price_statistics. rewrite Hsel.
  set (fp := x :: l).
  assert (Hmean : Py.mean fp =
                  Returned (Py.Qsum fp / inject_Z (Z.of_nat (List.length fp))))
    by reflexivity.
  rewrite Hmean. unfold bind at 1.
  destruct (4 <=? List.length fp)%nat eqn:E4.
  - apply Nat.leb_le in E4.
    destruct (@quartile_indices_of fp) as [Hi Hj]; [ discriminate | ].
    exists (nth (List.length (Py.sorted fp) / 4) (Py.sorted fp) 0),
           (nth (3 * List.length (Py.sorted fp) / 4) (Py.sorted fp) 0),
           (Py.Qsum fp / inject_Z (Z.of_nat (List.length fp))).
    rewrite !PyFacts.getitem_in_range by lia.
    split; [ reflexivity | ].
    split; [ | lia ].
    apply PyFacts.ascending_nth; [ apply PyFacts.sorted_ascending | lia | lia ].
  - apply Nat.leb_gt in E4.
    exists (Py.min_from x l), (Py.max_from x l),
           (Py.Qsum fp / inject_Z (Z.of_nat (List.length fp))).
    split; [ reflexivity | ].
    pose proof (PyFacts.mean_between x l) as [H1 H2].
    split; [ | intros _; split; assumption ].
    eapply Qle_trans; eassumption.
Qed.

(** The elements at the two quartile positions are within the bounds of
    [_remove_outliers], so the filter keeps them. *)
Lemma remove_outliers_keeps_quartiles (prices : list Q) :
  (4 <= List.length prices)%nat ->
  In (nth (List.length prices / 4) (Py.sorted prices) 0)
     (_remove_outliers prices)
  /\ In (nth (3 * List.length prices / 4) (Py.sorted prices) 0)
        (_remove_outliers prices).
Proof.
  intro Hn. unfold _remove_outliers.
  replace (List.length prices <? 4)%nat with false
    by (symmetry; apply Nat.ltb_ge; exact Hn).
  rewrite PyFacts.sorted_length.
  destruct (@PyFacts.quartile_indices (List.length prices)) as [Hi Hj];
    [ lia | ].
  set (q1 := nth (List.length prices / 4) (Py.sorted prices) 0).
  set (q3 := nth (3 * List.length prices / 4) (Py.sorted prices) 0).
  assert (Hq : q1 <= q3).
  { apply PyFacts.ascending_nth;
      [ apply PyFacts.sorted_ascending | exact Hi
      | rewrite PyFacts.sorted_length; exact Hj ]. }
  assert (Hin : forall i, (i < List.length prices)%nat ->
                          In (nth i (Py.sorted prices) 0) prices).
  { intros i Hi'. eapply Permutation_in.
    - apply Permutation_sym, PyFacts.sorted_perm.
    - apply nth_In. rewrite PyFacts.sorted_length. exact Hi'. }
  split; apply filter_In; (split; [ apply Hin; lia | ]);
    apply andb_true_iff; split; apply Qle_bool_iff; lra.
Qed.

Lemma remove_outliers_nonempty (prices : list Q) :
  prices <> [] -> _remove_outliers prices <> [].
Proof.
  intros Hne Hnil.
  destruct (le_lt_dec 4 (List.length prices)) as [Hn | Hn].
  - destruct (remove_outliers_keeps_quartiles prices Hn) as [H _].
    rewrite Hnil in H. exact H.
  - unfold _remove_outliers in Hnil.
    replace (List.length prices <? 4)%nat with true in Hnil
      by (symmetry; apply Nat.ltb_lt; exact Hn).
    contradiction.
Qed.

(** The list the statistics are computed on is not empty when the
    unfiltered one is not. *)
Lemma selection_nonempty (prices filtered : list Q) :
  prices <> [] ->
  exists x l,
    (if Py.is_empty filtered then prices else filtered) = x :: l.
Proof.
  intro Hne. destruct filtered as [ | y filtered ]; simpl.
  - destruct prices as [ | x l ]; [ congruence | eauto ].
  - eauto.
Qed.

Section Service.

Variable float : string -> option Q.
Variable get_dict : string -> outcome SearchResults.

Lemma get_price_data_upstream_failure (query e : string) :
  get_dict query = Raised e ->
  get_price_data float get_dict query = Returned (PriceDataResult_of_count 0).
Proof.
  intro H. unfold get_price_data, get_price_data_try. rewrite H. reflexivity.
Qed.

Lemma get_price_data_without_prices (query : string) (results : SearchResults) :
  get_dict query = Returned results ->
  _extract_prices float (get_shopping_results results) = [] ->
  get_price_data float get_dict query =
    Returned (PriceDataResult_of_count
                (Z.of_nat (List.length (get_shopping_results results)))).
Proof.
  intros H Hp. unfold get_price_data, get_price_data_try. rewrite H.
  unfold bind.
  destruct (get_shopping_results results) as [ | item rest ] eqn:El.
  - reflexivity.
  - change (Py.is_empty (item :: rest)) with false. cbv iota.
    rewrite Hp. reflexivity.
Qed.

Lemma get_price_data_with_prices (query : string) (results : SearchResults) :
  get_dict query = Returned results ->
  _extract_prices float (get_shopping_results results) <> [] ->
  get_price_data float get_dict query =
    price_statistics (_extract_prices float (get_shopping_results results))
      (_remove_outliers (_extract_prices float (get_shopping_results results))).
Proof.
  intros H Hp. unfold get_price_data, get_price_data_try. rewrite H.
  unfold bind at 1.
  destruct (get_shopping_results results) as [ | item rest ] eqn:El.
  - exfalso. apply Hp. reflexivity.
  - change (Py.is_empty (item :: rest)) with false. cbv iota.
    rewrite (is_empty_false Hp).
    set (prices := _extract_prices float (item :: rest)) in *.
    destruct (selection_nonempty (_remove_outliers prices) Hp)
      as (x & l & Hsel).
    destruct (@price_statistics_of_nonempty _ _ _ _ Hsel) as (lo & hi & av & Hr & _).
    rewrite Hr. reflexivity.
Qed.

End Service.

End PricingFacts.

(* ===================================================================== *)
(** * Properties of the specification: pricing *)
(* ===================================================================== *)

Section PricingClaims.
Import Schemas SerpApiPricingService Examples PricingFacts.

Local Open Scope Q_scope.

(** C1, amended.  Every summary that [get_price_data] returns with low,
    high and average present has a positive sample count and
    [low <= high] after rounding; when fewer than four prices were used
    (low and high are then the least and the greatest of them) it also has
    [low <= average <= high].  With four prices or more, low and high are
    the positional quartiles and the average need not lie between them. *)
Theorem price_summary_order :
  forall (float : string -> option Q)
         (get_dict : string -> outcome SearchResults)
         (query : string) (r : PriceDataResult) (lo hi av : Q),
    get_price_data float get_dict query = Returned r ->
    min_price r = Some lo ->
    max_price r = Some hi ->
    avg_price r = Some av ->
    (0 < source_count r)%Z
    /\ lo <= hi
    /\ ((source_count r < 4)%Z -> lo <= av <= hi).
Proof.
  intros float get_dict query r lo hi av Hr Hlo Hhi Hav.
  destruct (get_dict query) as [ results | e ] eqn:Hd.
  - destruct (_extract_prices float
                (get_shopping_results results)) as [ | p ps ] eqn:Hp.
    + rewrite (get_price_data_without_prices float get_dict query Hd Hp) in Hr.
      injection Hr as <-. discriminate Hlo.
    + assert (Hne : _extract_prices float
                      (get_shopping_results results) <> [])
        by (rewrite Hp; discriminate).
      rewrite (get_price_data_with_prices float get_dict query Hd Hne) in Hr.
      rewrite Hp in *.
      destruct (selection_nonempty (_remove_outliers (p :: ps)) (prices := p :: ps))
        as (x & l & Hsel); [ discriminate | ].
      destruct (@price_statistics_of_nonempty _ _ _ _ Hsel)
        as (lo' & hi' & av' & Hs & Hle & Hsmall).
      rewrite Hs in Hr. injection Hr as <-.
      simpl in Hlo, Hhi, Hav.
      injection Hlo as <-. injection Hhi as <-. injection Hav as <-.
      cbn [source_count].
      change (List.length (x :: l)) with (S (List.length l)) in *.
      split; [ lia | ].
      split; [ apply PyFacts.round2_mono, Hle | ].
      intro Hc. destruct Hsmall as [H1 H2]; [ lia | ].
      split; apply PyFacts.round2_mono; assumption.
  - rewrite (get_price_data_upstream_failure float get_dict query Hd) in Hr.
    injection Hr as <-. discriminate Hlo.
Qed.

(** The three listings at 50, 60 and 100 dollars give low 50, average 70
    and high 100. *)
Lemma price_summary_order_witness :
  (0 < 3)%Z /\ 5000 # 100 <= 10000 # 100
  /\ ((3 < 4)%Z -> 5000 # 100 <= 7000 # 100 <= 10000 # 100).
Proof.
  apply (@price_summary_order Py.float_decimal
           (search_returning [priced 50; priced 60; priced 100])
           "leather jacket"%string
           {| min_price := Some (5000 # 100);
              max_price := Some (10000 # 100);
              avg_price := Some (7000 # 100);
              currency := "USD"; source_count := 3 |});
    reflexivity.
Defined.

(** C1 as stated fails: the four listings at 7, 10, 10 and 12 dollars all
    pass the filter, the quartile positions give low 10 and high 12, and
    the mean is 9.75, below low. *)
Lemma price_summary_order_counterexample :
  get_price_data Py.float_decimal (search_returning four_listings)
    "leather jacket"%string
  = Returned {| min_price := Some (1000 # 100);
                max_price := Some (1200 # 100);
                avg_price := Some (975 # 100);
                currency := "USD"; source_count := 4 |}
  /\ ~ (1000 # 100 <= 975 # 100).
Proof.
  split; [ reflexivity | ].
  intro H. apply Qle_bool_iff in H. discriminate H.
Qed.

(** C2, amended.  When the shopping results yield no valid price, the
    returned summary has low, high and average all absent, never a zero
    price, and its sample count is the number of raw shopping results:
    zero only when there were none. *)
Theorem no_valid_price_summary :
  forall (float : string -> option Q)
         (get_dict : string -> outcome SearchResults)
         (query : string) (results : SearchResults)
         (items : list ShoppingItem),
    get_dict query = Returned results ->
    items = get_shopping_results results ->
    _extract_prices float items = [] ->
    exists r,
      get_price_data float get_dict query = Returned r
      /\ min_price r = None /\ max_price r = None /\ avg_price r = None
      /\ source_count r = Z.of_nat (List.length items).
Proof.
  intros float get_dict query results items Hd -> Hp.
  exists (PriceDataResult_of_count
            (Z.of_nat (List.length
               (get_shopping_results results)))).
  split; [ apply (get_price_data_without_prices float get_dict query Hd Hp) | ].
  repeat split.
Qed.

Lemma no_valid_price_summary_witness :
  exists r,
    get_price_data Py.float_decimal (search_returning unpriced_listings)
      "vintage lamp"%string = Returned r
    /\ min_price r = None /\ max_price r = None /\ avg_price r = None
    /\ source_count r = Z.of_nat (List.length unpriced_listings).
Proof.
  apply (@no_valid_price_summary Py.float_decimal
           (search_returning unpriced_listings) "vintage lamp"%string
           {| shopping_results := Some unpriced_listings |});
    reflexivity.
Defined.

(** C2 as stated fails: two listings without a usable price yield no
    valid observation, and the summary reports a sample count of 2. *)
Lemma no_valid_price_summary_counterexample :
  _extract_prices Py.float_decimal unpriced_listings = []
  /\ get_price_data Py.float_decimal (search_returning unpriced_listings)
       "vintage lamp"%string
     = Returned (PriceDataResult_of_count 2)
  /\ source_count (PriceDataResult_of_count 2) <> 0%Z.
Proof.
  split; [ reflexivity | ].
  split; [ reflexivity | discriminate ].
Qed.

End PricingClaims.


(* ===================================================================== *)
(** * Rounding to the nearest double *)
(* ===================================================================== *)

Module Binary64Facts.
Import Binary64.
Local Open Scope Q_scope.

Lemma pow2_pos (z : Z) : 0 < 2 ^ z.
Proof. apply Qpower_0_lt. reflexivity. Qed.

Lemma pow2_le (x y : Z) : (x <= y)%Z -> 2 ^ x <= 2 ^ y.
Proof. intro H. apply Qpower_le_compat_l; [ exact H | discriminate ]. Qed.

Lemma pow2_lt (x y : Z) : (x < y)%Z -> 2 ^ x < 2 ^ y.
Proof. intro H. apply Qpower_lt_compat_l; [ exact H | reflexivity ]. Qed.

Lemma pow2_plus (x y : Z) : 2 ^ (x + y) == 2 ^ x * 2 ^ y.
Proof. apply Qpower_plus. discriminate. Qed.

Lemma pow2_of_Z (n : Z) : (0 <= n)%Z -> inject_Z (2 ^ n) == 2 ^ n.
Proof. intro H. rewrite Zpower_Qpower by exact H. reflexivity. Qed.

(** A positive rational between the powers of two around its numerator
    and its denominator. *)
Lemma log2_bracket (q : Q) :
  0 < q ->
  let k := (Z.log2 (Qnum q) - Z.log2 (Zpos (Qden q)))%Z in
  2 ^ (k - 1) <= q /\ q < 2 ^ (k + 1).
Proof.
  intro Hq. cbv zeta.
  destruct q as [n d]. cbn [Qnum Qden].
  assert (Hn : (0 < n)%Z).
  { unfold Qlt in Hq. simpl in Hq. lia. }
  set (a := Z.log2 n). set (b := Z.log2 (Zpos d)).
  assert (Ha : (0 <= a)%Z) by apply Z.log2_nonneg.
  assert (Hb : (0 <= b)%Z) by apply Z.log2_nonneg.
  destruct (Z.log2_spec n Hn) as [Ha1 Ha2]. fold a in Ha1, Ha2.
  destruct (Z.log2_spec (Zpos d) ltac:(lia)) as [Hb1 Hb2]. fold b in Hb1, Hb2.
  assert (Eq : (n # d) * inject_Z (Zpos d) == inject_Z n).
  { unfold Qeq, Qmult, inject_Z. simpl. lia. }
  assert (Pb : 0 < 2 ^ b) by apply pow2_pos.
  assert (Pb1 : 0 < 2 ^ (b + 1)) by apply pow2_pos.
  assert (Db1 : 2 ^ b <= inject_Z (Zpos d)).
  { rewrite <- pow2_of_Z by exact Hb. rewrite <- Zle_Qle. exact Hb1. }
  assert (Db2 : inject_Z (Zpos d) <= 2 ^ (b + 1)).
  { rewrite <- pow2_of_Z by lia. rewrite <- Zle_Qle.
    unfold Z.succ in Hb2. lia. }
  assert (Na1 : 2 ^ a <= inject_Z n).
  { rewrite <- pow2_of_Z by exact Ha. rewrite <- Zle_Qle. exact Ha1. }
  assert (Na2 : inject_Z n < 2 ^ (a + 1)).
  { rewrite <- pow2_of_Z by lia. rewrite <- Zlt_Qlt.
    unfold Z.succ in Ha2. exact Ha2. }
  split.
  - apply Qmult_le_r with (z := 2 ^ (b + 1)); [ exact Pb1 | ].
    rewrite <- pow2_plus.
    replace (a - b - 1 + (b + 1))%Z with a by lia.
    apply Qle_trans with (inject_Z n); [ exact Na1 | ].
    rewrite <- Eq.
    apply Qmult_le_l; [ exact Hq | exact Db2 ].
  - apply Qmult_lt_r with (z := 2 ^ b); [ exact Pb | ].
    rewrite <- pow2_plus.
    replace (a - b + 1 + b)%Z with (a + 1)%Z by lia.
    apply Qle_lt_trans with (inject_Z n); [ | exact Na2 ].
    rewrite <- Eq.
    apply Qmult_le_l; [ exact Hq | exact Db1 ].
Qed.

Lemma log2_floor_spec (q : Q) :
  0 < q -> 2 ^ log2_floor q <= q /\ q < 2 ^ (log2_floor q + 1).
Proof.
  intro Hq. destruct (@log2_bracket q Hq) as [H1 H2].
  unfold log2_floor.
  set (k := (Z.log2 (Qnum q) - Z.log2 (Zpos (Qden q)))%Z) in *.
  destruct (Qle_bool (2 ^ k) q) eqn:E.
  - apply Qle_bool_iff in E. split; assumption.
  - apply PyFacts.Qle_bool_false in E.
    replace (k - 1 + 1)%Z with k by lia. split; assumption.
Qed.

Lemma log2_floor_mono (a b : Q) :
  0 < a -> a <= b -> (log2_floor a <= log2_floor b)%Z.
Proof.
  intros Ha Hab.
  destruct (@log2_floor_spec a Ha) as [A1 _].
  destruct (@log2_floor_spec b (Qlt_le_trans _ _ _ Ha Hab)) as [_ B2].
  destruct (Z_le_gt_dec (log2_floor a) (log2_floor b)) as [ H | H ]; trivial.
  exfalso.
  assert (P : 2 ^ (log2_floor b + 1) <= 2 ^ log2_floor a)
    by (apply pow2_le; lia).
  lra.
Qed.


Lemma round_pos_unfold (q : Q) :
  round_pos q
  = if Qle_bool (2 ^ 1024) (rounded_value q) then PInf
    else Fin (Qred (rounded_value q)).
Proof. reflexivity. Qed.

Lemma round_half_even_Z (z : Z) : Py.round_half_even (inject_Z z) = z.
Proof.
  unfold Py.round_half_even. rewrite Qfloor_Z.
  replace (inject_Z z - inject_Z z ?= 1 # 2) with Lt; [ reflexivity | ].
  symmetry. apply Qlt_alt.
  apply Qle_lt_trans with 0; [ | reflexivity ].
  unfold Qminus. rewrite Qplus_opp_r. apply Qle_refl.
Qed.

Lemma ulp_exponent_mono (a b : Q) :
  0 < a -> a <= b -> (ulp_exponent a <= ulp_exponent b)%Z.
Proof.
  intros Ha Hab. unfold ulp_exponent.
  pose proof (@log2_floor_mono a b Ha Hab). lia.
Qed.

(** Division by a power of two, as a product. *)
Lemma div_pow2_le_l (q x : Q) (e : Z) :
  q <= x * 2 ^ e -> q / 2 ^ e <= x.
Proof. intro H. apply Qle_shift_div_r; [ apply pow2_pos | exact H ]. Qed.

Lemma div_pow2_le_r (q x : Q) (e : Z) :
  x * 2 ^ e <= q -> x <= q / 2 ^ e.
Proof. intro H. apply Qle_shift_div_l; [ apply pow2_pos | exact H ]. Qed.

Lemma rounded_value_upper (q : Q) :
  0 < q ->
  rounded_value q <= 2 ^ (ulp_exponent q + 53).
Proof.
  intro Hq. unfold rounded_value.
  set (e := ulp_exponent q).
  destruct (@log2_floor_spec q Hq) as [_ H2].
  assert (He : (log2_floor q + 1 <= e + 53)%Z) by (unfold e, ulp_exponent; lia).
  assert (Hq2 : q <= 2 ^ (e + 53)).
  { apply Qle_trans with (2 ^ (log2_floor q + 1));
      [ apply Qlt_le_weak, H2 | apply pow2_le, He ]. }
  rewrite (Z.add_comm e 53), pow2_plus in *.
  apply Qmult_le_compat_r; [ | apply Qlt_le_weak, pow2_pos ].
  rewrite <- (@pow2_of_Z 53) by lia.
  rewrite <- Zle_Qle.
  rewrite <- (round_half_even_Z (2 ^ 53)).
  apply PyFacts.round_half_even_mono.
  apply div_pow2_le_l. rewrite pow2_of_Z by lia. exact Hq2.
Qed.

Lemma rounded_value_lower (q : Q) :
  0 < q ->
  (-1022 <= log2_floor q)%Z ->
  2 ^ (ulp_exponent q + 52) <= rounded_value q.
Proof.
  intros Hq Hnormal. unfold rounded_value.
  set (e := ulp_exponent q).
  destruct (@log2_floor_spec q Hq) as [H1 _].
  assert (He : (e + 52 = log2_floor q)%Z) by (unfold e, ulp_exponent; lia).
  rewrite He in *. clear Hnormal.
  assert (Hq1 : 2 ^ 52 * 2 ^ e <= q).
  { rewrite <- pow2_plus. replace (52 + e)%Z with (log2_floor q) by lia.
    exact H1. }
  rewrite <- He, (Z.add_comm e 52), pow2_plus.
  apply Qmult_le_compat_r; [ | apply Qlt_le_weak, pow2_pos ].
  rewrite <- (@pow2_of_Z 52) by lia.
  rewrite <- Zle_Qle.
  rewrite <- (round_half_even_Z (2 ^ 52)) at 1.
  apply PyFacts.round_half_even_mono.
  apply div_pow2_le_r. rewrite pow2_of_Z by lia. exact Hq1.
Qed.

Lemma rounded_value_mono (a b : Q) :
  0 < a -> a <= b -> rounded_value a <= rounded_value b.
Proof.
  intros Ha Hab.
  assert (Hb : 0 < b) by lra.
  pose proof (@ulp_exponent_mono a b Ha Hab) as He.
  destruct (Z.eq_dec (ulp_exponent a) (ulp_exponent b)) as [ E | NE ].
  - unfold rounded_value. rewrite E.
    apply Qmult_le_compat_r; [ | apply Qlt_le_weak, pow2_pos ].
    rewrite <- Zle_Qle. apply PyFacts.round_half_even_mono.
    apply Qmult_le_compat_r; [ exact Hab | ].
    apply Qlt_le_weak, Qinv_lt_0_compat, pow2_pos.
  - assert (Hlt : (ulp_exponent a < ulp_exponent b)%Z) by lia.
    assert (Hnormal : (-1022 <= log2_floor b)%Z)
      by (unfold ulp_exponent in Hlt; lia).
    apply Qle_trans with (2 ^ (ulp_exponent a + 53));
      [ apply rounded_value_upper, Ha | ].
    apply Qle_trans with (2 ^ (ulp_exponent b + 52));
      [ apply pow2_le; lia | apply rounded_value_lower; assumption ].
Qed.

Lemma rounded_value_nonneg (q : Q) : 0 < q -> 0 <= rounded_value q.
Proof.
  intro Hq. unfold rounded_value.
  apply Qmult_le_0_compat; [ | apply Qlt_le_weak, pow2_pos ].
  change 0 with (inject_Z 0). rewrite <- Zle_Qle.
  rewrite <- (round_half_even_Z 0).
  apply PyFacts.round_half_even_mono.
  apply Qle_shift_div_l; [ apply pow2_pos | ].
  change (inject_Z 0) with 0. rewrite Qmult_0_l. apply Qlt_le_weak, Hq.
Qed.

Lemma Qred_le (a b : Q) : a <= b -> Qred a <= Qred b.
Proof.
  intro H.
  apply (proj2 (Qle_comp (Qred a) a (Qred_correct a)
                         (Qred b) b (Qred_correct b))).
  exact H.
Qed.

(** ** The order of the doubles *)

Lemma fle_refl_fin (q : Q) : fle (Fin q) (Fin q) = true.
Proof. simpl. apply Qle_bool_iff, Qle_refl. Qed.

Lemma fle_fneg (x y : float) :
  fle x y = true -> fle (fneg y) (fneg x) = true.
Proof.
  destruct x as [ a | | | ], y as [ b | | | ]; simpl; trivial.
  intro H. apply Qle_bool_iff in H. apply Qle_bool_iff. lra.
Qed.

Lemma fle_trans (x y z : float) :
  fle x y = true -> fle y z = true -> fle x z = true.
Proof.
  destruct x as [ a | | | ], y as [ b | | | ], z as [ c | | | ];
    simpl; trivial; try discriminate.
  intros H1 H2. apply Qle_bool_iff in H1, H2. apply Qle_bool_iff. lra.
Qed.

Lemma round_pos_mono (a b : Q) :
  0 < a -> a <= b -> fle (round_pos a) (round_pos b) = true.
Proof.
  intros Ha Hab. rewrite !round_pos_unfold.
  pose proof (@rounded_value_mono a b Ha Hab) as Hr.
  destruct (Qle_bool (2 ^ 1024) (rounded_value a)) eqn:Ea.
  - apply Qle_bool_iff in Ea.
    replace (Qle_bool (2 ^ 1024) (rounded_value b)) with true;
      [ reflexivity | ].
    symmetry. apply Qle_bool_iff. lra.
  - destruct (Qle_bool (2 ^ 1024) (rounded_value b)); [ reflexivity | ].
    cbn [fle]. apply Qle_bool_iff. apply Qred_le, Hr.
Qed.

Lemma round_pos_nonneg (q : Q) :
  0 < q -> fle (Fin 0) (round_pos q) = true.
Proof.
  intro Hq. rewrite round_pos_unfold.
  destruct (Qle_bool (2 ^ 1024) (rounded_value q)); [ reflexivity | ].
  cbn [fle]. apply Qle_bool_iff. change 0 with (Qred 0).
  apply Qred_le, rounded_value_nonneg, Hq.
Qed.

(** Rounding keeps the order. *)
Lemma rnd_mono (a b : Q) : a <= b -> fle (rnd a) (rnd b) = true.
Proof.
  intro Hab. unfold rnd.
  destruct (Qcompare_spec a 0) as [ Ea | Ea | Ea ];
    destruct (Qcompare_spec b 0) as [ Eb | Eb | Eb ];
    try (exfalso; lra).
  - apply fle_refl_fin.
  - apply round_pos_nonneg, Eb.
  - change (Fin 0) with (fneg (Fin 0)).
    apply fle_fneg, round_pos_nonneg. lra.
  - apply fle_fneg, round_pos_mono; lra.
  - apply fle_trans with (Fin 0).
    + change (Fin 0) with (fneg (Fin 0)).
      apply fle_fneg, round_pos_nonneg. lra.
    + apply round_pos_nonneg, Eb.
  - apply round_pos_mono; assumption.
Qed.

Lemma round_pos_not_nan (q : Q) : round_pos q <> NaN.
Proof.
  rewrite round_pos_unfold.
  destruct (Qle_bool (2 ^ 1024) (rounded_value q)); discriminate.
Qed.

Lemma rnd_not_nan (q : Q) : rnd q <> NaN.
Proof.
  unfold rnd. destruct (q ?= 0); [ discriminate | | ].
  - pose proof (round_pos_not_nan (- q)).
    destruct (round_pos (- q)); simpl; congruence.
  - apply round_pos_not_nan.
Qed.

(** A double is not crossed by the rounding of a value on one side of
    it. *)
Lemma rnd_below_double (x y : Q) :
  x <= y -> is_double (Fin y) = true -> fle (rnd x) (Fin y) = true.
Proof.
  intros Hxy Hy. pose proof (@rnd_mono x y Hxy) as H.
  simpl in Hy. destruct (rnd y) as [ r | | | ]; try discriminate Hy.
  apply Qeq_bool_iff in Hy.
  destruct (rnd x) as [ a | | | ]; simpl in *; trivial.
  apply Qle_bool_iff in H. apply Qle_bool_iff. lra.
Qed.

Lemma rnd_above_double (x y : Q) :
  y <= x -> is_double (Fin y) = true -> fle (Fin y) (rnd x) = true.
Proof.
  intros Hxy Hy. pose proof (@rnd_mono y x Hxy) as H.
  simpl in Hy. destruct (rnd y) as [ r | | | ]; try discriminate Hy.
  apply Qeq_bool_iff in Hy.
  destruct (rnd x) as [ a | | | ]; simpl in *; trivial.
  apply Qle_bool_iff in H. apply Qle_bool_iff. lra.
Qed.

End Binary64Facts.

(* ===================================================================== *)
(** * The outlier filter over binary64 *)
(* ===================================================================== *)

Module Pricing64Facts.
Import Binary64 Schemas64 SerpApiPricingService64 Binary64Facts.

Local Open Scope Q_scope.

Lemma is_double_fin (x : float) :
  is_double x = true -> exists q, x = Fin q.
Proof. destruct x; try discriminate. eauto. Qed.

Lemma rnd_zero : rnd 0 = Fin 0.
Proof. reflexivity. Qed.

(** The rounding of a value that is not negative is not negative. *)
Lemma rnd_nonneg (x : Q) :
  0 <= x -> (exists r, rnd x = Fin r /\ 0 <= r) \/ rnd x = PInf.
Proof.
  intro Hx. pose proof (@rnd_mono 0 x Hx) as H. rewrite rnd_zero in H.
  pose proof (rnd_not_nan x) as Hn.
  destruct (rnd x) as [ r | | | ]; try discriminate H; try congruence.
  - left. exists r. split; [ reflexivity | ].
    cbn [fle] in H. apply Qle_bool_iff, H.
  - right. reflexivity.
Qed.

(** ** Sorting *)

Lemma insert_perm_64 (x : float) (l : list float) :
  Permutation (x :: l) (insert x l).
Proof.
  induction l as [ | y l IH ]; simpl.
  - apply Permutation_refl.
  - destruct (flt y x).
    + eapply perm_trans; [ apply perm_swap | apply perm_skip, IH ].
    + apply Permutation_refl.
Qed.

Lemma sorted_perm_64 (l : list float) : Permutation l (sorted l).
Proof.
  induction l as [ | x l IH ]; simpl.
  - apply perm_nil.
  - eapply perm_trans; [ apply perm_skip, IH | apply insert_perm_64 ].
Qed.

Lemma sorted_length_64 (l : list float) :
  List.length (sorted l) = List.length l.
Proof. symmetry. apply Permutation_length, sorted_perm_64. Qed.

Lemma flt_fin_cases (a b : Q) :
  (flt (Fin a) (Fin b) = true /\ fle (Fin a) (Fin b) = true)
  \/ (flt (Fin a) (Fin b) = false /\ fle (Fin b) (Fin a) = true).
Proof.
  cbn [flt fle]. destruct (Py.Qlt_bool a b) eqn:E.
  - left. split; [ reflexivity | ].
    apply PyFacts.Qlt_bool_iff in E. apply Qle_bool_iff. lra.
  - right. split; [ reflexivity | ].
    apply PyFacts.Qlt_bool_false in E. apply Qle_bool_iff, E.
Qed.

Lemma insert_ascending_64 (x : float) (l : list float) :
  is_double x = true -> doubles l ->
  ascending l -> ascending (insert x l).
Proof.
  intros Hx Hl Hs. unfold ascending in *.
  destruct (@is_double_fin x Hx) as [a ->].
  induction Hs as [ | y l Hs IH Hy ]; simpl.
  - constructor; constructor.
  - inversion Hl as [ | ? ? Hyd Hld ]; subst.
    destruct (@is_double_fin y Hyd) as [b ->].
    destruct (flt_fin_cases b a) as [ [E Hle] | [E Hle] ]; rewrite E.
    + constructor; [ apply IH, Hld | ].
      eapply Permutation_Forall; [ apply insert_perm_64 | ].
      constructor; [ exact Hle | exact Hy ].
    + constructor; [ constructor; assumption | ].
      constructor; [ exact Hle | ].
      eapply Forall_impl; [ | exact Hy ].
      intros z Hz. eapply fle_trans; eassumption.
Qed.

Lemma sorted_doubles (l : list float) : doubles l -> doubles (sorted l).
Proof. intro H. eapply Permutation_Forall; [ apply sorted_perm_64 | exact H ]. Qed.

Lemma sorted_ascending_64 (l : list float) : doubles l -> ascending (sorted l).
Proof.
  induction 1 as [ | x l Hx Hl IH ]; simpl.
  - constructor.
  - apply insert_ascending_64; [ exact Hx | apply sorted_doubles, Hl | exact IH ].
Qed.

Lemma ascending_nth_64 (l : list float) (d : float) :
  doubles l -> ascending l ->
  forall i j, (i <= j)%nat -> (j < List.length l)%nat ->
  fle (nth i l d) (nth j l d) = true.
Proof.
  intros Hd Hs. unfold ascending in Hs.
  induction Hs as [ | x l Hs IH Hx ]; intros i j Hij Hj; simpl in Hj.
  - lia.
  - inversion Hd as [ | ? ? Hxd Hld ]; subst.
    destruct i as [ | i ], j as [ | j ]; simpl.
    + destruct (@is_double_fin x Hxd) as [a ->]. apply fle_refl_fin.
    + rewrite Forall_forall in Hx. apply Hx, nth_In. lia.
    + lia.
    + apply IH; [ exact Hld | lia | lia ].
Qed.

Lemma getitem_in_range_64 (l : list float) (d : float) (i : nat) :
  (i < List.length l)%nat -> getitem l i = Returned (nth i l d).
Proof.
  intro Hi. unfold getitem. rewrite (nth_error_nth' l d Hi). reflexivity.
Qed.

(** ** The bounds of the outlier filter *)

(** Between two doubles [a <= b], every value is within the bounds
    computed from them, however the bounds are rounded. *)
Lemma within_bounds (a b c : Q) :
  is_double (Fin a) = true -> is_double (Fin b) = true ->
  a <= c -> c <= b ->
  fle (fsub (Fin a) (fmul (Fin 1.5) (fsub (Fin b) (Fin a)))) (Fin c)
  && fle (Fin c) (fadd (Fin b) (fmul (Fin 1.5) (fsub (Fin b) (Fin a))))
  = true.
Proof.
  intros Ha Hb Hac Hcb.
  assert (Hiqr : fsub (Fin b) (Fin a) = rnd (b + - a)) by reflexivity.
  rewrite Hiqr.
  assert (Ht : (exists t, fmul (Fin 1.5) (rnd (b + - a)) = Fin t /\ 0 <= t)
               \/ fmul (Fin 1.5) (rnd (b + - a)) = PInf).
  { destruct (@rnd_nonneg (b + - a)) as [ (i & Ei & Hi) | Ei ]; [ lra | | ];
      rewrite Ei.
    - change (fmul (Fin 1.5) (Fin i)) with (rnd (1.5 * i)).
      apply rnd_nonneg. lra.
    - right. reflexivity. }
  apply andb_true_iff.
  destruct Ht as [ (t & Et & Ht) | Et ]; rewrite Et.
  - change (fsub (Fin a) (Fin t)) with (rnd (a + - t)).
    change (fadd (Fin b) (Fin t)) with (rnd (b + t)).
    split.
    + apply fle_trans with (Fin a).
      * apply rnd_below_double; [ lra | exact Ha ].
      * cbn [fle]. apply Qle_bool_iff, Hac.
    + apply fle_trans with (Fin b).
      * cbn [fle]. apply Qle_bool_iff, Hcb.
      * apply rnd_above_double; [ lra | exact Hb ].
  - split; reflexivity.
Qed.

Lemma fle_fin (a b : Q) : fle (Fin a) (Fin b) = true -> a <= b.
Proof. cbn [fle]. apply Qle_bool_iff. Qed.

Lemma filter_perm_length (f : float -> bool) (l l' : list float) :
  Permutation l l' ->
  List.length (filter f l) = List.length (filter f l').
Proof.
  induction 1 as [ | x l l' _ IH | x y l | l l' l'' _ IH1 _ IH2 ]; simpl.
  - reflexivity.
  - destruct (f x); simpl; congruence.
  - destruct (f x), (f y); reflexivity.
  - congruence.
Qed.

Lemma filter_keeps_segment (f : float -> bool) (s : list float) (a k : nat) :
  (a + k <= List.length s)%nat ->
  (forall i, (a <= i < a + k)%nat -> f (nth i s NaN) = true) ->
  (k <= List.length (filter f s))%nat.
Proof.
  intros Hlen Hseg.
  rewrite <- (firstn_skipn a s), filter_app, length_app.
  rewrite <- (firstn_skipn k (skipn a s)), filter_app, length_app.
  assert (Hmid : filter f (firstn k (skipn a s)) = firstn k (skipn a s)).
  { apply forallb_filter_id, forallb_forall. intros x Hx.
    destruct (In_nth _ _ NaN Hx) as (j & Hj & <-).
    rewrite length_firstn, length_skipn in Hj.
    rewrite nth_firstn.
    replace (j <? k)%nat with true by (symmetry; apply Nat.ltb_lt; lia).
    rewrite nth_skipn. apply Hseg. lia. }
  rewrite Hmid, length_firstn, length_skipn. lia.
Qed.

(** On finite doubles the sorted prices between the two quartile
    positions pass the test of [_remove_outliers]. *)
Lemma remove_outliers_keeps_position (prices : list float) (i : nat) :
  doubles prices ->
  (4 <= List.length prices)%nat ->
  (List.length prices / 4 <= i <= 3 * List.length prices / 4)%nat ->
  In (nth i (sorted prices) NaN) (_remove_outliers prices).
Proof.
  intros Hd Hn Hi. unfold _remove_outliers.
  replace (List.length prices <? 4)%nat with false
    by (symmetry; apply Nat.ltb_ge; exact Hn).
  rewrite sorted_length_64.
  destruct (@PyFacts.quartile_indices (List.length prices)) as [Hq1 Hq3];
    [ lia | ].
  pose proof (@sorted_doubles prices Hd) as Hsd.
  pose proof (@sorted_ascending_64 prices Hd) as Hsa.
  assert (Hnth : forall j, (j < List.length prices)%nat ->
                   exists q, nth j (sorted prices) NaN = Fin q
                             /\ is_double (Fin q) = true).
  { intros j Hj.
    assert (Hin : In (nth j (sorted prices) NaN) (sorted prices))
      by (apply nth_In; rewrite sorted_length_64; exact Hj).
    unfold doubles in Hsd. rewrite Forall_forall in Hsd.
    specialize (Hsd _ Hin).
    destruct (@is_double_fin _ Hsd) as [q Eq]. rewrite Eq in *.
    exists q. split; [ reflexivity | exact Hsd ]. }
  destruct (Hnth (List.length prices / 4)%nat ltac:(lia)) as (a & Ea & Ha).
  destruct (Hnth (3 * List.length prices / 4)%nat ltac:(lia)) as (b & Eb & Hb).
  destruct (Hnth i ltac:(lia)) as (c & Ec & Hc).
  assert (Hac : a <= c).
  { apply fle_fin. rewrite <- Ea, <- Ec.
    apply ascending_nth_64; [ exact Hsd | exact Hsa | lia
                         | rewrite sorted_length_64; lia ]. }
  assert (Hcb : c <= b).
  { apply fle_fin. rewrite <- Ec, <- Eb.
    apply ascending_nth_64; [ exact Hsd | exact Hsa | lia
                         | rewrite sorted_length_64; lia ]. }
  rewrite Ea, Eb, Ec.
  apply filter_In. split.
  - eapply Permutation_in; [ apply Permutation_sym, sorted_perm_64 | ].
    rewrite <- Ec. apply nth_In. rewrite sorted_length_64. lia.
  - apply within_bounds; assumption.
Qed.

Lemma remove_outliers_nonempty_64 (prices : list float) :
  doubles prices -> prices <> [] -> _remove_outliers prices <> [].
Proof.
  intros Hd Hne Hnil.
  destruct (le_lt_dec 4 (List.length prices)) as [ Hn | Hn ].
  - pose proof (@remove_outliers_keeps_position prices
                  (List.length prices / 4)%nat Hd Hn) as H.
    rewrite Hnil in H. apply H.
    destruct (@PyFacts.quartile_indices (List.length prices)); lia.
  - unfold _remove_outliers in Hnil.
    replace (List.length prices <? 4)%nat with true in Hnil
      by (symmetry; apply Nat.ltb_lt; exact Hn).
    contradiction.
Qed.

Lemma remove_outliers_keeps_centre (prices : list float) :
  doubles prices ->
  (4 <= List.length prices)%nat ->
  (3 * List.length prices / 4 - List.length prices / 4 + 1
   <= List.length (_remove_outliers prices))%nat.
Proof.
  intros Hd Hn.
  destruct (@PyFacts.quartile_indices (List.length prices)) as [Hq1 Hq3];
    [ lia | ].
  assert (Hall : forall i,
             (List.length prices / 4 <= i <= 3 * List.length prices / 4)%nat ->
             In (nth i (sorted prices) NaN) (_remove_outliers prices))
    by (intros i Hi; apply remove_outliers_keeps_position; assumption).
  unfold _remove_outliers in *.
  replace (List.length prices <? 4)%nat with false in *
    by (symmetry; apply Nat.ltb_ge; exact Hn).
  cbv zeta in *.
  match goal with
  | |- context [filter ?f prices] => set (f0 := f) in *
  end.
  rewrite (@filter_perm_length f0 prices (sorted prices) (sorted_perm_64 prices)).
  apply (@filter_keeps_segment f0 (sorted prices) (List.length prices / 4)).
  - rewrite sorted_length_64. lia.
  - intros i Hi. specialize (Hall i ltac:(lia)).
    apply filter_In in Hall. apply Hall.
Qed.

Lemma remove_outliers_length_le (prices : list float) :
  (List.length (_remove_outliers prices) <= List.length prices)%nat.
Proof.
  unfold _remove_outliers.
  destruct (List.length prices <? 4)%nat; [ lia | apply filter_length_le ].
Qed.

End Pricing64Facts.

Module Statistics64Facts.
Import Binary64 Schemas64 SerpApiPricingService64 Binary64Facts Pricing64Facts.

Local Open Scope Q_scope.

Lemma mean_returns (x : float) (l : list float) :
  exists av, mean (x :: l) = Returned av.
Proof.
  unfold mean. destruct (special_sum (x :: l)); eauto.
Qed.

(** The statistics of a non-empty selection are returned, not raised. *)
Lemma price_statistics_of_nonempty_64
  (prices filtered : list float) (x : float) (l : list float) :
  (if Py.is_empty filtered then prices else filtered) = x :: l ->
  exists lo hi av,
    price_statistics prices filtered =
      Returned {| min_price := Some (round2 lo);
                  max_price := Some (round2 hi);
                  avg_price := Some (round2 av);
                  currency := "USD";
                  source_count := Z.of_nat (List.length (x :: l)) |}
    /\ In lo (x :: l) /\ In hi (x :: l).
Proof.
  intro Hsel. unfold price_statistics. rewrite Hsel.
  set (fp := x :: l).
  destruct (mean_returns x l) as [av Hmean]. fold fp in Hmean.
  rewrite Hmean. unfold bind at 1.
  destruct (4 <=? List.length fp)%nat eqn:E4.
  - apply Nat.leb_le in E4.
    destruct (@PyFacts.quartile_indices (List.length (sorted fp)))
      as [Hi Hj]; [ rewrite sorted_length_64; lia | ].
    exists (nth (List.length (sorted fp) / 4) (sorted fp) NaN),
           (nth (3 * List.length (sorted fp) / 4) (sorted fp) NaN), av.
    rewrite !(@getitem_in_range_64 (sorted fp) NaN) by lia.
    split; [ reflexivity | ].
    split; (eapply Permutation_in;
            [ apply Permutation_sym, sorted_perm_64 | apply nth_In; lia ]).
  - exists (min_from x l), (max_from x l), av.
    split; [ reflexivity | ].
    split.
    + clear. subst fp. revert x. induction l as [ | y l IH ]; intro x; simpl.
      * left. reflexivity.
      * destruct (flt y x).
        -- destruct (IH y) as [ H | H ]; [ right; left; exact H | right; right; exact H ].
        -- destruct (IH x) as [ H | H ]; [ left; exact H | right; right; exact H ].
    + clear. subst fp. revert x. induction l as [ | y l IH ]; intro x; simpl.
      * left. reflexivity.
      * destruct (flt x y).
        -- destruct (IH y) as [ H | H ]; [ right; left; exact H | right; right; exact H ].
        -- destruct (IH x) as [ H | H ]; [ left; exact H | right; right; exact H ].
Qed.

Lemma selection_nonempty_64 (prices filtered : list float) :
  prices <> [] ->
  exists x l,
    (if Py.is_empty filtered then prices else filtered) = x :: l.
Proof.
  intro Hne. destruct filtered as [ | y filtered ]; simpl.
  - destruct prices as [ | x l ]; [ congruence | eauto ].
  - eauto.
Qed.

Section Service.

Variable float_of : string -> option float.
Variable get_dict : string -> outcome SearchResults.

Lemma get_price_data_with_prices_64 (query : string) (results : SearchResults) :
  get_dict query = Returned results ->
  _extract_prices float_of (get_shopping_results results) <> [] ->
  get_price_data float_of get_dict query =
    price_statistics
      (_extract_prices float_of (get_shopping_results results))
      (_remove_outliers
         (_extract_prices float_of (get_shopping_results results))).
Proof.
  intros H Hp. unfold get_price_data, get_price_data_try. rewrite H.
  unfold bind at 1.
  destruct (get_shopping_results results) as [ | item rest ] eqn:El.
  - exfalso. apply Hp. reflexivity.
  - change (Py.is_empty (item :: rest)) with false. cbv iota.
    rewrite (@PricingFacts.is_empty_false _ _ Hp).
    set (prices := _extract_prices float_of (item :: rest)) in *.
    destruct (@selection_nonempty_64 prices (_remove_outliers prices) Hp)
      as (x & l & Hsel).
    destruct (@price_statistics_of_nonempty_64 _ _ _ _ Hsel)
      as (lo & hi & av & Hr & _).
    rewrite Hr. reflexivity.
Qed.

Lemma extract_prices_cons (item : ShoppingItem) (rest : list ShoppingItem) :
  _extract_prices float_of (item :: rest)
  = match listing_price float_of item with
    | Some p =>
        if flt (Fin 0) p then p :: _extract_prices float_of rest
        else _extract_prices float_of rest
    | None => _extract_prices float_of rest
    end.
Proof. reflexivity. Qed.

Lemma extract_prices_length_64 (items : list ShoppingItem) :
  (List.length (_extract_prices float_of items) <= List.length items)%nat.
Proof.
  induction items as [ | item rest IH ]; [ simpl; lia | ].
  rewrite extract_prices_cons.
  change (List.length (item :: rest)) with (S (List.length rest)).
  destruct (listing_price float_of item) as [ p | ]; [ | lia ].
  destruct (flt (Fin 0) p);
    [ change (List.length (p :: _extract_prices float_of rest))
        with (S (List.length (_extract_prices float_of rest))) | ];
    lia.
Qed.

(** The valid prices are positive: finite and above zero, or the
    positive infinity. *)
Lemma extract_prices_positive_64 (items : list ShoppingItem) :
  Forall (fun p => flt (Fin 0) p = true) (_extract_prices float_of items).
Proof.
  induction items as [ | item rest IH ]; [ constructor | ].
  rewrite extract_prices_cons.
  destruct (listing_price float_of item) as [ p | ]; [ | exact IH ].
  destruct (flt (Fin 0) p) eqn:E; [ | exact IH ].
  constructor; [ exact E | exact IH ].
Qed.

End Service.

End Statistics64Facts.

(* ===================================================================== *)
(** * Properties of the specification: the outlier filter *)
(* ===================================================================== *)

Section PricingClaims64.
Import Binary64 Schemas64 SerpApiPricingService64 Examples64.
Import Binary64Facts Pricing64Facts Statistics64Facts.

Local Open Scope Q_scope.

(** C4.  When the outlier filter removes every valid price,
    [get_price_data] computes its statistics on the original valid
    prices: it returns the summary of the unfiltered list, whose sample
    count is the number of valid prices, never zero. *)
Theorem outlier_fallback :
  forall (float_of : string -> option float)
         (get_dict : string -> outcome SearchResults)
         (query : string) (results : SearchResults) (prices : list float),
    get_dict query = Returned results ->
    prices = _extract_prices float_of (get_shopping_results results) ->
    prices <> [] ->
    _remove_outliers prices = [] ->
    exists r,
      get_price_data float_of get_dict query = Returned r
      /\ price_statistics prices prices = Returned r
      /\ source_count r = Z.of_nat (List.length prices)
      /\ (0 < source_count r)%Z.
Proof.
  intros float_of get_dict query results prices Hd -> Hne Hnil.
  rewrite (@get_price_data_with_prices_64 float_of get_dict query results Hd Hne).
  set (prices := _extract_prices float_of _) in *.
  rewrite Hnil.
  destruct prices as [ | x l ] eqn:Ep; [ congruence | ].
  destruct (@price_statistics_of_nonempty_64 (x :: l) [] x l eq_refl)
    as (lo & hi & av & Hs & _).
  eexists. split; [ exact Hs | ].
  split; [ exact Hs | ].
  cbn [source_count].
  change (List.length (x :: l)) with (S (List.length l)).
  split; [ reflexivity | lia ].
Qed.

(** Four listings priced ["inf"]: every price is valid, the bounds of the
    filter are NaN and no price passes; the summary counts the four
    prices. *)
Lemma outlier_fallback_witness :
  exists r,
    get_price_data float_of_string (search_returning infinite_listings)
      "gold bar"%string = Returned r
    /\ price_statistics [PInf; PInf; PInf; PInf] [PInf; PInf; PInf; PInf]
       = Returned r
    /\ source_count r = 4%Z
    /\ (0 < source_count r)%Z.
Proof.
  apply (@outlier_fallback float_of_string
           (search_returning infinite_listings) "gold bar"%string
           {| shopping_results := Some infinite_listings |}
           [PInf; PInf; PInf; PInf]);
    [ reflexivity | reflexivity | discriminate | reflexivity ].
Defined.

(** C9, amended.  On a non-empty list of finite prices [_remove_outliers]
    returns a non-empty list: with four prices or more, the elements at
    the Q1 and Q3 positions of the sorted list lie within the bounds,
    however the bounds are rounded, and are kept.  On such prices the list
    [get_price_data] computes its statistics on is the filtered one, not
    the fall-back. *)
Theorem remove_outliers_never_empties :
  forall prices : list float,
    doubles prices ->
    prices <> [] ->
    _remove_outliers prices <> []
    /\ ((4 <= List.length prices)%nat ->
        In (nth (List.length prices / 4) (sorted prices) NaN)
           (_remove_outliers prices)
        /\ In (nth (3 * List.length prices / 4) (sorted prices) NaN)
              (_remove_outliers prices))
    /\ (if Py.is_empty (_remove_outliers prices) then prices
        else _remove_outliers prices) = _remove_outliers prices.
Proof.
  intros prices Hd Hne.
  pose proof (@remove_outliers_nonempty_64 prices Hd Hne) as Hkeep.
  split; [ exact Hkeep | ].
  split.
  - intro Hn.
    destruct (@PyFacts.quartile_indices (List.length prices)) as [Hq1 Hq3];
      [ lia | ].
    split; apply remove_outliers_keeps_position; trivial; lia.
  - rewrite (@PricingFacts.is_empty_false _ _ Hkeep). reflexivity.
Qed.

Lemma remove_outliers_never_empties_witness :
  _remove_outliers [Fin 100; Fin 110; Fin 105; Fin 95; Fin 1000; Fin 90]
  <> []
  /\ ((4 <= 6)%nat ->
      In (Fin 95)
         (_remove_outliers
            [Fin 100; Fin 110; Fin 105; Fin 95; Fin 1000; Fin 90])
      /\ In (Fin 110)
            (_remove_outliers
               [Fin 100; Fin 110; Fin 105; Fin 95; Fin 1000; Fin 90]))
  /\ (if Py.is_empty
           (_remove_outliers
              [Fin 100; Fin 110; Fin 105; Fin 95; Fin 1000; Fin 90])
      then [Fin 100; Fin 110; Fin 105; Fin 95; Fin 1000; Fin 90]
      else _remove_outliers
             [Fin 100; Fin 110; Fin 105; Fin 95; Fin 1000; Fin 90])
     = [Fin 100; Fin 110; Fin 105; Fin 95; Fin 90].
Proof.
  apply (@remove_outliers_never_empties
           [Fin 100; Fin 110; Fin 105; Fin 95; Fin 1000; Fin 90]).
  - repeat constructor.
  - discriminate.
Defined.

(** C9 as stated fails: [float] reads the price string ["inf"] as the
    positive infinity, which is a valid price; on four such prices the
    interquartile range [inf - inf] is NaN, no price compares within the
    bounds and [_remove_outliers] returns the empty list, so
    [get_price_data] takes the fall-back and counts the four prices. *)
Lemma remove_outliers_never_empties_counterexample :
  _extract_prices float_of_string infinite_listings
  = [PInf; PInf; PInf; PInf]
  /\ [PInf; PInf; PInf; PInf] <> []
  /\ _remove_outliers [PInf; PInf; PInf; PInf] = []
  /\ get_price_data float_of_string (search_returning infinite_listings)
       "gold bar"%string
     = Returned infinite_summary
  /\ source_count infinite_summary
     = Z.of_nat (List.length [PInf; PInf; PInf; PInf]).
Proof.
  split; [ reflexivity | ].
  split; [ discriminate | ].
  split; [ reflexivity | ].
  split; reflexivity.
Qed.

End PricingClaims64.

(* ===================================================================== *)
(** * Facts about the string builtins *)
(* ===================================================================== *)

Module StrFacts.

Local Open Scope string_scope.

Lemma length_app (a b : string) :
  String.length (a ++ b) = (String.length a + String.length b)%nat.
Proof. induction a as [ | c a IH ]; simpl; [ | rewrite IH ]; reflexivity. Qed.

Lemma prefix_app (a s : string) :
  prefix a s = true -> exists rest, s = a ++ rest.
Proof.
  revert s. induction a as [ | c a IH ]; intros s H.
  - exists s. reflexivity.
  - destruct s as [ | d s ]; simpl in H; [ discriminate | ].
    destruct (ascii_dec c d) as [ -> | ]; [ | discriminate ].
    destruct (IH s H) as [rest ->]. exists rest. reflexivity.
Qed.

Lemma prefix_refl (s : string) : prefix s s = true.
Proof.
  induction s as [ | c s IH ]; simpl; [ reflexivity | ].
  destruct (ascii_dec c c); [ exact IH | congruence ].
Qed.

Lemma prefix_empty (s : string) : prefix "" s = true.
Proof. destruct s; reflexivity. Qed.

Lemma prefix_cons (c : ascii) (a s : string) :
  prefix (String c a) (String c s) = prefix a s.
Proof. simpl. destruct (ascii_dec c c); [ reflexivity | congruence ]. Qed.

Lemma prefix_trans (a b s : string) :
  prefix a b = true -> prefix b s = true -> prefix a s = true.
Proof.
  revert b s. induction a as [ | c a IH ]; intros b s Hab Hbs.
  - apply prefix_empty.
  - destruct b as [ | d b ]; simpl in Hab; [ discriminate | ].
    destruct (ascii_dec c d) as [ -> | ]; [ | discriminate ].
    destruct s as [ | e s ]; simpl in Hbs; [ discriminate | ].
    destruct (ascii_dec d e) as [ -> | ]; [ | discriminate ].
    rewrite prefix_cons. eapply IH; eassumption.
Qed.

Lemma prefix_length (a s : string) :
  prefix a s = true -> (String.length a <= String.length s)%nat.
Proof.
  intro H. destruct (prefix_app _ _ H) as [rest ->].
  rewrite length_app. lia.
Qed.

(** ** [s[:n]] *)

Lemma slice_to_length (n : nat) (s : string) :
  String.length (Py.slice_to n s) = Nat.min n (String.length s).
Proof.
  revert s. induction n as [ | n IH ]; intros [ | c s ]; simpl; trivial.
  rewrite IH. reflexivity.
Qed.

Lemma slice_to_prefix (n : nat) (s : string) :
  prefix (Py.slice_to n s) s = true.
Proof.
  revert s. induction n as [ | n IH ]; intros [ | c s ]; trivial.
  simpl Py.slice_to. rewrite prefix_cons. apply IH.
Qed.

(** ** [sep in s] and the two splits *)

Lemma contains_cons (sep : string) (c : ascii) (s : string) :
  Py.contains sep (String c s)
  = prefix sep (String c s) || Py.contains sep s.
Proof. reflexivity. Qed.

Lemma contains_nil (sep : string) : Py.contains sep "" = prefix sep "".
Proof. simpl. apply orb_false_r. Qed.

Lemma split_head_cons (sep : string) (c : ascii) (s : string) :
  Py.split_head sep (String c s)
  = if prefix sep (String c s) then "" else String c (Py.split_head sep s).
Proof. reflexivity. Qed.

Lemma rsplit1_head_cons (sep : string) (c : ascii) (s : string) :
  Py.rsplit1_head sep (String c s)
  = if Py.contains sep s then String c (Py.rsplit1_head sep s)
    else if prefix sep (String c s) then "" else String c s.
Proof. reflexivity. Qed.

Lemma contains_app_r (sep a b : string) :
  Py.contains sep b = true -> Py.contains sep (a ++ b) = true.
Proof.
  intro H. induction a as [ | c a IH ]; [ exact H | ].
  change (String c a ++ b) with (String c (a ++ b)).
  rewrite contains_cons, IH. apply orb_true_r.
Qed.

(** The text before the first occurrence is followed by the separator. *)
Lemma split_head_spec (sep s : string) :
  Py.contains sep s = true ->
  exists rest, s = Py.split_head sep s ++ sep ++ rest.
Proof.
  induction s as [ | c s IH ]; intro H.
  - rewrite contains_nil in H.
    change (Py.split_head sep "") with (if prefix sep "" then "" else "").
    rewrite H. apply (prefix_app sep "" H).
  - rewrite split_head_cons. rewrite contains_cons in H.
    destruct (prefix sep (String c s)) eqn:Hp.
    + apply (prefix_app _ _ Hp).
    + destruct (IH H) as [rest Hrest].
      exists rest.
      change (String c s = String c (Py.split_head sep s ++ sep ++ rest)).
      rewrite <- Hrest. reflexivity.
Qed.

Lemma split_head_prefix (sep s : string) :
  prefix (Py.split_head sep s) s = true.
Proof.
  induction s as [ | c s IH ].
  - change (Py.split_head sep "") with (if prefix sep "" then "" else "").
    destruct (prefix sep ""); reflexivity.
  - rewrite split_head_cons.
    destruct (prefix sep (String c s)); [ apply prefix_empty | ].
    rewrite prefix_cons. exact IH.
Qed.

(** Without an occurrence [rsplit] leaves the string whole. *)
Lemma rsplit1_head_whole (sep s : string) :
  Py.contains sep s = false -> Py.rsplit1_head sep s = s.
Proof.
  destruct s as [ | c s ]; [ reflexivity | ].
  rewrite contains_cons, rsplit1_head_cons.
  intro H. apply orb_false_iff in H. destruct H as [Hp Hc].
  rewrite Hc, Hp. reflexivity.
Qed.

(** With an occurrence, the text before the last one is followed by the
    separator and by a tail that holds no further occurrence. *)
Lemma rsplit1_head_spec (sep s : string) :
  sep <> "" ->
  Py.contains sep s = true ->
  exists tail,
    s = Py.rsplit1_head sep s ++ sep ++ tail
    /\ Py.contains sep tail = false.
Proof.
  intro Hsep.
  induction s as [ | c s IH ]; intro H.
  - rewrite contains_nil in H.
    destruct sep; [ congruence | discriminate H ].
  - rewrite rsplit1_head_cons. rewrite contains_cons in H.
    destruct (Py.contains sep s) eqn:Hc.
    + destruct (IH eq_refl) as (tail & Hs & Ht).
      exists tail. split; [ | exact Ht ].
      change (String c s = String c (Py.rsplit1_head sep s ++ sep ++ tail)).
      rewrite <- Hs. reflexivity.
    + rewrite orb_false_r in H. rewrite H.
      destruct (prefix_app _ _ H) as [tail Htail].
      exists tail. split; [ exact Htail | ].
      destruct sep as [ | d sep ]; [ congruence | ].
      change (String c s = String d (sep ++ tail)) in Htail.
      injection Htail as _ ->.
      destruct (Py.contains (String d sep) tail) eqn:Et; trivial.
      rewrite (contains_app_r _ sep _ Et) in Hc. discriminate Hc.
Qed.

Lemma rsplit1_head_prefix (sep s : string) :
  prefix (Py.rsplit1_head sep s) s = true.
Proof.
  induction s as [ | c s IH ]; [ reflexivity | ].
  rewrite rsplit1_head_cons.
  destruct (Py.contains sep s).
  - rewrite prefix_cons. exact IH.
  - destruct (prefix sep (String c s)); [ apply prefix_empty | apply prefix_refl ].
Qed.

Lemma truthy_str_some (s : string) :
  Py.truthy_str (Some s) = true <-> s <> "".
Proof.
  unfold Py.truthy_str. rewrite negb_true_iff. apply String.eqb_neq.
Qed.

End StrFacts.

(* ===================================================================== *)
(** * Properties of the specification: scoring and naming *)
(* ===================================================================== *)

Section ScoringClaims.
Import Schemas AppraiserService Examples.

Local Open Scope Q_scope.
Local Open Scope string_scope.

(** Turns the tests of the scoring functions into propositions. *)
Ltac reflect_tests :=
  repeat match goal with
    | H : Py.Qlt_bool _ _ = true |- _ => apply PyFacts.Qlt_bool_iff in H
    | H : Py.Qlt_bool _ _ = false |- _ => apply PyFacts.Qlt_bool_false in H
    | H : Qle_bool _ _ = true |- _ => apply Qle_bool_iff in H
    | H : Qle_bool _ _ = false |- _ => apply PyFacts.Qle_bool_false in H
    | H : (_ <? _)%Z = true |- _ => apply Z.ltb_lt in H
    | H : (_ <? _)%Z = false |- _ => apply Z.ltb_ge in H
    | H : (_ <=? _)%Z = true |- _ => apply Z.leb_le in H
    | H : (_ <=? _)%Z = false |- _ => apply Z.leb_gt in H
    end.

(** C5.  Without an average the rarity tier is Unknown.  With an average
    the tier is the first that matches, in this order: Legendary when
    [avg > 500] and [sources < 5]; Epic when [avg > 300] or
    [sources < 3]; Rare when [avg > 150] or [sources < 8]; Uncommon when
    [avg > 75]; Common otherwise. *)
Theorem rarity_first_match :
  forall p : PriceDataResult,
    (avg_price p = None -> _calculate_rarity p = "Unknown")
    /\ (forall avg : Q,
          avg_price p = Some avg ->
          let sources := source_count p in
          let legendary := 500 < avg /\ (sources < 5)%Z in
          let epic := 300 < avg \/ (sources < 3)%Z in
          let rare := 150 < avg \/ (sources < 8)%Z in
          let uncommon := 75 < avg in
          (legendary -> _calculate_rarity p = "Legendary")
          /\ (~ legendary -> epic -> _calculate_rarity p = "Epic")
          /\ (~ legendary -> ~ epic -> rare -> _calculate_rarity p = "Rare")
          /\ (~ legendary -> ~ epic -> ~ rare -> uncommon ->
              _calculate_rarity p = "Uncommon")
          /\ (~ legendary -> ~ epic -> ~ rare -> ~ uncommon ->
              _calculate_rarity p = "Common")).
Proof.
  intro p. unfold _calculate_rarity. split.
  - intros ->. reflexivity.
  - intros avg ->. cbv zeta.
    destruct (Py.Qlt_bool 500 avg) eqn:E500;
      destruct (source_count p <? 5)%Z eqn:S5;
      destruct (Py.Qlt_bool 300 avg) eqn:E300;
      destruct (source_count p <? 3)%Z eqn:S3;
      destruct (Py.Qlt_bool 150 avg) eqn:E150;
      destruct (source_count p <? 8)%Z eqn:S8;
      destruct (Py.Qlt_bool 75 avg) eqn:E75;
      reflect_tests; cbn [andb orb];
      repeat split; intros; try reflexivity; exfalso;
      intuition (lra || lia).
Qed.

(** Property P6: an average of 200 with 2 sources is Epic. *)
Lemma rarity_first_match_witness :
  _calculate_rarity scarce_summary = "Epic".
Proof.
  destruct (rarity_first_match scarce_summary) as [_ H].
  destruct (H 200 eq_refl) as (_ & Hepic & _).
  apply Hepic.
  - intros [Havg _]. apply Qlt_not_le in Havg. apply Havg. discriminate.
  - right. reflexivity.
Defined.

(** C6.  The confidence score is 0.5, plus 0.15 for a brand, 0.15 for a
    model and 0.05 for a condition (each when the field is present and not
    empty), plus 0.15 for ten sources or more, else 0.10 for five or more,
    the whole capped at 1.0; it lies between 0.5 and 1.0. *)
Theorem confidence_score_formula :
  forall (v : GeminiVisionResult) (p : PriceDataResult),
    let bonus := fun (present : bool) (x : Q) => if present then x else 0 in
    (_calculate_confidence v p ==
       Qmin 1
         (0.5
          + bonus (Py.truthy_str (brand v)) 0.15
          + bonus (Py.truthy_str (model v)) 0.15
          + bonus (Py.truthy_str (condition v)) 0.05
          + (if (10 <=? source_count p)%Z then 0.15
             else if (5 <=? source_count p)%Z then 0.10
             else 0)))%Q
    /\ (0.5 <= _calculate_confidence v p)%Q
    /\ (_calculate_confidence v p <= 1)%Q.
Proof.
  intros v p. unfold _calculate_confidence. cbv zeta beta.
  destruct (Py.truthy_str (brand v));
    destruct (Py.truthy_str (model v));
    destruct (Py.truthy_str (condition v));
    destruct (10 <=? source_count p)%Z;
    destruct (5 <=? source_count p)%Z;
    vm_compute; repeat split; discriminate.
Qed.

(** C10.  Two identification and price-data pairs that agree on which of
    brand, model and condition are present (and not empty) and on the
    source count get the same confidence score. *)
Theorem confidence_depends_on_presence_only :
  forall (v1 v2 : GeminiVisionResult) (p1 p2 : PriceDataResult),
    Py.truthy_str (brand v1) = Py.truthy_str (brand v2) ->
    Py.truthy_str (model v1) = Py.truthy_str (model v2) ->
    Py.truthy_str (condition v1) = Py.truthy_str (condition v2) ->
    source_count p1 = source_count p2 ->
    _calculate_confidence v1 p1 = _calculate_confidence v2 p2.
Proof.
  intros v1 v2 p1 p2 Hb Hm Hc Hs.
  unfold _calculate_confidence. rewrite Hb, Hm, Hc, Hs. reflexivity.
Qed.

(** Two descriptions with different text and two summaries with different
    prices, both from five sources. *)
Lemma confidence_depends_on_presence_only_witness :
  _calculate_confidence (described unbroken_description) tight_summary
  = _calculate_confidence (described long_description) wide_summary.
Proof.
  apply confidence_depends_on_presence_only; reflexivity.
Defined.

(** C8, amended.  For an identification without brand and model:
    with a description [d] (present and not empty) and [desc] its
    stripped text, the item name is the text before the first [". "] if
    [desc] has one, whatever its length; else, if [desc] has more than 50
    characters, the first 50 characters cut before their last space (kept
    whole when they have none) followed by ["..."], 53 characters at
    most; else [desc] itself.  Without a description the name is the
    category followed by [" Item"] when the category is present, not
    empty and not ["Unknown"], and ["Unidentified Item"] otherwise. *)
Theorem item_name_without_brand_model :
  forall v : GeminiVisionResult,
    Py.truthy_str (brand v) = false ->
    Py.truthy_str (model v) = false ->
    (forall d : string,
        raw_description v = Some d -> d <> "" ->
        let desc := Py.strip d in
        let name := _format_item_name v in
        (Py.contains ". " desc = true ->
         name = Py.split_head ". " desc
         /\ exists rest, desc = name ++ ". " ++ rest)
        /\ (Py.contains ". " desc = false ->
            (50 < String.length desc)%nat ->
            exists w,
              name = w ++ "..."
              /\ prefix w desc = true
              /\ (String.length w <= 50)%nat
              /\ (String.length name <= 53)%nat
              /\ (Py.contains " " (Py.slice_to 50 desc) = true ->
                  exists tail,
                    Py.slice_to 50 desc = w ++ " " ++ tail
                    /\ Py.contains " " tail = false)
              /\ (Py.contains " " (Py.slice_to 50 desc) = false ->
                  w = Py.slice_to 50 desc))
        /\ (Py.contains ". " desc = false ->
            (String.length desc <= 50)%nat ->
            name = desc))
    /\ (Py.truthy_str (raw_description v) = false ->
        (forall c : string,
            category v = Some c -> c <> "" -> c <> "Unknown" ->
            _format_item_name v = c ++ " Item")
        /\ (category v = None \/ category v = Some ""
            \/ category v = Some "Unknown" ->
            _format_item_name v = "Unidentified Item")).
Proof.
  intros v Hb Hm.
  assert (Hparts : brand_model_parts v = []).
  { unfold brand_model_parts. rewrite Hb, Hm. reflexivity. }
  split.
  - unfold _format_item_name. rewrite Hparts. cbn [Py.is_empty negb].
    intros d Hd Hne. rewrite Hd.
    rewrite (proj2 (StrFacts.truthy_str_some d) Hne). cbv zeta.
    set (desc := Py.strip d).
    split; [ | split ].
    + intro Hc. rewrite Hc. split; [ reflexivity | ].
      apply StrFacts.split_head_spec, Hc.
    + intros Hc Hlen. rewrite Hc.
      replace (50 <? String.length desc)%nat with true
        by (symmetry; apply Nat.ltb_lt; exact Hlen).
      exists (Py.rsplit1_head " " (Py.slice_to 50 desc)).
      assert (Hw : (String.length (Py.rsplit1_head " " (Py.slice_to 50 desc))
                    <= 50)%nat).
      { pose proof (StrFacts.prefix_length _ _
                      (StrFacts.rsplit1_head_prefix " " (Py.slice_to 50 desc)))
          as Hp.
        rewrite StrFacts.slice_to_length in Hp. lia. }
      split; [ reflexivity | ].
      split.
      { eapply StrFacts.prefix_trans.
        - apply StrFacts.rsplit1_head_prefix.
        - apply StrFacts.slice_to_prefix. }
      split; [ exact Hw | ].
      split;
        [ rewrite StrFacts.length_app;
          change (String.length "...") with 3%nat; lia | ].
      split.
      * apply StrFacts.rsplit1_head_spec. discriminate.
      * apply StrFacts.rsplit1_head_whole.
    + intros Hc Hlen. rewrite Hc.
      replace (50 <? String.length desc)%nat with false
        by (symmetry; apply Nat.ltb_ge; exact Hlen).
      reflexivity.
  - intro Hd.
    assert (Hname : _format_item_name v = category_item_name v).
    { unfold _format_item_name. rewrite Hparts. cbn [Py.is_empty negb].
      destruct (raw_description v) as [ d | ]; [ | reflexivity ].
      rewrite Hd. reflexivity. }
    rewrite Hname. unfold category_item_name.
    split.
    + intros c -> Hc1 Hc2.
      rewrite (proj2 (StrFacts.truthy_str_some c) Hc1).
      rewrite (proj2 (String.eqb_neq c "Unknown") Hc2). reflexivity.
    + intros [ -> | [ -> | -> ] ]; reflexivity.
Qed.

Lemma item_name_without_brand_model_witness :
  _format_item_name (described long_description)
  = "A hand-painted ceramic vase with blue floral" ++ "..."
  /\ _format_item_name (categorised (Some "Toys")) = "Toys Item"
  /\ _format_item_name (categorised (Some "Unknown")) = "Unidentified Item".
Proof.
  split; [ | split ].
  - destruct (@item_name_without_brand_model (described long_description)
                eq_refl eq_refl) as [H _].
    destruct (H long_description eq_refl) as (_ & Hlong & _);
      [ discriminate | ].
    destruct Hlong as (w & Hname & _); [ reflexivity | simpl; lia | ].
    reflexivity.
  - destruct (@item_name_without_brand_model (categorised (Some "Toys"))
                eq_refl eq_refl) as [_ H].
    destruct (H eq_refl) as [Hknown _].
    apply (Hknown "Toys"); [ reflexivity | discriminate | discriminate ].
  - destruct (@item_name_without_brand_model (categorised (Some "Unknown"))
                eq_refl eq_refl) as [_ H].
    destruct (H eq_refl) as [_ Hunknown].
    apply Hunknown. right. right. reflexivity.
Defined.

(** C8 as stated fails: a description of 54 characters without a space
    and without a sentence boundary gives an item name of 53 characters,
    its first 50 characters and the ellipsis. *)
Lemma item_name_without_brand_model_counterexample :
  Py.truthy_str (brand (described unbroken_description)) = false
  /\ Py.truthy_str (model (described unbroken_description)) = false
  /\ _format_item_name (described unbroken_description)
     = "Supercalifragilisticexpialidocious-extraordinary-t..."
  /\ String.length (_format_item_name (described unbroken_description)) = 53%nat
  /\ ~ (String.length (_format_item_name (described unbroken_description))
        <= 50)%nat.
Proof.
  repeat split. vm_compute. lia.
Qed.

End ScoringClaims.


(* ===================================================================== *)
(** * Properties of the specification: the value display *)
(* ===================================================================== *)

Module Display64Facts.
Import Binary64.

Local Open Scope Q_scope.

(** A present price that is not zero is true in a condition. *)
Lemma truthy_nonzero (x : float) :
  nonzero x -> truthy_float (Some x) = true.
Proof.
  destruct x as [ q | | | ]; try reflexivity.
  intro H. unfold truthy_float. apply negb_true_iff.
  destruct (Qeq_bool q 0) eqn:E; trivial.
  apply Qeq_bool_iff in E. contradiction.
Qed.

End Display64Facts.

Section DisplayClaim.
Import Binary64 Schemas64 AppraiserService64 Examples64.
Import Display64Facts.


Local Open Scope Q_scope.
Local Open Scope string_scope.

(** C7, amended.  The value display is "Price unavailable" without an
    average.  With an average: when low and high are both present and not
    zero, it is the single value ["~$<average>"] if the test
    [high - low <= average * 0.3] succeeds and the range
    ["$<low> - $<high>"] if it fails; when low or high is absent it is the
    single value.  The test is the one of the doubles: the difference and
    the product are each rounded to the nearest double, [0.3] is the
    double nearest to three tenths, and a comparison with NaN fails.  A
    finite number is printed as an integer, rounded to the nearest with
    ties to the even one.  The double [0.3] is below three tenths, and
    on finite values the test succeeds whenever the exact difference is
    at most the exact product of the average and that double. *)
Theorem price_display :
  forall p : PriceDataResult,
    (avg_price p = None -> _format_price_range p = "Price unavailable")
    /\ (forall avg : float,
          avg_price p = Some avg ->
          (forall lo hi : float,
              min_price p = Some lo -> max_price p = Some hi ->
              nonzero lo -> nonzero hi ->
              (fle (fsub hi lo) (fmul avg literal_0_3) = true ->
               _format_price_range p = "~$" ++ format_0f avg)
              /\ (fle (fsub hi lo) (fmul avg literal_0_3) = false ->
                  _format_price_range p =
                    "$" ++ format_0f lo ++ " - $" ++ format_0f hi))
          /\ (min_price p = None \/ max_price p = None ->
              _format_price_range p = "~$" ++ format_0f avg))
    /\ (forall q : Q,
          0 <= q ->
          format_0f (Fin q) = Py.str_of_Z (Py.round_half_even q)
          /\ inject_Z (Py.round_half_even q) - (1 # 2) <= q
          /\ q <= inject_Z (Py.round_half_even q) + (1 # 2))
    /\ (exists c : Q,
          literal_0_3 = Fin c /\ c < 0.3
          /\ forall lo hi avg : Q,
               hi - lo <= avg * c ->
               fle (fsub (Fin hi) (Fin lo)) (fmul (Fin avg) literal_0_3)
               = true).
Proof.
  intro p. unfold _format_price_range.
  split; [ intros ->; reflexivity | ].
  split; [ | split ].
  - intros avg ->. split.
    + intros lo hi -> -> Hlo Hhi.
      rewrite (@truthy_nonzero lo Hlo), (@truthy_nonzero hi Hhi).
      cbn [andb]. cbv zeta.
      destruct (fle (fsub hi lo) (fmul avg literal_0_3));
        split; intro H; try reflexivity; discriminate H.
    + intros [ -> | Hmax ].
      * reflexivity.
      * rewrite Hmax. destruct (min_price p); reflexivity.
  - intros q Hq. split; [ | apply PyFacts.round_half_even_nearest ].
    unfold format_0f, Py.format_0f.
    replace (Py.Qlt_bool q 0) with false; [ reflexivity | ].
    symmetry. apply PyFacts.Qlt_bool_false. exact Hq.
  - assert (El : exists c, literal_0_3 = Fin c /\ c < 0.3).
    { eexists. split; [ vm_compute; reflexivity | reflexivity ]. }
    destruct El as (c & Ec & Hc). exists c.
    split; [ exact Ec | ]. split; [ exact Hc | ].
    intros lo hi avg H. rewrite Ec.
    change (fsub (Fin hi) (Fin lo)) with (rnd (hi + - lo)).
    change (fmul (Fin avg) (Fin c)) with (rnd (avg * c)).
    apply Binary64Facts.rnd_mono. exact H.
Qed.

(** The listings at 0.70, 1.00, 1.00 and 1.30 dollars are summarised by
    low 1.0, high 1.3 and average 1.0. *)
Lemma cent_listings_summary :
  SerpApiPricingService64.get_price_data float_of_string
    (search_returning cent_listings) "pencil"
  = Returned cent_summary.
Proof. vm_compute. reflexivity. Qed.

(** Property P5: low 95, high 105, average 100 displays ["~$100"]; low 50,
    high 200, average 100 displays ["$50 - $200"].  Low 1.0, high 1.3 and
    average 1.0 display the range: the difference of the doubles is
    0.30000000000000004, above the product 0.3.  An infinite low and high
    display the range: their difference is NaN. *)
Lemma price_display_witness :
  _format_price_range tight_summary = "~$100"
  /\ _format_price_range wide_summary = "$50 - $200"
  /\ _format_price_range cent_summary = "$1 - $1"
  /\ _format_price_range infinite_summary = "$inf - $inf".
Proof.
  split; [ | split; [ | split ] ].
  - destruct (price_display tight_summary) as (_ & H & _).
    destruct (H (Fin 100) eq_refl) as (Hrange & _).
    destruct (Hrange (Fin 95) (Fin 105) eq_refl eq_refl) as (Htight & _);
      [ simpl; discriminate | simpl; discriminate | ].
    apply Htight. reflexivity.
  - destruct (price_display wide_summary) as (_ & H & _).
    destruct (H (Fin 100) eq_refl) as (Hrange & _).
    destruct (Hrange (Fin 50) (Fin 200) eq_refl eq_refl) as (_ & Hwide);
      [ simpl; discriminate | simpl; discriminate | ].
    apply Hwide. reflexivity.
  - destruct (price_display cent_summary) as (_ & H & _).
    destruct (H (Fin 1) eq_refl) as (Hrange & _).
    destruct (Hrange (Fin 1) (rnd 1.3) eq_refl eq_refl) as (_ & Hwide);
      [ simpl; discriminate | vm_compute; discriminate | ].
    apply Hwide. reflexivity.
  - destruct (price_display infinite_summary) as (_ & H & _).
    destruct (H PInf eq_refl) as (Hrange & _).
    destruct (Hrange PInf PInf eq_refl eq_refl) as (_ & Hwide);
      [ exact I | exact I | ].
    apply Hwide. reflexivity.
Defined.

(** C7 as stated fails: for a summary with an average of 100 and neither
    low nor high, the spread test cannot hold and the specification asks
    for the range of low and high; [_format_price_range] displays the
    single value ["~$100"]. *)
Lemma price_display_counterexample :
  _format_price_range average_only = "~$100"
  /\ ~ Specification.display_as_specified average_only
         (_format_price_range average_only).
Proof.
  split; [ reflexivity | ].
  unfold Specification.display_as_specified. simpl.
  intros (low & high & Hlow & _). discriminate Hlow.
Qed.

End DisplayClaim.

(* ===================================================================== *)
(** * Properties of the specification: upstream failures *)
(* ===================================================================== *)

Section FailureClaims.
Import Schemas SerpApiPricingService GeminiVisionService AppraiserService.
Import Examples.

Local Open Scope string_scope.

(** C3, amended.  A failure of the upstream search is caught inside
    [get_price_data], which returns a summary with a sample count of zero
    and no prices; a failure of the upstream vision call is caught inside
    [identify_item], which returns an identification of category
    ["Unknown"] whose description reports the error.  The orchestrator
    [analyze_item] has no handler of its own: a failure raised by either
    of its two ports is surfaced unmodified and no report is built. *)
Theorem upstream_failure_handling :
  forall (float : string -> option Q)
         (get_dict : string -> outcome SearchResults)
         (generate_content_text : list Byte.byte -> outcome string)
         (json_loads : string -> option json)
         (vision_service : list Byte.byte -> outcome GeminiVisionResult)
         (pricing_service : string -> outcome PriceDataResult)
         (query : string) (image_data : list Byte.byte) (e : string),
    (get_dict query = Raised e ->
     get_price_data float get_dict query
     = Returned (PriceDataResult_of_count 0))
    /\ (generate_content_text image_data = Raised e ->
        identify_item generate_content_text json_loads image_data
        = Returned (GeminiVisionResult_of_description "Unknown"
                      ("Unable to identify item: " ++ e)))
    /\ (vision_service image_data = Raised e ->
        analyze_item vision_service pricing_service image_data = Raised e)
    /\ (forall v : GeminiVisionResult,
           vision_service image_data = Returned v ->
           pricing_service (_build_search_query v) = Raised e ->
           analyze_item vision_service pricing_service image_data = Raised e).
Proof.
  intros float get_dict generate_content_text json_loads
         vision_service pricing_service query image_data e.
  split; [ | split; [ | split ] ].
  - apply PricingFacts.get_price_data_upstream_failure.
  - intro H. unfold identify_item, identify_item_try. rewrite H. reflexivity.
  - intro H. unfold analyze_item. rewrite H. reflexivity.
  - intros v Hv Hp. unfold analyze_item. rewrite Hv. simpl bind.
    rewrite Hp. reflexivity.
Qed.

Lemma upstream_failure_handling_witness :
  get_price_data Py.float_decimal (search_failing "quota exceeded")
    "Nike Air Jordan 1 Retro High OG"
  = Returned (PriceDataResult_of_count 0)
  /\ identify_item (vision_failing "quota exceeded") json_rejecting
       [Byte.xff; Byte.xd8]
     = Returned (GeminiVisionResult_of_description "Unknown"
                   "Unable to identify item: quota exceeded")
  /\ analyze_item (fun _ => Raised "quota exceeded")
       (fun _ => Returned tight_summary) [Byte.xff; Byte.xd8]
     = Raised "quota exceeded"
  /\ analyze_item (fun _ => Returned sneaker)
       (fun _ => Raised "quota exceeded") [Byte.xff; Byte.xd8]
     = Raised "quota exceeded".
Proof.
  destruct (@upstream_failure_handling Py.float_decimal
              (search_failing "quota exceeded")
              (vision_failing "quota exceeded") json_rejecting
              (fun _ => Raised "quota exceeded")
              (fun _ => Returned tight_summary)
              "Nike Air Jordan 1 Retro High OG" [Byte.xff; Byte.xd8]
              "quota exceeded") as (Hprice & Hvision & Hport & _).
  destruct (@upstream_failure_handling Py.float_decimal
              (search_failing "quota exceeded")
              (vision_failing "quota exceeded") json_rejecting
              (fun _ => Returned sneaker)
              (fun _ => Raised "quota exceeded")
              "Nike Air Jordan 1 Retro High OG" [Byte.xff; Byte.xd8]
              "quota exceeded") as (_ & _ & _ & Hpricing).
  split; [ apply Hprice; reflexivity | ].
  split; [ apply Hvision; reflexivity | ].
  split; [ apply Hport; reflexivity | ].
  apply (Hpricing sneaker); reflexivity.
Defined.

(** C3 as stated fails: with both upstream calls failing, the orchestrator
    over the two services raises nothing and returns a degraded report,
    built from the placeholder identification and the empty summary. *)
Lemma upstream_failure_handling_counterexample :
  analyze_item
    (identify_item (vision_failing "quota exceeded") json_rejecting)
    (get_price_data Py.float_decimal (search_failing "connection timed out"))
    [Byte.xff; Byte.xd8]
  = Returned
      (_build_response
         (GeminiVisionResult_of_description "Unknown"
            "Unable to identify item: quota exceeded")
         (PriceDataResult_of_count 0))
  /\ LootAnalysisResponse.item_name
       (_build_response
          (GeminiVisionResult_of_description "Unknown"
             "Unable to identify item: quota exceeded")
          (PriceDataResult_of_count 0))
     = "Unable to identify item: quota exceeded"
  /\ LootAnalysisResponse.estimated_value
       (_build_response
          (GeminiVisionResult_of_description "Unknown"
             "Unable to identify item: quota exceeded")
          (PriceDataResult_of_count 0))
     = "Price unavailable".
Proof.
  split; [ reflexivity | ].
  split; reflexivity.
Qed.

End FailureClaims.

(* ===================================================================== *)
(** * Further facts about the price statistics *)
(* ===================================================================== *)

Module OutlierFacts.
Import Schemas SerpApiPricingService.

Local Open Scope Q_scope.

Lemma remove_outliers_incl (prices : list Q) (p : Q) :
  In p (_remove_outliers prices) -> In p prices.
Proof.
  unfold _remove_outliers.
  destruct (List.length prices <? 4)%nat; [ trivial | ].
  intro H. apply filter_In in H. tauto.
Qed.

Lemma min_from_in (l : list Q) :
  forall m, In (Py.min_from m l) (m :: l).
Proof.
  induction l as [ | x l IH ]; intro m; simpl.
  - left. reflexivity.
  - destruct (Py.Qlt_bool x m).
    + right. apply IH.
    + destruct (IH m) as [ H | H ]; [ left; exact H | right; right; exact H ].
Qed.

Lemma max_from_in (l : list Q) :
  forall m, In (Py.max_from m l) (m :: l).
Proof.
  induction l as [ | x l IH ]; intro m; simpl.
  - left. reflexivity.
  - destruct (Py.Qlt_bool m x).
    + right. apply IH.
    + destruct (IH m) as [ H | H ]; [ left; exact H | right; right; exact H ].
Qed.

Section Extraction.

Variable float : string -> option Q.

Lemma extract_prices_positive (items : list ShoppingItem) :
  Forall (fun p => 0 < p) (_extract_prices float items).
Proof.
  induction items as [ | item rest IH ]; simpl; [ constructor | ].
  destruct (match extracted_price item with
            | Some p => Some p
            | None => _ end) as [ p | ]; [ | exact IH ].
  destruct (Py.Qlt_bool 0 p) eqn:E; [ | exact IH ].
  constructor; [ apply PyFacts.Qlt_bool_iff, E | exact IH ].
Qed.

Lemma extract_prices_length (items : list ShoppingItem) :
  (List.length (_extract_prices float items) <= List.length items)%nat.
Proof.
  induction items as [ | item rest IH ]; simpl; [ lia | ].
  destruct (match extracted_price item with
            | Some p => Some p
            | None => _ end) as [ p | ]; [ | lia ].
  destruct (Py.Qlt_bool 0 p); simpl; lia.
Qed.

End Extraction.

End OutlierFacts.

(* ===================================================================== *)
(** * Further properties: the pricing service *)
(* ===================================================================== *)

Module PricingMoreFacts.
Import Schemas SerpApiPricingService.

Local Open Scope Q_scope.

(** The low and the high of the statistics are elements of the list they
    are computed on, and the mean is computed on that list. *)
Lemma price_statistics_range_in (prices filtered : list Q) (x : Q) (l : list Q) :
  (if Py.is_empty filtered then prices else filtered) = x :: l ->
  exists lo hi,
    price_statistics prices filtered =
      Returned {| min_price := Some (Py.round2 lo);
                  max_price := Some (Py.round2 hi);
                  avg_price :=
                    Some (Py.round2
                            (Py.Qsum (x :: l)
                             / inject_Z (Z.of_nat (List.length (x :: l)))));
                  currency := "USD";
                  source_count := Z.of_nat (List.length (x :: l)) |}
    /\ In lo (x :: l) /\ In hi (x :: l) /\ lo <= hi.
Proof.
  intro Hsel. unfold price_statistics. rewrite Hsel.
  set (fp := x :: l).
  assert (Hmean : Py.mean fp =
                  Returned (Py.Qsum fp / inject_Z (Z.of_nat (List.length fp))))
    by reflexivity.
  assert (Hperm : forall i, (i < List.length (Py.sorted fp))%nat ->
                            In (nth i (Py.sorted fp) 0) fp).
  { intros i Hi. eapply Permutation_in.
    - apply Permutation_sym, PyFacts.sorted_perm.
    - apply nth_In, Hi. }
  rewrite Hmean. unfold bind at 1.
  destruct (4 <=? List.length fp)%nat eqn:E4.
  - destruct (@PricingFacts.quartile_indices_of fp) as [Hi Hj];
      [ discriminate | ].
    exists (nth (List.length (Py.sorted fp) / 4) (Py.sorted fp) 0),
           (nth (3 * List.length (Py.sorted fp) / 4) (Py.sorted fp) 0).
    rewrite !PyFacts.getitem_in_range by lia.
    split; [ reflexivity | ].
    split; [ apply Hperm; lia | ].
    split; [ apply Hperm; lia | ].
    apply PyFacts.ascending_nth; [ apply PyFacts.sorted_ascending | lia | lia ].
  - exists (Py.min_from x l), (Py.max_from x l).
    split; [ reflexivity | ].
    split; [ apply OutlierFacts.min_from_in | ].
    split; [ apply OutlierFacts.max_from_in | ].
    pose proof (PyFacts.mean_between x l) as [H1 H2].
    eapply Qle_trans; eassumption.
Qed.

Lemma round2_nonneg (p : Q) : 0 <= p -> 0 <= Py.round2 p.
Proof.
  intro Hp. apply Qle_trans with (Py.round2 0).
  - discriminate.
  - apply PyFacts.round2_mono, Hp.
Qed.

Lemma mean_nonneg (x : Q) (l : list Q) :
  Forall (fun p => 0 < p) (x :: l) ->
  0 <= Py.Qsum (x :: l) / inject_Z (Z.of_nat (List.length (x :: l))).
Proof.
  intro Hpos.
  apply Qle_shift_div_l; [ apply PyFacts.length_positive | ].
  apply PyFacts.Qsum_lower.
  eapply Forall_impl; [ | exact Hpos ].
  intros p Hp. apply Qlt_le_weak, Hp.
Qed.

Section Service.

Variable float : string -> option Q.
Variable get_dict : string -> outcome SearchResults.

(** With a valid price among the listings, the summary is that of the
    filtered prices. *)
Lemma get_price_data_summary (query : string) (results : SearchResults) :
  get_dict query = Returned results ->
  _extract_prices float (get_shopping_results results) <> [] ->
  exists x l lo hi,
    _remove_outliers (_extract_prices float (get_shopping_results results))
    = x :: l
    /\ get_price_data float get_dict query =
      Returned {| min_price := Some (Py.round2 lo);
                  max_price := Some (Py.round2 hi);
                  avg_price :=
                    Some (Py.round2
                            (Py.Qsum (x :: l)
                             / inject_Z (Z.of_nat (List.length (x :: l)))));
                  currency := "USD";
                  source_count := Z.of_nat (List.length (x :: l)) |}
    /\ In lo (x :: l) /\ In hi (x :: l) /\ lo <= hi.
Proof.
  intros Hd Hne.
  rewrite (PricingFacts.get_price_data_with_prices float get_dict query Hd Hne).
  set (prices := _extract_prices float (get_shopping_results results)) in *.
  destruct (_remove_outliers prices) as [ | x l ] eqn:Ef.
  - exfalso. apply (PricingFacts.remove_outliers_nonempty Hne Ef).
  - destruct (@price_statistics_range_in prices (x :: l) x l eq_refl)
      as (lo & hi & Hs & Hlo & Hhi & Hle).
    exists x, l, lo, hi. repeat split; assumption.
Qed.

End Service.

(** ** [s.replace(c, "")] *)

Lemma remove_char_idem (c : ascii) (s : string) :
  Py.remove_char c (Py.remove_char c s) = Py.remove_char c s.
Proof.
  induction s as [ | d s IH ]; simpl; [ reflexivity | ].
  destruct (Ascii.eqb c d) eqn:E; [ exact IH | ].
  simpl. rewrite E, IH. reflexivity.
Qed.

Lemma remove_char_comm (a b : ascii) (s : string) :
  Py.remove_char a (Py.remove_char b s)
  = Py.remove_char b (Py.remove_char a s).
Proof.
  induction s as [ | d s IH ]; simpl; [ reflexivity | ].
  destruct (Ascii.eqb b d) eqn:Eb, (Ascii.eqb a d) eqn:Ea; simpl;
    rewrite ?Ea, ?Eb, IH; reflexivity.
Qed.

End PricingMoreFacts.

Section PricingProperties.
Import Schemas SerpApiPricingService Examples.
Import PricingFacts OutlierFacts PricingMoreFacts.

Local Open Scope Q_scope.

(** X1.  Every price [_extract_prices] returns is strictly positive, and
    it returns at most one price per listing. *)
Theorem extracted_prices_positive :
  forall (float : string -> option Q) (items : list ShoppingItem),
    Forall (fun p => 0 < p) (_extract_prices float items)
    /\ (List.length (_extract_prices float items) <= List.length items)%nat.
Proof.
  intros float items. split.
  - apply extract_prices_positive.
  - apply extract_prices_length.
Qed.

(** X2.  Dollar signs and commas are ignored wherever they stand in a
    price string, given that [float] rejects the empty string. *)
Theorem parse_price_ignores_symbols :
  forall (float : string -> option Q) (price_str : string),
    float ""%string = None ->
    _parse_price_string float (Py.remove_char "$" price_str)
    = _parse_price_string float price_str
    /\ _parse_price_string float (Py.remove_char "," price_str)
       = _parse_price_string float price_str.
Proof.
  intros float s Hempty.
  assert (Hblank : forall t : string,
             Py.remove_char "," (Py.remove_char "$" t) = ""%string ->
             _parse_price_string float t = None).
  { intros t Ht. unfold _parse_price_string.
    destruct (t =? "")%string; [ reflexivity | ].
    rewrite Ht. exact Hempty. }
  split; unfold _parse_price_string at 1.
  - destruct (Py.remove_char "$" s =? "")%string eqn:E.
    + apply String.eqb_eq in E. symmetry. apply Hblank.
      rewrite E. reflexivity.
    + rewrite remove_char_idem. unfold _parse_price_string.
      destruct (s =? "")%string eqn:Es; [ | reflexivity ].
      apply String.eqb_eq in Es. subst s. discriminate E.
  - destruct (Py.remove_char "," s =? "")%string eqn:E.
    + apply String.eqb_eq in E. symmetry. apply Hblank.
      rewrite remove_char_comm, E. reflexivity.
    + rewrite (remove_char_comm "$" "," s), remove_char_idem.
      unfold _parse_price_string.
      destruct (s =? "")%string eqn:Es; [ | reflexivity ].
      apply String.eqb_eq in Es. subst s. discriminate E.
Qed.

Lemma parse_price_ignores_symbols_witness :
  _parse_price_string Py.float_decimal "1,234.50"%string
  = _parse_price_string Py.float_decimal "$1,234.50"%string
  /\ _parse_price_string Py.float_decimal "$1234.50"%string
     = _parse_price_string Py.float_decimal "$1,234.50"%string.
Proof.
  apply (@parse_price_ignores_symbols Py.float_decimal "$1,234.50"%string).
  reflexivity.
Defined.

(** X4.  [get_price_data] always returns a summary, in US dollars and
    with a sample count that is not negative; low, high and average are
    all three present when the search succeeded and some listing has a
    valid price, and all three absent otherwise. *)
Theorem summary_all_or_nothing :
  forall (float : string -> option Q)
         (get_dict : string -> outcome SearchResults) (query : string),
    exists r,
      get_price_data float get_dict query = Returned r
      /\ (0 <= source_count r)%Z
      /\ currency r = "USD"%string
      /\ ((exists results,
              get_dict query = Returned results
              /\ _extract_prices float (get_shopping_results results) <> [])
          -> exists lo hi av,
            min_price r = Some lo /\ max_price r = Some hi
            /\ avg_price r = Some av)
      /\ ((forall results,
              get_dict query = Returned results ->
              _extract_prices float (get_shopping_results results) = [])
          -> min_price r = None /\ max_price r = None /\ avg_price r = None).
Proof.
  intros float get_dict query.
  destruct (get_dict query) as [ results | e ] eqn:Hd.
  - destruct (_extract_prices float (get_shopping_results results))
      as [ | p ps ] eqn:Hp.
    + eexists. split;
        [ apply (get_price_data_without_prices float get_dict query Hd Hp) | ].
      cbn [source_count currency min_price max_price avg_price
           PriceDataResult_of_count].
      split; [ lia | ]. split; [ reflexivity | ].
      split; [ | intros _; repeat split ].
      intros (results' & Hd' & Hne). injection Hd' as <-.
      contradiction.
    + assert (Hne : _extract_prices float (get_shopping_results results) <> [])
        by (rewrite Hp; discriminate).
      destruct (get_price_data_summary float get_dict query Hd Hne)
        as (x & l & lo & hi & _ & Hr & _).
      eexists. split; [ exact Hr | ].
      cbn [source_count currency min_price max_price avg_price].
      split; [ lia | ]. split; [ reflexivity | ].
      split; [ intros _; do 3 eexists; repeat split | ].
      intro Hall. specialize (Hall results eq_refl). contradiction.
  - eexists. split;
      [ apply (get_price_data_upstream_failure float get_dict query Hd) | ].
    cbn [source_count currency min_price max_price avg_price
         PriceDataResult_of_count].
    split; [ lia | ]. split; [ reflexivity | ].
    split; [ | intros _; repeat split ].
    intros (results' & Hd' & _). discriminate Hd'.
Qed.

(** X5.  The low and the high of a returned summary are the roundings of
    two valid prices found in the listings, the first not above the
    second; no value is interpolated.  Low and average are not
    negative. *)
Theorem reported_range_is_observed :
  forall (float : string -> option Q)
         (get_dict : string -> outcome SearchResults)
         (query : string) (r : PriceDataResult) (lo hi av : Q),
    get_price_data float get_dict query = Returned r ->
    min_price r = Some lo ->
    max_price r = Some hi ->
    avg_price r = Some av ->
    exists results p_lo p_hi,
      get_dict query = Returned results
      /\ In p_lo (_extract_prices float (get_shopping_results results))
      /\ In p_hi (_extract_prices float (get_shopping_results results))
      /\ lo = Py.round2 p_lo /\ hi = Py.round2 p_hi
      /\ 0 < p_lo /\ p_lo <= p_hi
      /\ 0 <= lo /\ 0 <= av.
Proof.
  intros float get_dict query r lo hi av Hr Hlo Hhi Hav.
  destruct (get_dict query) as [ results | e ] eqn:Hd.
  - destruct (_extract_prices float (get_shopping_results results))
      as [ | p ps ] eqn:Hp.
    + rewrite (get_price_data_without_prices float get_dict query Hd Hp) in Hr.
      injection Hr as <-. discriminate Hlo.
    + assert (Hne : _extract_prices float (get_shopping_results results) <> [])
        by (rewrite Hp; discriminate).
      destruct (get_price_data_summary float get_dict query Hd Hne)
        as (x & l & p_lo & p_hi & Hf & Hs & Hin_lo & Hin_hi & Hle).
      rewrite Hs in Hr. injection Hr as <-.
      cbn [min_price max_price avg_price] in Hlo, Hhi, Hav.
      injection Hlo as <-. injection Hhi as <-. injection Hav as <-.
      pose proof (extract_prices_positive float (get_shopping_results results))
        as Hpos.
      rewrite Forall_forall in Hpos.
      assert (Hsub : forall q, In q (x :: l) ->
                 In q (_extract_prices float (get_shopping_results results))).
      { intros q Hq. apply remove_outliers_incl. rewrite Hf. exact Hq. }
      exists results, p_lo, p_hi.
      split; [ reflexivity | ].
      split; [ apply Hsub, Hin_lo | ].
      split; [ apply Hsub, Hin_hi | ].
      split; [ reflexivity | ]. split; [ reflexivity | ].
      split; [ apply Hpos, Hsub, Hin_lo | ].
      split; [ exact Hle | ].
      split.
      * apply round2_nonneg, Qlt_le_weak, Hpos, Hsub, Hin_lo.
      * apply round2_nonneg, mean_nonneg.
        apply Forall_forall. intros q Hq. apply Hpos, Hsub, Hq.
  - rewrite (get_price_data_upstream_failure float get_dict query Hd) in Hr.
    injection Hr as <-. discriminate Hlo.
Qed.

Lemma reported_range_is_observed_witness :
  exists results p_lo p_hi,
    search_returning six_listings "leather jacket"%string = Returned results
    /\ In p_lo (_extract_prices Py.float_decimal (get_shopping_results results))
    /\ In p_hi (_extract_prices Py.float_decimal (get_shopping_results results))
    /\ 9500 # 100 = Py.round2 p_lo /\ 10500 # 100 = Py.round2 p_hi
    /\ 0 < p_lo /\ p_lo <= p_hi
    /\ 0 <= 9500 # 100 /\ 0 <= 10000 # 100.
Proof.
  apply (@reported_range_is_observed Py.float_decimal
           (search_returning six_listings) "leather jacket"%string
           {| min_price := Some (9500 # 100);
              max_price := Some (10500 # 100);
              avg_price := Some (10000 # 100);
              currency := "USD"; source_count := 5 |});
    reflexivity.
Defined.

End PricingProperties.


(* ===================================================================== *)
(** * Further properties: the outlier filter over binary64 *)
(* ===================================================================== *)

Section Pricing64Properties.
Import Binary64 Schemas64 SerpApiPricingService64 Examples64.
Import Binary64Facts Pricing64Facts Statistics64Facts.

(** X3.  [_remove_outliers] never returns more prices than it was given,
    and fewer than four prices are returned unchanged.  On four finite
    prices or more it keeps every price that lies between the two
    quartile positions of the sorted list, so it keeps more than half of
    the prices. *)
Theorem remove_outliers_keeps_majority :
  forall prices : list float,
    (List.length (_remove_outliers prices) <= List.length prices)%nat
    /\ ((List.length prices < 4)%nat -> _remove_outliers prices = prices)
    /\ ((4 <= List.length prices)%nat ->
        doubles prices ->
        (3 * List.length prices / 4 - List.length prices / 4 + 1
         <= List.length (_remove_outliers prices))%nat
        /\ (List.length prices
            < 2 * List.length (_remove_outliers prices))%nat).
Proof.
  intro prices.
  split; [ apply remove_outliers_length_le | ].
  split.
  - intro Hn. unfold _remove_outliers.
    replace (List.length prices <? 4)%nat with true
      by (symmetry; apply Nat.ltb_lt; exact Hn).
    reflexivity.
  - intros Hn Hd.
    pose proof (@remove_outliers_keeps_centre prices Hd Hn) as Hc.
    split; [ exact Hc | ].
    pose proof (Nat.div_mod_eq (3 * List.length prices) 4) as H3.
    pose proof (Nat.div_mod_eq (List.length prices) 4) as H1.
    pose proof (Nat.mod_upper_bound (3 * List.length prices) 4) as M3.
    pose proof (Nat.mod_upper_bound (List.length prices) 4) as M1.
    lia.
Qed.

(** The six prices of the specification's scenario: five are kept. *)
Lemma remove_outliers_keeps_majority_witness :
  (List.length (_remove_outliers scenario_prices) <= 6)%nat
  /\ (3 * 6 / 4 - 6 / 4 + 1
      <= List.length (_remove_outliers scenario_prices))%nat
  /\ (6 < 2 * List.length (_remove_outliers scenario_prices))%nat.
Proof.
  destruct (remove_outliers_keeps_majority scenario_prices)
    as (Hle & _ & Hbig).
  destruct Hbig as [Hc Hm]; [ cbn; lia | repeat constructor | ].
  repeat split; assumption.
Defined.

(** X6.  When some listing has a valid price, the sample count of the
    summary is positive and at most the number of valid prices, itself at
    most the number of listings; it is the number of valid prices when
    there are fewer than four or when the outlier filter leaves none, and
    the number of prices the filter leaves otherwise.  When the valid
    prices are finite the filter leaves some, and more than half of four
    prices or more. *)
Theorem sample_count_bounds :
  forall (float_of : string -> option float)
         (get_dict : string -> outcome SearchResults)
         (query : string) (results : SearchResults)
         (prices : list float) (r : PriceDataResult),
    get_dict query = Returned results ->
    prices = _extract_prices float_of (get_shopping_results results) ->
    prices <> [] ->
    get_price_data float_of get_dict query = Returned r ->
    (0 < source_count r <= Z.of_nat (List.length prices))%Z
    /\ (List.length prices
        <= List.length (get_shopping_results results))%nat
    /\ ((List.length prices < 4)%nat ->
        source_count r = Z.of_nat (List.length prices))
    /\ (_remove_outliers prices = [] ->
        source_count r = Z.of_nat (List.length prices))
    /\ (_remove_outliers prices <> [] ->
        source_count r = Z.of_nat (List.length (_remove_outliers prices)))
    /\ (doubles prices ->
        source_count r = Z.of_nat (List.length (_remove_outliers prices))
        /\ ((4 <= List.length prices)%nat ->
            (Z.of_nat (List.length prices) < 2 * source_count r)%Z)).
Proof.
  intros float_of get_dict query results prices r Hd -> Hne Hr.
  rewrite (@get_price_data_with_prices_64 float_of get_dict query results Hd Hne)
    in Hr.
  set (prices := _extract_prices float_of (get_shopping_results results)) in *.
  destruct (@selection_nonempty_64 prices (_remove_outliers prices) Hne)
    as (x & l & Hsel).
  destruct (@price_statistics_of_nonempty_64 _ _ _ _ Hsel)
    as (lo & hi & av & Hs & _).
  rewrite <- Hsel in Hs. rewrite Hs in Hr. injection Hr as <-.
  cbn [source_count]. clear Hs Hsel.
  pose proof (remove_outliers_length_le prices) as Hle.
  assert (Hp : (0 < List.length prices)%nat)
    by (destruct prices; [ congruence | simpl; lia ]).
  assert (Hsmall : (List.length prices < 4)%nat ->
                   _remove_outliers prices = prices).
  { intro Hn. unfold _remove_outliers.
    replace (List.length prices <? 4)%nat with true
      by (symmetry; apply Nat.ltb_lt; exact Hn).
    reflexivity. }
  assert (Hkept : _remove_outliers prices <> [] ->
                  (if Py.is_empty (_remove_outliers prices) then prices
                   else _remove_outliers prices) = _remove_outliers prices).
  { intro H. rewrite (@PricingFacts.is_empty_false _ _ H). reflexivity. }
  split.
  { destruct (_remove_outliers prices) as [ | y f ] eqn:Ef.
    - simpl. lia.
    - change (Py.is_empty (y :: f)) with false. cbv iota.
      change (List.length (y :: f)) with (S (List.length f)) in *. lia. }
  split; [ apply extract_prices_length_64 | ].
  split.
  { intro Hn. rewrite (Hsmall Hn).
    destruct (Py.is_empty prices); reflexivity. }
  split; [ intros ->; reflexivity | ].
  split; [ intro H; rewrite (Hkept H); reflexivity | ].
  intro Hdb.
  pose proof (@remove_outliers_nonempty_64 prices Hdb Hne) as Hkeep.
  rewrite (Hkept Hkeep).
  split; [ reflexivity | ].
  intro Hn.
  pose proof (@remove_outliers_keeps_centre prices Hdb Hn) as Hc.
  pose proof (Nat.div_mod_eq (3 * List.length prices) 4) as H3.
  pose proof (Nat.div_mod_eq (List.length prices) 4) as H1.
  pose proof (Nat.mod_upper_bound (3 * List.length prices) 4) as M3.
  pose proof (Nat.mod_upper_bound (List.length prices) 4) as M1.
  lia.
Qed.

(** The six listings of the specification's scenario: six valid prices,
    of which the filter leaves five. *)
Lemma sample_count_bounds_witness :
  (0 < 5 <= Z.of_nat (List.length scenario_prices))%Z
  /\ (List.length scenario_prices <= List.length scenario_listings)%nat
  /\ 5%Z = Z.of_nat (List.length (_remove_outliers scenario_prices))
  /\ (Z.of_nat (List.length scenario_prices) < 2 * 5)%Z.
Proof.
  destruct (@sample_count_bounds float_of_string
              (search_returning scenario_listings) "leather jacket"%string
              {| shopping_results := Some scenario_listings |}
              scenario_prices
              {| min_price := Some (Fin 95);
                 max_price := Some (Fin 105);
                 avg_price := Some (Fin 100);
                 currency := "USD"; source_count := 5 |})
    as (Hpos & Hlen & _ & _ & _ & Hfin);
    [ reflexivity | reflexivity | discriminate | reflexivity | ].
  destruct Hfin as [Hcount Hhalf]; [ repeat constructor | ].
  split; [ exact Hpos | ].
  split; [ exact Hlen | ].
  split; [ exact Hcount | ].
  apply Hhalf. cbn. lia.
Defined.

End Pricing64Properties.

(* ===================================================================== *)
(** * Further properties: the appraiser *)
(* ===================================================================== *)

Module AppraiserFacts.
Import Schemas AppraiserService.

Local Open Scope string_scope.

(** The text before the first occurrence holds no occurrence. *)
Lemma split_head_no_sep (sep s : string) :
  sep <> "" -> Py.contains sep (Py.split_head sep s) = false.
Proof.
  intro Hsep.
  assert (Hnil : Py.contains sep "" = false).
  { rewrite StrFacts.contains_nil. destruct sep; [ congruence | reflexivity ]. }
  induction s as [ | c s IH ].
  - change (Py.split_head sep "") with (if prefix sep "" then "" else "").
    destruct (prefix sep ""); exact Hnil.
  - rewrite StrFacts.split_head_cons.
    destruct (prefix sep (String c s)) eqn:Hp; [ exact Hnil | ].
    rewrite StrFacts.contains_cons, IH, orb_false_r.
    destruct (prefix sep (String c (Py.split_head sep s))) eqn:Hq; trivial.
    rewrite (StrFacts.prefix_trans _ _ _ Hq) in Hp; [ discriminate Hp | ].
    rewrite StrFacts.prefix_cons. apply StrFacts.split_head_prefix.
Qed.

(** The query and the item name start from the same parts. *)
Lemma query_of_parts (v : GeminiVisionResult) :
  brand_model_parts v <> [] ->
  _build_search_query v = Py.join " " (brand_model_parts v)
  /\ _format_item_name v = Py.join " " (brand_model_parts v).
Proof.
  intro H. unfold _build_search_query, _format_item_name.
  destruct (brand_model_parts v); [ congruence | split; reflexivity ].
Qed.

Lemma parts_nonempty (v : GeminiVisionResult) :
  Py.truthy_str (brand v) = true \/ Py.truthy_str (model v) = true ->
  brand_model_parts v <> [].
Proof.
  unfold brand_model_parts.
  intros [ H | H ]; rewrite H.
  - destruct (brand v); [ discriminate | discriminate H ].
  - destruct (model v) as [ m | ]; [ | discriminate H ].
    destruct (Py.truthy_str (brand v)); [ destruct (brand v) | ]; discriminate.
Qed.

Lemma parts_empty (v : GeminiVisionResult) :
  Py.truthy_str (brand v) = false ->
  Py.truthy_str (model v) = false ->
  brand_model_parts v = [].
Proof.
  intros Hb Hm. unfold brand_model_parts. rewrite Hb, Hm. reflexivity.
Qed.

(** Every tier of [_calculate_rarity] by the least rank it reaches. *)
Lemma rarity_rank_levels (p : PriceDataResult) (avg : Q) :
  avg_price p = Some avg ->
  let rank := Tiers.rarity_rank (_calculate_rarity p) in
  let sources := source_count p in
  (1 <= rank <= 5)%nat
  /\ ((2 <= rank)%nat <-> (75 < avg)%Q \/ (sources < 8)%Z)
  /\ ((3 <= rank)%nat <-> (150 < avg)%Q \/ (sources < 8)%Z)
  /\ ((4 <= rank)%nat <-> (300 < avg)%Q \/ (sources < 3)%Z)
  /\ ((5 <= rank)%nat <-> (500 < avg)%Q /\ (sources < 5)%Z).
Proof.
  intro Havg. unfold _calculate_rarity. rewrite Havg. cbv zeta.
  destruct (Py.Qlt_bool 500 avg) eqn:E500;
    destruct (source_count p <? 5)%Z eqn:S5;
    destruct (Py.Qlt_bool 300 avg) eqn:E300;
    destruct (source_count p <? 3)%Z eqn:S3;
    destruct (Py.Qlt_bool 150 avg) eqn:E150;
    destruct (source_count p <? 8)%Z eqn:S8;
    destruct (Py.Qlt_bool 75 avg) eqn:E75;
    cbn [andb orb];
    repeat match goal with
      | H : Py.Qlt_bool _ _ = true |- _ => apply PyFacts.Qlt_bool_iff in H
      | H : Py.Qlt_bool _ _ = false |- _ => apply PyFacts.Qlt_bool_false in H
      | H : (_ <? _)%Z = true |- _ => apply Z.ltb_lt in H
      | H : (_ <? _)%Z = false |- _ => apply Z.ltb_ge in H
      end;
    try (exfalso; (lra || lia));
    change (Tiers.rarity_rank "Legendary") with 5%nat;
    change (Tiers.rarity_rank "Epic") with 4%nat;
    change (Tiers.rarity_rank "Rare") with 3%nat;
    change (Tiers.rarity_rank "Uncommon") with 2%nat;
    change (Tiers.rarity_rank "Common") with 1%nat;
    repeat split; intros;
    first [ lia | lra | left; lra | right; lia
          | exfalso; intuition (lra || lia) ].
Qed.

(** An occurrence inside a prefix is an occurrence in the whole. *)
Lemma contains_of_prefix (sep a s : string) :
  prefix a s = true -> Py.contains sep a = true -> Py.contains sep s = true.
Proof.
  revert s. induction a as [ | c a IH ]; intros s Hp Hc.
  - rewrite StrFacts.contains_nil in Hc.
    destruct sep; [ | discriminate Hc ].
    destruct s; reflexivity.
  - destruct s as [ | d s ]; [ discriminate Hp | ].
    simpl in Hp. destruct (ascii_dec c d) as [ <- | ]; [ | discriminate Hp ].
    rewrite StrFacts.contains_cons in Hc |- *.
    apply orb_true_iff in Hc. destruct Hc as [ Hc | Hc ].
    + rewrite (StrFacts.prefix_trans sep (String c a) (String c s) Hc);
        [ reflexivity | ].
      rewrite StrFacts.prefix_cons. exact Hp.
    + rewrite (IH s Hp Hc). apply orb_true_r.
Qed.

Lemma prefix_append (a b : string) : prefix a (a ++ b) = true.
Proof.
  induction a as [ | c a IH ]; [ apply StrFacts.prefix_empty | ].
  change (String c a ++ b) with (String c (a ++ b)).
  rewrite StrFacts.prefix_cons. exact IH.
Qed.

(** A list of non-empty parts joins into a non-empty text. *)
Lemma join_nonempty (sep p : string) (ps : list string) :
  p <> "" -> Py.join sep (p :: ps) <> "".
Proof.
  intro Hp. unfold Py.join. simpl.
  destruct ps; destruct p; try congruence; discriminate.
Qed.

Lemma description_nonempty (v : GeminiVisionResult) :
  _generate_description v <> "".
Proof.
  unfold _generate_description.
  destruct (raw_description v) as [ d | ];
    [ destruct (Py.truthy_str (Some d)) eqn:Ed | ];
    (destruct (condition v) as [ c | ];
     [ destruct (Py.truthy_str (Some c)) | ]);
    (destruct (color v) as [ k | ];
     [ destruct (Py.truthy_str (Some k)) | ]);
    cbn [app Py.is_empty negb];
    try discriminate;
    try (apply join_nonempty; apply StrFacts.truthy_str_some; exact Ed);
    apply join_nonempty; discriminate.
Qed.

End AppraiserFacts.

Section AppraiserProperties.
Import Schemas AppraiserService Examples AppraiserFacts.

Local Open Scope Q_scope.
Local Open Scope string_scope.

(** Turns the integer tests of the tier functions into propositions. *)
Ltac reflect_counts :=
  repeat match goal with
    | H : (_ <? _)%Z = true |- _ => apply Z.ltb_lt in H
    | H : (_ <? _)%Z = false |- _ => apply Z.ltb_ge in H
    | H : (_ <=? _)%Z = true |- _ => apply Z.leb_le in H
    | H : (_ <=? _)%Z = false |- _ => apply Z.leb_gt in H
    end.

(** X7.  When the brand or the model is present and not empty, the search
    query depends on the brand and the model only, and the item name is
    the same text: both present give ["<brand> <model>"], whatever the
    other fields hold. *)
Theorem search_query_from_brand_model :
  forall v1 v2 : GeminiVisionResult,
    brand v1 = brand v2 ->
    model v1 = model v2 ->
    Py.truthy_str (brand v1) = true \/ Py.truthy_str (model v1) = true ->
    _build_search_query v1 = _build_search_query v2
    /\ _format_item_name v1 = _build_search_query v1
    /\ (forall b m : string,
           brand v1 = Some b -> model v1 = Some m -> b <> "" -> m <> "" ->
           _build_search_query v1 = b ++ " " ++ m).
Proof.
  intros v1 v2 Hb Hm Hpresent.
  assert (Hparts : brand_model_parts v1 = brand_model_parts v2)
    by (unfold brand_model_parts; rewrite Hb, Hm; reflexivity).
  pose proof (parts_nonempty v1 Hpresent) as Hne1.
  assert (Hne2 : brand_model_parts v2 <> []) by (rewrite <- Hparts; exact Hne1).
  destruct (@query_of_parts v1 Hne1) as [Hq1 Hn1].
  destruct (@query_of_parts v2 Hne2) as [Hq2 _].
  split; [ rewrite Hq1, Hq2, Hparts; reflexivity | ].
  split; [ rewrite Hq1, Hn1; reflexivity | ].
  intros b m Eb Em Hbne Hmne. rewrite Hq1.
  unfold brand_model_parts. rewrite Eb, Em.
  rewrite (proj2 (StrFacts.truthy_str_some b) Hbne).
  rewrite (proj2 (StrFacts.truthy_str_some m) Hmne).
  reflexivity.
Qed.

Lemma search_query_from_brand_model_witness :
  _build_search_query sneaker
  = _build_search_query
      {| brand := Some "Nike"; model := Some "Air Jordan 1 Retro High OG";
         condition := None; color := None; category := Some "Unknown";
         raw_description := Some "A shoe. Worn." |}
  /\ _format_item_name sneaker = _build_search_query sneaker
  /\ (forall b m : string,
         brand sneaker = Some b -> model sneaker = Some m ->
         b <> "" -> m <> "" ->
         _build_search_query sneaker = b ++ " " ++ m).
Proof.
  apply search_query_from_brand_model;
    [ reflexivity | reflexivity | left; reflexivity ].
Defined.

(** X8.  Without brand and model, the search query built from a
    description is a prefix of the stripped description and holds no
    sentence boundary [". "]: it is the text before the first boundary
    when there is one, and otherwise the description cut to 80
    characters. *)
Theorem search_query_from_description :
  forall (v : GeminiVisionResult) (d : string),
    Py.truthy_str (brand v) = false ->
    Py.truthy_str (model v) = false ->
    raw_description v = Some d ->
    d <> "" ->
    let desc := Py.strip d in
    let query := _build_search_query v in
    prefix query desc = true
    /\ Py.contains ". " query = false
    /\ (Py.contains ". " desc = true ->
        exists rest, desc = query ++ ". " ++ rest)
    /\ (Py.contains ". " desc = false ->
        (String.length query <= 80)%nat
        /\ ((String.length desc <= 80)%nat -> query = desc)
        /\ ((80 < String.length desc)%nat -> String.length query = 80%nat)).
Proof.
  intros v d Hb Hm Hd Hne. cbv zeta.
  unfold _build_search_query.
  rewrite (parts_empty v Hb Hm). cbn [Py.is_empty negb].
  rewrite Hd, (proj2 (StrFacts.truthy_str_some d) Hne). cbv zeta.
  set (desc := Py.strip d).
  destruct (Py.contains ". " desc) eqn:Hc.
  - split; [ apply StrFacts.split_head_prefix | ].
    split; [ apply split_head_no_sep; discriminate | ].
    split; [ intros _; apply StrFacts.split_head_spec, Hc | ].
    intro H. discriminate H.
  - destruct (80 <? String.length desc)%nat eqn:Hlen.
    + apply Nat.ltb_lt in Hlen.
      split; [ apply StrFacts.slice_to_prefix | ].
      split.
      { destruct (Py.contains ". " (Py.slice_to 80 desc)) eqn:Hq; trivial.
        rewrite (contains_of_prefix ". " _ _
                   (StrFacts.slice_to_prefix 80 desc) Hq) in Hc.
        discriminate Hc. }
      split; [ intro H; discriminate H | ].
      intros _. rewrite StrFacts.slice_to_length.
      split; [ lia | ]. split; [ lia | ]. intros _. lia.
    + apply Nat.ltb_ge in Hlen.
      split; [ apply StrFacts.prefix_refl | ].
      split; [ exact Hc | ].
      split; [ intro H; discriminate H | ].
      intros _. split; [ exact Hlen | ].
      split; [ reflexivity | ]. lia.
Qed.

Lemma search_query_from_description_witness :
  let desc := Py.strip "A worn leather jacket. Minor scuffing on sleeves." in
  let query :=
    _build_search_query
      (described "A worn leather jacket. Minor scuffing on sleeves.") in
  prefix query desc = true
  /\ Py.contains ". " query = false
  /\ (Py.contains ". " desc = true ->
      exists rest, desc = query ++ ". " ++ rest)
  /\ (Py.contains ". " desc = false ->
      (String.length query <= 80)%nat
      /\ ((String.length desc <= 80)%nat -> query = desc)
      /\ ((80 < String.length desc)%nat -> String.length query = 80%nat)).
Proof.
  apply (@search_query_from_description
           (described "A worn leather jacket. Minor scuffing on sleeves.")
           "A worn leather jacket. Minor scuffing on sleeves.");
    [ reflexivity | reflexivity | reflexivity | discriminate ].
Defined.

(** X9.  Without brand and model and with a description, the item name
    and the search query are the same text when the stripped description
    has a sentence boundary or is at most 50 characters long; they differ
    only in how a longer description is cut. *)
Theorem item_name_matches_search_query :
  forall (v : GeminiVisionResult) (d : string),
    Py.truthy_str (brand v) = false ->
    Py.truthy_str (model v) = false ->
    raw_description v = Some d ->
    d <> "" ->
    Py.contains ". " (Py.strip d) = true
    \/ (String.length (Py.strip d) <= 50)%nat ->
    _format_item_name v = _build_search_query v.
Proof.
  intros v d Hb Hm Hd Hne Hcase.
  unfold _format_item_name, _build_search_query.
  rewrite (parts_empty v Hb Hm). cbn [Py.is_empty negb].
  rewrite Hd, (proj2 (StrFacts.truthy_str_some d) Hne). cbv zeta.
  destruct (Py.contains ". " (Py.strip d)) eqn:Hc; [ reflexivity | ].
  destruct Hcase as [ H | H ]; [ discriminate H | ].
  replace (50 <? String.length (Py.strip d))%nat with false
    by (symmetry; apply Nat.ltb_ge; exact H).
  replace (80 <? String.length (Py.strip d))%nat with false
    by (symmetry; apply Nat.ltb_ge; lia).
  reflexivity.
Qed.

Lemma item_name_matches_search_query_witness :
  _format_item_name
    (described "A worn leather jacket. Minor scuffing on sleeves.")
  = _build_search_query
      (described "A worn leather jacket. Minor scuffing on sleeves.").
Proof.
  apply (@item_name_matches_search_query
           (described "A worn leather jacket. Minor scuffing on sleeves.")
           "A worn leather jacket. Minor scuffing on sleeves.");
    [ reflexivity | reflexivity | reflexivity | discriminate
    | left; reflexivity ].
Defined.

(** X10.  The generated description is never empty: it starts with the
    raw description when there is one, and is the literal
    ["No description available."] when description, condition and color
    are all absent or empty. *)
Theorem generated_description_nonempty :
  forall v : GeminiVisionResult,
    _generate_description v <> ""
    /\ (forall d : string,
           raw_description v = Some d -> d <> "" ->
           prefix d (_generate_description v) = true)
    /\ (Py.truthy_str (raw_description v) = false ->
        Py.truthy_str (condition v) = false ->
        Py.truthy_str (color v) = false ->
        _generate_description v = "No description available.").
Proof.
  intro v.
  split; [ apply description_nonempty | ].
  unfold _generate_description.
  split.
  - intros d -> Hne.
    rewrite (proj2 (StrFacts.truthy_str_some d) Hne).
    destruct (condition v) as [ c | ];
      [ destruct (Py.truthy_str (Some c)) | ];
      (destruct (color v) as [ k | ];
       [ destruct (Py.truthy_str (Some k)) | ]);
      cbn [app Py.is_empty negb]; unfold Py.join; simpl String.concat;
      first [ apply prefix_append | apply StrFacts.prefix_refl ].
  - intros Hd Hc Hk.
    destruct (raw_description v) as [ d | ];
      [ rewrite Hd | ];
      (destruct (condition v) as [ c | ]; [ rewrite Hc | ]);
      (destruct (color v) as [ k | ]; [ rewrite Hk | ]);
      reflexivity.
Qed.

Lemma generated_description_nonempty_witness :
  _generate_description sneaker <> ""
  /\ prefix "Classic high-top basketball sneaker"
       (_generate_description sneaker) = true
  /\ _generate_description (categorised (Some "Toys"))
     = "No description available.".
Proof.
  split; [ apply (generated_description_nonempty sneaker) | ].
  split.
  - apply (generated_description_nonempty sneaker);
      [ reflexivity | discriminate ].
  - apply (generated_description_nonempty (categorised (Some "Toys")));
      reflexivity.
Defined.

(** X11.  The market demand never falls when the source count grows, and
    an item of Legendary rarity always has Low demand. *)
Theorem market_demand_monotone :
  forall p1 p2 : PriceDataResult,
    ((source_count p1 <= source_count p2)%Z ->
     (Tiers.demand_rank (_calculate_market_demand p1)
      <= Tiers.demand_rank (_calculate_market_demand p2))%nat)
    /\ (1 <= Tiers.demand_rank (_calculate_market_demand p1))%nat
    /\ (_calculate_rarity p1 = "Legendary" ->
        _calculate_market_demand p1 = "Low").
Proof.
  intros p1 p2. unfold _calculate_market_demand.
  split; [ | split ].
  - intro Hle.
    destruct (15 <=? source_count p1)%Z eqn:A1;
      destruct (5 <=? source_count p1)%Z eqn:B1;
      destruct (15 <=? source_count p2)%Z eqn:A2;
      destruct (5 <=? source_count p2)%Z eqn:B2;
      reflect_counts; try (exfalso; lia); vm_compute; lia.
  - destruct (15 <=? source_count p1)%Z;
      [ | destruct (5 <=? source_count p1)%Z ]; vm_compute; lia.
  - unfold _calculate_rarity.
    destruct (avg_price p1) as [ avg | ]; [ | discriminate ].
    destruct (Py.Qlt_bool 500 avg);
      destruct (source_count p1 <? 5)%Z eqn:S5;
      destruct (Py.Qlt_bool 300 avg);
      destruct (source_count p1 <? 3)%Z;
      destruct (Py.Qlt_bool 150 avg);
      destruct (source_count p1 <? 8)%Z;
      destruct (Py.Qlt_bool 75 avg);
      cbn [andb orb]; try discriminate;
      intros _; apply Z.ltb_lt in S5;
      replace (15 <=? source_count p1)%Z with false
        by (symmetry; apply Z.leb_gt; lia);
      replace (5 <=? source_count p1)%Z with false
        by (symmetry; apply Z.leb_gt; lia);
      reflexivity.
Qed.

Lemma market_demand_monotone_witness :
  ((2 <= 5)%Z ->
   (Tiers.demand_rank (_calculate_market_demand scarce_summary)
    <= Tiers.demand_rank (_calculate_market_demand tight_summary))%nat)
  /\ (1 <= Tiers.demand_rank (_calculate_market_demand scarce_summary))%nat
  /\ (_calculate_rarity scarce_summary = "Legendary" ->
      _calculate_market_demand scarce_summary = "Low").
Proof.
  apply (market_demand_monotone scarce_summary tight_summary).
Defined.

(** X12.  Of two summaries with an average, the one with the average not
    lower and the source count not higher gets a rarity tier at least as
    rare, in the order Common, Uncommon, Rare, Epic, Legendary. *)
Theorem rarity_monotone :
  forall (p1 p2 : PriceDataResult) (a1 a2 : Q),
    avg_price p1 = Some a1 ->
    avg_price p2 = Some a2 ->
    a1 <= a2 ->
    (source_count p2 <= source_count p1)%Z ->
    (Tiers.rarity_rank (_calculate_rarity p1)
     <= Tiers.rarity_rank (_calculate_rarity p2))%nat.
Proof.
  intros p1 p2 a1 a2 H1 H2 Ha Hs.
  pose proof (rarity_rank_levels p1 H1) as L1.
  pose proof (rarity_rank_levels p2 H2) as L2.
  cbv zeta in L1, L2.
  set (r1 := Tiers.rarity_rank (_calculate_rarity p1)) in *.
  set (r2 := Tiers.rarity_rank (_calculate_rarity p2)) in *.
  destruct L1 as (B1 & T1 & R1 & E1 & G1).
  destruct L2 as (B2 & T2 & R2 & E2 & G2).
  assert (K2 : (2 <= r1 -> 2 <= r2)%nat).
  { intro H. apply T2. apply T1 in H. destruct H; [ left; lra | right; lia ]. }
  assert (K3 : (3 <= r1 -> 3 <= r2)%nat).
  { intro H. apply R2. apply R1 in H. destruct H; [ left; lra | right; lia ]. }
  assert (K4 : (4 <= r1 -> 4 <= r2)%nat).
  { intro H. apply E2. apply E1 in H. destruct H; [ left; lra | right; lia ]. }
  assert (K5 : (5 <= r1 -> 5 <= r2)%nat).
  { intro H. apply G2. apply G1 in H. destruct H; split; [ lra | lia ]. }
  lia.
Qed.

Lemma rarity_monotone_witness :
  (Tiers.rarity_rank (_calculate_rarity tight_summary)
   <= Tiers.rarity_rank (_calculate_rarity scarce_summary))%nat.
Proof.
  apply (@rarity_monotone tight_summary scarce_summary 100 200);
    [ reflexivity | reflexivity | discriminate | discriminate ].
Defined.

(** X13.  In every response the estimated value is
    ["Price unavailable"] exactly when the rarity is ["Unknown"], which
    is exactly when the summary has no average; the category and the
    description are never empty, the source count is that of the summary,
    and the confidence score lies between 0 and 1 as the response schema
    requires. *)
Theorem response_fields_consistent :
  forall (v : GeminiVisionResult) (p : PriceDataResult),
    let response := _build_response v p in
    (LootAnalysisResponse.estimated_value response = "Price unavailable"
     <-> avg_price p = None)
    /\ (LootAnalysisResponse.rarity_score response = "Unknown"
        <-> avg_price p = None)
    /\ LootAnalysisResponse.category response <> ""
    /\ LootAnalysisResponse.description response <> ""
    /\ LootAnalysisResponse.source_count response = source_count p
    /\ 0 <= LootAnalysisResponse.confidence_score response
    /\ LootAnalysisResponse.confidence_score response <= 1.
Proof.
  intros v p. cbv zeta.
  cbn [_build_response
       LootAnalysisResponse.estimated_value LootAnalysisResponse.rarity_score
       LootAnalysisResponse.category LootAnalysisResponse.description
       LootAnalysisResponse.source_count LootAnalysisResponse.confidence_score].
  split; [ | split; [ | split; [ | split; [ | split ] ] ] ].
  - unfold _format_price_range.
    destruct (avg_price p) as [ avg | ]; [ | split; reflexivity ].
    split; [ | discriminate ].
    destruct (min_price p) as [ lo | ], (max_price p) as [ hi | ];
      try discriminate.
    destruct (Py.truthy_float (Some lo) && Py.truthy_float (Some hi));
      [ | discriminate ].
    cbv zeta. destruct (Qle_bool (hi - lo) (avg * 0.3)); discriminate.
  - unfold _calculate_rarity.
    destruct (avg_price p) as [ avg | ]; [ | split; reflexivity ].
    split; [ | discriminate ].
    destruct (Py.Qlt_bool 500 avg && (source_count p <? 5)%Z);
      [ discriminate | ].
    destruct (Py.Qlt_bool 300 avg || (source_count p <? 3)%Z);
      [ discriminate | ].
    destruct (Py.Qlt_bool 150 avg || (source_count p <? 8)%Z);
      [ discriminate | ].
    destruct (Py.Qlt_bool 75 avg); discriminate.
  - destruct (category v) as [ c | ]; [ | discriminate ].
    destruct (Py.truthy_str (Some c)) eqn:Ec; [ | discriminate ].
    apply StrFacts.truthy_str_some, Ec.
  - apply description_nonempty.
  - reflexivity.
  - unfold _calculate_confidence. cbv zeta beta.
    destruct (Py.truthy_str (brand v));
      destruct (Py.truthy_str (model v));
      destruct (Py.truthy_str (condition v));
      destruct (10 <=? source_count p)%Z;
      destruct (5 <=? source_count p)%Z;
      vm_compute; repeat split; discriminate.
Qed.

End AppraiserProperties.

(* ===================================================================== *)
(** * Further properties: the orchestrator and the endpoint *)
(* ===================================================================== *)

Section PipelineProperties.
Import Schemas SerpApiPricingService GeminiVisionService AppraiserService.
Import Examples.

Local Open Scope Q_scope.
Local Open Scope string_scope.

(** X14.  Over the two live services the orchestrator never raises,
    whatever the upstream calls do: the identification service returns an
    identification, the pricing service returns a summary for the query
    built from that identification, and the report is assembled from the
    two. *)
Theorem live_pipeline_always_reports :
  forall (float : string -> option Q)
         (get_dict : string -> outcome SearchResults)
         (generate_content_text : list Byte.byte -> outcome string)
         (json_loads : string -> option json)
         (image_data : list Byte.byte),
    exists (v : GeminiVisionResult) (p : PriceDataResult),
      identify_item generate_content_text json_loads image_data = Returned v
      /\ get_price_data float get_dict (_build_search_query v) = Returned p
      /\ analyze_item (identify_item generate_content_text json_loads)
           (get_price_data float get_dict) image_data
         = Returned (_build_response v p).
Proof.
  intros float get_dict generate_content_text json_loads image_data.
  assert (Hv : exists v,
             identify_item generate_content_text json_loads image_data
             = Returned v).
  { unfold identify_item.
    destruct (identify_item_try generate_content_text json_loads image_data);
      eexists; reflexivity. }
  destruct Hv as [v Hv].
  assert (Hp : exists p,
             get_price_data float get_dict (_build_search_query v)
             = Returned p).
  { unfold get_price_data.
    destruct (get_price_data_try float get_dict (_build_search_query v));
      eexists; reflexivity. }
  destruct Hp as [p Hp].
  exists v, p. split; [ exact Hv | ]. split; [ exact Hp | ].
  unfold analyze_item. rewrite Hv. cbn [bind]. rewrite Hp. reflexivity.
Qed.

(** X15.  When the identification succeeds and the search for its query
    returns listings of which none has a valid price, the report shows
    ["Price unavailable"] and the rarity ["Unknown"], and its source
    count is the number of listings: the market demand is Low below five
    listings and High from fifteen on, although no price was found. *)
Theorem report_without_prices :
  forall (vision_service : list Byte.byte -> outcome GeminiVisionResult)
         (float : string -> option Q)
         (get_dict : string -> outcome SearchResults)
         (image_data : list Byte.byte)
         (v : GeminiVisionResult) (results : SearchResults),
    vision_service image_data = Returned v ->
    get_dict (_build_search_query v) = Returned results ->
    _extract_prices float (get_shopping_results results) = [] ->
    exists response,
      analyze_item vision_service (get_price_data float get_dict) image_data
      = Returned response
      /\ LootAnalysisResponse.estimated_value response = "Price unavailable"
      /\ LootAnalysisResponse.rarity_score response = "Unknown"
      /\ LootAnalysisResponse.source_count response
         = Z.of_nat (List.length (get_shopping_results results))
      /\ ((List.length (get_shopping_results results) < 5)%nat ->
          LootAnalysisResponse.market_demand response = "Low")
      /\ ((15 <= List.length (get_shopping_results results))%nat ->
          LootAnalysisResponse.market_demand response = "High").
Proof.
  intros vision_service float get_dict image_data v results Hv Hd Hp.
  unfold analyze_item. rewrite Hv. cbn [bind].
  rewrite (PricingFacts.get_price_data_without_prices float get_dict _ Hd Hp).
  eexists. split; [ reflexivity | ].
  cbn [_build_response LootAnalysisResponse.estimated_value
       LootAnalysisResponse.rarity_score LootAnalysisResponse.source_count
       LootAnalysisResponse.market_demand].
  split; [ reflexivity | ]. split; [ reflexivity | ].
  split; [ reflexivity | ].
  unfold _calculate_market_demand. cbn [source_count PriceDataResult_of_count].
  split; intro Hn.
  - replace (15 <=? Z.of_nat (List.length (get_shopping_results results)))%Z
      with false by (symmetry; apply Z.leb_gt; lia).
    replace (5 <=? Z.of_nat (List.length (get_shopping_results results)))%Z
      with false by (symmetry; apply Z.leb_gt; lia).
    reflexivity.
  - replace (15 <=? Z.of_nat (List.length (get_shopping_results results)))%Z
      with true by (symmetry; apply Z.leb_le; lia).
    reflexivity.
Qed.

Lemma report_without_prices_witness :
  exists response,
    analyze_item (fun _ => Returned sneaker)
      (get_price_data Py.float_decimal (search_returning unpriced_listings))
      [Byte.xff; Byte.xd8]
    = Returned response
    /\ LootAnalysisResponse.estimated_value response = "Price unavailable"
    /\ LootAnalysisResponse.rarity_score response = "Unknown"
    /\ LootAnalysisResponse.source_count response = 2%Z
    /\ ((2 < 5)%nat -> LootAnalysisResponse.market_demand response = "Low")
    /\ ((15 <= 2)%nat -> LootAnalysisResponse.market_demand response = "High").
Proof.
  apply (@report_without_prices (fun _ => Returned sneaker) Py.float_decimal
           (search_returning unpriced_listings) [Byte.xff; Byte.xd8]
           sneaker {| shopping_results := Some unpriced_listings |});
    reflexivity.
Defined.

End PipelineProperties.

Section EndpointProperties.
Import Schemas ScanRouter Scenarios.

Local Open Scope string_scope.

(** X16.  The endpoint checks the content type first, then the size, then
    emptiness: an upload whose type is not one of the four allowed gets
    status 415 even when it is also too large or empty; an allowed type
    with more than 10485760 bytes gets 413, with no byte 400; any other
    upload gets what the appraiser returns or raises for its bytes. *)
Theorem upload_validation :
  forall (service : list Byte.byte -> outcome LootAnalysisResponse.t)
         (joined : string) (image : UploadFile),
    let size := Z.of_nat (List.length (read image)) in
    (is_allowed (content_type image) = true <->
     exists t, content_type image = Some t /\ In t ALLOWED_CONTENT_TYPES)
    /\ (is_allowed (content_type image) = false ->
        exists detail,
          analyze_item service joined image = HTTPException 415 detail)
    /\ (is_allowed (content_type image) = true ->
        (10485760 < size)%Z ->
        exists detail,
          analyze_item service joined image = HTTPException 413 detail)
    /\ (is_allowed (content_type image) = true ->
        size = 0%Z ->
        analyze_item service joined image
        = HTTPException 400 "Empty file uploaded.")
    /\ (is_allowed (content_type image) = true ->
        (0 < size <= 10485760)%Z ->
        analyze_item service joined image
        = match service (read image) with
          | Returned result => Response result
          | Raised e => Unhandled e
          end).
Proof.
  intros service joined image. cbv zeta. unfold analyze_item.
  split; [ | split; [ | split; [ | split ] ] ].
  - unfold is_allowed. destruct (content_type image) as [ t | ].
    + rewrite existsb_exists. split.
      * intros (x & Hin & Heq). apply String.eqb_eq in Heq. subst x.
        exists t. split; [ reflexivity | exact Hin ].
      * intros (t' & Ht & Hin). injection Ht as <-.
        exists t. split; [ exact Hin | apply String.eqb_refl ].
    + split; [ discriminate | ].
      intros (t & Ht & _). discriminate Ht.
  - intros ->. eexists. reflexivity.
  - intros -> Hsize. cbn [negb].
    replace (MAX_FILE_SIZE <? Z.of_nat (List.length (read image)))%Z
      with true by (symmetry; apply Z.ltb_lt; exact Hsize).
    eexists. reflexivity.
  - intros -> Hsize. cbn [negb]. rewrite Hsize. reflexivity.
  - intros -> Hsize. cbn [negb].
    replace (MAX_FILE_SIZE <? Z.of_nat (List.length (read image)))%Z
      with false by (symmetry; apply Z.ltb_ge; apply Hsize).
    replace (Z.of_nat (List.length (read image)) =? 0)%Z
      with false by (symmetry; apply Z.eqb_neq; lia).
    reflexivity.
Qed.

Lemma upload_validation_witness :
  (exists detail,
      analyze_item appraiser_returning "image/png, image/jpeg" oversized_pdf
      = HTTPException 415 detail)
  /\ (exists detail,
         analyze_item appraiser_returning "image/png, image/jpeg" oversized_png
         = HTTPException 413 detail)
  /\ analyze_item appraiser_returning "image/png, image/jpeg" empty_png
     = HTTPException 400 "Empty file uploaded."
  /\ analyze_item appraiser_returning "image/png, image/jpeg" small_jpeg
     = Response fixed_report.
Proof.
  assert (Hbig : (10485760
                  < Z.of_nat (List.length
                       (repeat Byte.x00 (Z.to_nat (MAX_FILE_SIZE + 1)))))%Z).
  { rewrite repeat_length, Z2Nat.id; vm_compute; [ reflexivity | discriminate ]. }
  split; [ | split; [ | split ] ].
  - apply (upload_validation appraiser_returning "image/png, image/jpeg"
             oversized_pdf).
    reflexivity.
  - apply (upload_validation appraiser_returning "image/png, image/jpeg"
             oversized_png); [ reflexivity | exact Hbig ].
  - apply (upload_validation appraiser_returning "image/png, image/jpeg"
             empty_png); reflexivity.
  - apply (upload_validation appraiser_returning "image/png, image/jpeg"
             small_jpeg); [ reflexivity | split; reflexivity || discriminate ].
Defined.

(** X17.  A rejected upload never reaches the appraiser: when the content
    type is not allowed, or the upload is empty or larger than 10485760
    bytes, the endpoint's answer is the same whatever the appraiser would
    do, and it is never a report. *)
Theorem rejected_upload_skips_appraiser :
  forall (service1 service2 : list Byte.byte -> outcome LootAnalysisResponse.t)
         (joined : string) (image : UploadFile),
    is_allowed (content_type image) = false
    \/ read image = []
    \/ (10485760 < Z.of_nat (List.length (read image)))%Z ->
    analyze_item service1 joined image = analyze_item service2 joined image
    /\ forall report, analyze_item service1 joined image <> Response report.
Proof.
  intros service1 service2 joined image Hrej. unfold analyze_item.
  destruct (is_allowed (content_type image)) eqn:Ha; cbn [negb].
  - destruct (MAX_FILE_SIZE <? Z.of_nat (List.length (read image)))%Z eqn:Hb.
    + split; [ reflexivity | discriminate ].
    + apply Z.ltb_ge in Hb.
      destruct Hrej as [ H | [ H | H ] ].
      * discriminate H.
      * rewrite H. split; [ reflexivity | discriminate ].
      * exfalso. unfold MAX_FILE_SIZE in Hb. lia.
  - split; [ reflexivity | discriminate ].
Qed.

Lemma rejected_upload_skips_appraiser_witness :
  analyze_item appraiser_returning "image/png, image/jpeg" empty_png
  = analyze_item (fun _ => Raised "unreachable") "image/png, image/jpeg"
      empty_png
  /\ forall report,
      analyze_item appraiser_returning "image/png, image/jpeg" empty_png
      <> Response report.
Proof.
  apply rejected_upload_skips_appraiser. right. left. reflexivity.
Defined.

End EndpointProperties.

Section MockProperties.
Import Schemas AppraiserService MockServices.

Local Open Scope Q_scope.
Local Open Scope string_scope.

(** X18.  For every query the development pricing service returns a
    complete summary with [low <= average <= high] and at least five
    sources, for which the value display is always the range of low and
    high and the rarity is Uncommon, Rare or Epic. *)
Theorem mock_pricing_summary :
  forall query : string,
    exists (p : PriceDataResult) (lo hi av : Q),
      mock_get_price_data query = Returned p
      /\ min_price p = Some lo /\ max_price p = Some hi
      /\ avg_price p = Some av
      /\ lo <= av /\ av <= hi
      /\ (5 <= source_count p)%Z
      /\ _format_price_range p
         = "$" ++ Py.format_0f lo ++ " - $" ++ Py.format_0f hi
      /\ (_calculate_rarity p = "Uncommon" \/ _calculate_rarity p = "Rare"
          \/ _calculate_rarity p = "Epic").
Proof.
  intro query. unfold mock_get_price_data, mock_prices. cbv zeta.
  cbn [mock_lookup].
  destruct (Py.contains "sneakers" (Py.lower query));
    [ | destruct (Py.contains "electronics" (Py.lower query));
        [ | destruct (Py.contains "vintage" (Py.lower query)) ] ];
    eexists; eexists; eexists; eexists;
    (split; [ reflexivity | ]);
    cbn [min_price max_price avg_price source_count];
    (split; [ reflexivity | ]); (split; [ reflexivity | ]);
    (split; [ reflexivity | ]);
    (split; [ discriminate | ]); (split; [ discriminate | ]);
    (split; [ discriminate | ]); (split; [ reflexivity | ]);
    vm_compute; auto.
Qed.

(** X19.  With the two development services the orchestrator always
    returns a report: the development identification service returns one
    of its three items, and the report is named after the brand and the
    model of that item; since the query holds the brand and the model and
    not the category, only the vintage and the default price tables are
    ever used: the source count is 5 or 8 and the value display is
    ["$50 - $150"] or ["$75 - $200"]. *)
Theorem mock_pipeline_report :
  forall (k : nat) (image_data : list Byte.byte),
    exists (v : GeminiVisionResult) (response : LootAnalysisResponse.t),
      mock_identify_item k image_data = Returned v
      /\ In v mock_items
      /\ analyze_item (mock_identify_item k) mock_get_price_data image_data
         = Returned response
      /\ LootAnalysisResponse.item_name response = _build_search_query v
      /\ (LootAnalysisResponse.source_count response = 5%Z
          \/ LootAnalysisResponse.source_count response = 8%Z)
      /\ (LootAnalysisResponse.estimated_value response = "$50 - $150"
          \/ LootAnalysisResponse.estimated_value response = "$75 - $200").
Proof.
  intros k image_data.
  unfold analyze_item, mock_identify_item.
  change (List.length mock_items) with 3%nat.
  pose proof (Nat.mod_upper_bound k 3) as Hk.
  destruct (k mod 3)%nat as [ | [ | [ | n ] ] ]; [ | | | lia ];
    eexists; eexists;
    (split; [ reflexivity | ]);
    (split; [ | split; [ reflexivity | ] ]);
    [ left; reflexivity | | right; left; reflexivity |
    | right; right; left; reflexivity | ];
    (split; [ reflexivity | ]);
    vm_compute; auto.
Qed.

End MockProperties.

(* ===================================================================== *)
(** * Further properties: the identification service *)
(* ===================================================================== *)

Module CleaningFacts.
Import Schemas GeminiVisionService GeminiCleaning.

Local Open Scope string_scope.

Lemma lstrip_nonspace (c : ascii) (s : string) :
  Py.isspace c = false -> Py.lstrip (String c s) = String c s.
Proof. intro H. simpl. rewrite H. reflexivity. Qed.

Lemma rstrip_cons (c : ascii) (s : string) :
  Py.rstrip (String c s)
  = match Py.rstrip s with
    | EmptyString => if Py.isspace c then EmptyString else String c EmptyString
    | r => String c r
    end.
Proof. reflexivity. Qed.

Lemma rstrip_app (a b : string) :
  Py.rstrip b <> "" -> Py.rstrip (a ++ b) = a ++ Py.rstrip b.
Proof.
  intro Hb. induction a as [ | c a IH ]; [ reflexivity | ].
  change (String c a ++ b) with (String c (a ++ b)).
  rewrite rstrip_cons, IH.
  change (String c a ++ Py.rstrip b) with (String c (a ++ Py.rstrip b)).
  destruct (a ++ Py.rstrip b) eqn:E; [ | reflexivity ].
  destruct a; [ simpl in E; congruence | discriminate E ].
Qed.

Lemma rstrip_idem (s : string) : Py.rstrip (Py.rstrip s) = Py.rstrip s.
Proof.
  induction s as [ | c s IH ]; [ reflexivity | ].
  rewrite rstrip_cons.
  destruct (Py.rstrip s) as [ | d r ] eqn:E.
  - destruct (Py.isspace c) eqn:Hc; [ reflexivity | ].
    rewrite rstrip_cons. change (Py.rstrip "") with "". rewrite Hc.
    reflexivity.
  - rewrite rstrip_cons, IH. reflexivity.
Qed.

(** A text that starts with a character that is not white space keeps it
    under [rstrip]. *)
Lemma rstrip_head (c : ascii) (s : string) :
  Py.isspace c = false ->
  exists r, Py.rstrip (String c s) = String c r.
Proof.
  intro Hc. rewrite rstrip_cons.
  destruct (Py.rstrip s); [ rewrite Hc | ]; eexists; reflexivity.
Qed.

Lemma lstrip_head (s : string) :
  Py.lstrip s = ""
  \/ exists c r, Py.lstrip s = String c r /\ Py.isspace c = false.
Proof.
  induction s as [ | c s IH ]; [ left; reflexivity | ].
  simpl. destruct (Py.isspace c) eqn:Hc; [ exact IH | ].
  right. exists c, s. split; [ reflexivity | exact Hc ].
Qed.

Lemma strip_idem (s : string) : Py.strip (Py.strip s) = Py.strip s.
Proof.
  unfold Py.strip.
  destruct (lstrip_head s) as [ E | (c & r & E & Hc) ]; rewrite E.
  - reflexivity.
  - destruct (@rstrip_head c r Hc) as [r' Er]. rewrite Er.
    rewrite (@lstrip_nonspace c r' Hc), <- Er. apply rstrip_idem.
Qed.

Lemma slice_from_app (a b : string) :
  slice_from (String.length a) (a ++ b) = b.
Proof. induction a as [ | c a IH ]; [ destruct b | ]; trivial. Qed.

Lemma slice_to_app (a b : string) :
  Py.slice_to (String.length a) (a ++ b) = a.
Proof.
  induction a as [ | c a IH ]; [ destruct b; reflexivity | ].
  simpl. rewrite IH. reflexivity.
Qed.

Lemma endswith_app (a suffix : string) : endswith suffix (a ++ suffix) = true.
Proof.
  unfold endswith. rewrite StrFacts.length_app.
  replace (String.length a + String.length suffix - String.length suffix)%nat
    with (String.length a) by lia.
  rewrite slice_from_app, String.eqb_refl.
  replace (String.length suffix <=? String.length a + String.length suffix)%nat
    with true by (symmetry; apply Nat.leb_le; lia).
  reflexivity.
Qed.

(** The text inside a code fence, once the fence is recognised. *)
Lemma unfence (body : string) :
  prefix "```" (body ++ "```") = false ->
  (if endswith "```"
        (if prefix "```" (body ++ "```")
         then slice_from 3 (body ++ "```") else body ++ "```")
   then Py.slice_to
          (String.length
             (if prefix "```" (body ++ "```")
              then slice_from 3 (body ++ "```") else body ++ "```") - 3)
          (if prefix "```" (body ++ "```")
           then slice_from 3 (body ++ "```") else body ++ "```")
   else (if prefix "```" (body ++ "```")
         then slice_from 3 (body ++ "```") else body ++ "```"))
  = body.
Proof.
  intro H. rewrite H, endswith_app, StrFacts.length_app.
  change (String.length "```") with 3%nat.
  replace (String.length body + 3 - 3)%nat with (String.length body) by lia.
  apply slice_to_app.
Qed.

Lemma strip_fenced (opening body : string) (c : ascii) :
  Py.isspace c = false ->
  Py.strip (String c opening ++ body ++ "```")
  = String c opening ++ body ++ "```".
Proof.
  intro Hc. unfold Py.strip.
  change (String c opening ++ body ++ "```")
    with (String c (opening ++ body ++ "```")).
  rewrite (@lstrip_nonspace c _ Hc).
  change (String c (opening ++ body ++ "```"))
    with (String c opening ++ body ++ "```").
  assert (Hb : Py.rstrip (body ++ "```") = body ++ "```").
  { rewrite rstrip_app; [ reflexivity | discriminate ]. }
  rewrite rstrip_app; rewrite Hb; [ reflexivity | ].
  destruct body; discriminate.
Qed.

(** A closing fence does not complete the tag of a json fence. *)
Lemma json_tag_of_body (body : string) :
  prefix "json" body = false ->
  prefix "```json" ("```" ++ body ++ "```") = false.
Proof.
  intro H.
  change (prefix "```json" ("```" ++ body ++ "```"))
    with (prefix "json" (body ++ "```")).
  destruct body as [ | c1 [ | c2 [ | c3 [ | c4 body ] ] ] ];
    cbn [append prefix] in *.
  - reflexivity.
  - destruct (ascii_dec "j" c1); reflexivity.
  - destruct (ascii_dec "j" c1); [ | reflexivity ].
    destruct (ascii_dec "s" c2); reflexivity.
  - destruct (ascii_dec "j" c1); [ | reflexivity ].
    destruct (ascii_dec "s" c2); [ | reflexivity ].
    destruct (ascii_dec "o" c3); reflexivity.
  - destruct (ascii_dec "j" c1); [ | reflexivity ].
    destruct (ascii_dec "s" c2); [ | reflexivity ].
    destruct (ascii_dec "o" c3); [ | reflexivity ].
    destruct (ascii_dec "n" c4); [ | reflexivity ].
    rewrite StrFacts.prefix_empty in H. discriminate H.
Qed.

Section Decoder.

Variable json_loads : string -> option json.

(** [_parse_response] decodes the cleaned response. *)
Lemma parse_response_cleaned (response_text : string) :
  _parse_response json_loads response_text
  = match json_loads (cleaned_response response_text) with
    | None =>
        Returned
          (GeminiVisionResult_of_description "Unknown"
             (if response_text =? "" then "Parse error"
              else Py.slice_to 200 response_text))
    | Some (JObject data) =>
        brand <- validate_optional_str (dict_get "brand" data) ;;
        model <- validate_optional_str (dict_get "model" data) ;;
        condition <- validate_optional_str (dict_get "condition" data) ;;
        color <- validate_optional_str (dict_get "color" data) ;;
        category <-
          validate_optional_str
            (match dict_get "category" data with
             | None => Some (JString "Unknown")
             | v => v
             end) ;;
        raw_description <-
          validate_optional_str
            (match dict_get "raw_description" data with
             | None => Some (JString "No description available")
             | v => v
             end) ;;
        Returned
          {| brand := brand; model := model; condition := condition;
             color := color; category := category;
             raw_description := raw_description |}
    | Some JNotObject => Raised "object has no attribute 'get'"
    end.
Proof. reflexivity. Qed.

End Decoder.

End CleaningFacts.

Section IdentificationProperties.
Import Schemas GeminiVisionService GeminiCleaning CleaningFacts Scenarios.

Local Open Scope string_scope.

(** The condition on the plain fence is needed: a body that begins with
    the letters of the tag loses them. *)
Lemma plain_fence_takes_json_tag :
  cleaned_response ("```" ++ "json is great" ++ "```") = "is great".
Proof. reflexivity. Qed.

(** X20.  A markdown code fence around the response is transparent.  Let
    the body be such that, followed by the closing fence, it does not
    start with a fence (it is not empty, not made of one or two
    backquotes and does not start with three), and such that, stripped,
    it neither starts nor ends with a fence.  Then the text handed to the
    JSON decoder is the stripped body when the response is the bare body
    and when it is the body inside a json fence; it is also the stripped
    body when the response is the body inside a plain fence, provided the
    body does not start with the letters [json], which the code takes
    for the tag of a json fence.  When that text decodes, the response in
    a json fence and the bare response give the same identification. *)
Theorem code_fence_is_transparent :
  forall (json_loads : string -> option json) (body : string),
    prefix "```" (body ++ "```") = false ->
    prefix "```" (Py.strip body) = false ->
    endswith "```" (Py.strip body) = false ->
    cleaned_response ("```json" ++ body ++ "```") = Py.strip body
    /\ (prefix "json" body = false ->
        cleaned_response ("```" ++ body ++ "```") = Py.strip body)
    /\ cleaned_response body = Py.strip body
    /\ (json_loads (Py.strip body) <> None ->
        _parse_response json_loads ("```json" ++ body ++ "```")
        = _parse_response json_loads body).
Proof.
  intros json_loads body Hinner Hstart Hend.
  assert (Hjson : cleaned_response ("```json" ++ body ++ "```")
                  = Py.strip body).
  { unfold cleaned_response. cbv zeta.
    rewrite (@strip_fenced "``json" body "`" eq_refl).
    rewrite (AppraiserFacts.prefix_append "```json" (body ++ "```")).
    change 7%nat with (String.length "```json").
    rewrite (slice_from_app "```json" (body ++ "```")).
    rewrite (unfence body Hinner). reflexivity. }
  assert (Hbare : cleaned_response body = Py.strip body).
  { unfold cleaned_response. cbv zeta.
    assert (Hj : prefix "```json" (Py.strip body) = false).
    { destruct (prefix "```json" (Py.strip body)) eqn:E; trivial.
      rewrite (StrFacts.prefix_trans "```" "```json" (Py.strip body)
                 eq_refl E) in Hstart.
      discriminate Hstart. }
    rewrite Hj, Hstart, Hend. apply strip_idem. }
  split; [ exact Hjson | ].
  split; [ | split; [ exact Hbare | ] ].
  - intro Htag. pose proof (@json_tag_of_body body Htag) as Hplain.
    unfold cleaned_response. cbv zeta.
    rewrite (@strip_fenced "``" body "`" eq_refl).
    rewrite Hplain.
    rewrite (AppraiserFacts.prefix_append "```" (body ++ "```")).
    change (slice_from 3 ("```" ++ body ++ "```")) with (body ++ "```").
    rewrite endswith_app, StrFacts.length_app.
    change (String.length "```") with 3%nat.
    replace (String.length body + 3 - 3)%nat with (String.length body) by lia.
    rewrite slice_to_app. reflexivity.
  - intro Hdec.
    rewrite !parse_response_cleaned, Hjson, Hbare.
    destruct (json_loads (Py.strip body)) as [ [ data | ] | ];
      [ reflexivity | reflexivity | congruence ].
Qed.

Lemma code_fence_is_transparent_witness :
  cleaned_response ("```json" ++ " {} " ++ "```") = "{}"
  /\ cleaned_response ("```" ++ " {} " ++ "```") = "{}"
  /\ cleaned_response " {} " = "{}"
  /\ _parse_response json_of_empty_object ("```json" ++ " {} " ++ "```")
     = _parse_response json_of_empty_object " {} ".
Proof.
  destruct (@code_fence_is_transparent json_of_empty_object " {} ")
    as (Hjson & Hplain & Hbare & Hsame); [ reflexivity .. | ].
  split; [ exact Hjson | ].
  split; [ apply Hplain; reflexivity | ].
  split; [ exact Hbare | ].
  apply Hsame. discriminate.
Defined.

(** X21.  When the upstream call answers with a text that does not decode
    as JSON, [identify_item] returns an identification of category
    ["Unknown"] without brand, model, condition or color, whose
    description is never empty and never longer than 200 characters: the
    first 200 characters of the answer, or ["Parse error"] for an empty
    answer. *)
Theorem undecodable_response_placeholder :
  forall (generate_content_text : list Byte.byte -> outcome string)
         (json_loads : string -> option json)
         (image_data : list Byte.byte) (text : string),
    generate_content_text image_data = Returned text ->
    json_loads (cleaned_response text) = None ->
    exists d,
      identify_item generate_content_text json_loads image_data
      = Returned (GeminiVisionResult_of_description "Unknown" d)
      /\ d <> ""
      /\ (String.length d <= 200)%nat
      /\ (text = "" -> d = "Parse error")
      /\ (text <> "" -> d = Py.slice_to 200 text /\ prefix d text = true).
Proof.
  intros generate_content_text json_loads image_data text Hgen Hdec.
  unfold identify_item, identify_item_try. rewrite Hgen. cbn [bind].
  rewrite parse_response_cleaned, Hdec.
  eexists. split; [ reflexivity | ].
  destruct (String.eqb_spec text "") as [ -> | Hne ].
  - split; [ discriminate | ]. split; [ simpl; lia | ].
    split; [ reflexivity | congruence ].
  - split.
    { destruct text as [ | c text ]; [ congruence | discriminate ]. }
    split; [ rewrite StrFacts.slice_to_length; lia | ].
    split; [ congruence | ].
    intros _. split; [ reflexivity | apply StrFacts.slice_to_prefix ].
Qed.

Lemma undecodable_response_placeholder_witness :
  exists d,
    identify_item (fun _ => Returned "I cannot see an item.")
      json_of_empty_object [Byte.xff; Byte.xd8]
    = Returned (GeminiVisionResult_of_description "Unknown" d)
    /\ d <> ""
    /\ (String.length d <= 200)%nat
    /\ ("I cannot see an item." = "" -> d = "Parse error")
    /\ ("I cannot see an item." <> "" ->
        d = Py.slice_to 200 "I cannot see an item."
        /\ prefix d "I cannot see an item." = true).
Proof.
  apply (@undecodable_response_placeholder
           (fun _ => Returned "I cannot see an item.")
           json_of_empty_object [Byte.xff; Byte.xd8]
           "I cannot see an item.");
    reflexivity.
Defined.

End IdentificationProperties.

(* ===================================================================== *)
(** * Further properties: listings that agree on the price *)
(* ===================================================================== *)

Module UniformFacts.
Import Schemas SerpApiPricingService.

Local Open Scope Q_scope.

(** Rounding does not tell equal rationals apart. *)
Lemma round_half_even_comp (x y : Q) :
  x == y -> Py.round_half_even x = Py.round_half_even y.
Proof.
  intro H. unfold Py.round_half_even.
  rewrite <- (Qfloor_comp _ _ H).
  assert (Hc : (x - inject_Z (Qfloor x) ?= 1 # 2)
               = (y - inject_Z (Qfloor x) ?= 1 # 2)).
  { apply Qcompare_comp; [ | apply Qeq_refl ].
    unfold Qminus. apply Qplus_comp; [ exact H | apply Qeq_refl ]. }
  rewrite Hc. reflexivity.
Qed.

Lemma round2_comp (x y : Q) : x == y -> Py.round2 x = Py.round2 y.
Proof.
  intro H. unfold Py.round2.
  rewrite (@round_half_even_comp (x * 100) (y * 100));
    [ reflexivity | apply Qmult_comp; [ exact H | apply Qeq_refl ] ].
Qed.

End UniformFacts.

Module Uniform64Facts.
Import Binary64 Schemas64 SerpApiPricingService64 AppraiserService64.
Import Binary64Facts Pricing64Facts Statistics64Facts.

Local Open Scope Q_scope.

(** ** Rounding does not tell equal rationals apart *)

Lemma log2_floor_comp (a b : Q) :
  0 < a -> a == b -> log2_floor a = log2_floor b.
Proof.
  intros Ha Hab.
  assert (Hb : 0 < b) by (rewrite <- Hab; exact Ha).
  assert (H1 : (log2_floor a <= log2_floor b)%Z).
  { apply log2_floor_mono; [ exact Ha | rewrite Hab; apply Qle_refl ]. }
  assert (H2 : (log2_floor b <= log2_floor a)%Z).
  { apply log2_floor_mono; [ exact Hb | rewrite Hab; apply Qle_refl ]. }
  lia.
Qed.

Lemma rounded_value_comp (a b : Q) :
  0 < a -> a == b -> rounded_value a = rounded_value b.
Proof.
  intros Ha Hab. unfold rounded_value, ulp_exponent.
  rewrite (@log2_floor_comp a b Ha Hab).
  set (e := (Z.max (log2_floor b) (-1022) - 52)%Z).
  rewrite (@UniformFacts.round_half_even_comp (a / 2 ^ e) (b / 2 ^ e));
    [ reflexivity | ].
  unfold Qdiv. apply Qmult_comp; [ exact Hab | apply Qeq_refl ].
Qed.

Lemma round_pos_comp (a b : Q) :
  0 < a -> a == b -> round_pos a = round_pos b.
Proof.
  intros Ha Hab. rewrite !round_pos_unfold.
  rewrite (@rounded_value_comp a b Ha Hab). reflexivity.
Qed.

Lemma rnd_comp (a b : Q) : a == b -> rnd a = rnd b.
Proof.
  intro Hab. unfold rnd.
  rewrite <- (Qcompare_comp a b Hab 0 0 (Qeq_refl 0)).
  destruct (Qcompare_spec a 0) as [ E | E | E ].
  - reflexivity.
  - f_equal. apply round_pos_comp; [ lra | ].
    apply Qopp_comp, Hab.
  - apply round_pos_comp; assumption.
Qed.

(** The rounding of a double is the double. *)
Lemma rnd_double (p : Q) :
  is_double (Fin p) = true -> exists r, rnd p = Fin r /\ r == p.
Proof.
  cbn [is_double]. destruct (rnd p) as [ r | | | ]; try discriminate.
  intro H. exists r. split; [ reflexivity | apply Qeq_bool_iff, H ].
Qed.

Lemma round2_rnd_double (p : Q) :
  is_double (Fin p) = true -> round2 (rnd p) = round2 (Fin p).
Proof.
  intro Hp. destruct (@rnd_double p Hp) as (r & -> & Hr).
  cbn [round2]. rewrite (@UniformFacts.round2_comp r p Hr). reflexivity.
Qed.

(** ** Decimal rounding of a positive double stays finite *)

Lemma double_value (p : Q) :
  0 < p -> is_double (Fin p) = true ->
  rounded_value p == p /\ rounded_value p < 2 ^ 1024.
Proof.
  intros Hp Hd. cbn [is_double] in Hd. unfold rnd in Hd.
  replace (p ?= 0) with Gt in Hd
    by (symmetry; apply Qgt_alt; exact Hp).
  rewrite round_pos_unfold in Hd.
  destruct (Qle_bool (2 ^ 1024) (rounded_value p)) eqn:E;
    [ discriminate Hd | ].
  apply Qeq_bool_iff in Hd. split.
  - apply Qeq_trans with (Qred (rounded_value p));
      [ apply Qeq_sym, Qred_correct | exact Hd ].
  - apply PyFacts.Qle_bool_false, E.
Qed.

Lemma round2_Z (z : Z) : Py.round2 (inject_Z z) == inject_Z z.
Proof.
  unfold Py.round2.
  rewrite (@UniformFacts.round_half_even_comp
             (inject_Z z * 100) (inject_Z (z * 100))).
  - rewrite round_half_even_Z. rewrite inject_Z_mult.
    change (inject_Z 100) with 100. field.
  - rewrite inject_Z_mult. reflexivity.
Qed.

Lemma round2_double_finite (p : Q) :
  0 < p -> is_double (Fin p) = true ->
  exists w, round2 (Fin p) = Fin w /\ 0 <= w.
Proof.
  intros Hp Hd. cbn [round2].
  assert (Hnn : 0 <= Py.round2 p)
    by (apply PricingMoreFacts.round2_nonneg, Qlt_le_weak, Hp).
  assert (Hfin : exists u, fle (rnd (Py.round2 p)) (Fin u) = true).
  { destruct (@double_value p Hp Hd) as [Hv Hlt].
    destruct (Z_le_gt_dec 0 (ulp_exponent p)) as [ He | He ].
    - (* the double is an integer *)
      assert (Hz : p == inject_Z (Py.round_half_even (p / 2 ^ ulp_exponent p)
                                  * 2 ^ ulp_exponent p)).
      { rewrite <- Hv at 1. unfold rounded_value.
        rewrite inject_Z_mult, pow2_of_Z by exact He. reflexivity. }
      set (z := (Py.round_half_even (p / 2 ^ ulp_exponent p)
                 * 2 ^ ulp_exponent p)%Z) in Hz.
      assert (Hr : Py.round2 p == p).
      { rewrite (@UniformFacts.round2_comp p (inject_Z z) Hz).
        rewrite round2_Z. symmetry. exact Hz. }
      destruct (@rnd_double p Hd) as (r & Er & _).
      exists r. rewrite (@rnd_comp (Py.round2 p) p Hr), Er.
      apply fle_refl_fin.
    - (* the double is below 2 ^ 52 *)
      destruct (@log2_floor_spec p Hp) as [_ H2].
      assert (Hlf : (log2_floor p + 1 <= 52)%Z)
        by (unfold ulp_exponent in He; lia).
      assert (Hp52 : p <= 2 ^ 52).
      { apply Qle_trans with (2 ^ (log2_floor p + 1));
          [ apply Qlt_le_weak, H2 | apply pow2_le, Hlf ]. }
      exists (2 ^ 52).
      assert (E : rnd (Py.round2 (2 ^ 52)) = Fin (2 ^ 52))
        by (vm_compute; reflexivity).
      rewrite <- E. apply rnd_mono, PyFacts.round2_mono, Hp52. }
  destruct Hfin as [u Hu].
  destruct (@rnd_nonneg (Py.round2 p) Hnn) as [ (w & Ew & Hw) | Einf ].
  - exists w. split; assumption.
  - rewrite Einf in Hu. discriminate Hu.
Qed.

(** ** Lists of one price *)

Lemma flt_irrefl (p : Q) : flt (Fin p) (Fin p) = false.
Proof. cbn [flt]. apply PyFacts.Qlt_bool_false, Qle_refl. Qed.

Lemma sorted_repeat (p : Q) (k : nat) :
  sorted (repeat (Fin p) k) = repeat (Fin p) k.
Proof.
  induction k as [ | k IH ]; [ reflexivity | ].
  change (sorted (repeat (Fin p) (S k)))
    with (insert (Fin p) (sorted (repeat (Fin p) k))).
  rewrite IH. destruct k as [ | k ]; [ reflexivity | ].
  change (repeat (Fin p) (S k)) with (Fin p :: repeat (Fin p) k).
  cbn [insert]. rewrite flt_irrefl. reflexivity.
Qed.

Lemma nth_repeat_in_range (x d : float) (k i : nat) :
  (i < k)%nat -> nth i (repeat x k) d = x.
Proof.
  revert i. induction k as [ | k IH ]; intros i Hi; [ lia | ].
  destruct i as [ | i ]; [ reflexivity | ].
  simpl. apply IH. lia.
Qed.

Lemma remove_outliers_repeat (p : Q) (k : nat) :
  is_double (Fin p) = true ->
  _remove_outliers (repeat (Fin p) k) = repeat (Fin p) k.
Proof.
  intro Hd. unfold _remove_outliers.
  rewrite sorted_repeat, repeat_length.
  destruct (k <? 4)%nat eqn:E; [ reflexivity | ].
  apply Nat.ltb_ge in E.
  destruct (@PyFacts.quartile_indices k) as [Hi Hj]; [ lia | ].
  rewrite !nth_repeat_in_range by lia.
  apply forallb_filter_id, forallb_forall.
  intros x Hx. apply repeat_spec in Hx. subst x.
  apply within_bounds; trivial; apply Qle_refl.
Qed.

Lemma special_sum_repeat (p : Q) (k : nat) :
  special_sum (repeat (Fin p) k) = None.
Proof. induction k as [ | k IH ]; [ reflexivity | exact IH ]. Qed.

Lemma finite_sum_repeat (p : Q) (k : nat) :
  finite_sum (repeat (Fin p) k) == inject_Z (Z.of_nat k) * p.
Proof.
  induction k as [ | k IH ].
  - simpl. ring.
  - change (finite_sum (repeat (Fin p) (S k)))
      with (p + finite_sum (repeat (Fin p) k)).
    rewrite Nat2Z.inj_succ. unfold Z.succ.
    apply Qeq_trans with (p + inject_Z (Z.of_nat k) * p).
    + apply Qplus_comp; [ apply Qeq_refl | exact IH ].
    + rewrite inject_Z_plus. ring.
Qed.

Lemma mean_repeat (p : Q) (k : nat) :
  mean (repeat (Fin p) (S k)) = Returned (rnd p).
Proof.
  unfold mean.
  change (repeat (Fin p) (S k)) with (Fin p :: repeat (Fin p) k) at 1.
  cbv iota. rewrite special_sum_repeat, repeat_length.
  f_equal. apply rnd_comp.
  apply Qeq_trans
    with (inject_Z (Z.of_nat (S k)) * p / inject_Z (Z.of_nat (S k))).
  { unfold Qdiv.
    apply Qmult_comp; [ apply finite_sum_repeat | apply Qeq_refl ]. }
  field.
  intro H. apply (inject_Z_injective (Z.of_nat (S k)) 0) in H. lia.
Qed.

Lemma min_from_repeat (p : Q) (k : nat) :
  min_from (Fin p) (repeat (Fin p) k) = Fin p.
Proof.
  induction k as [ | k IH ]; [ reflexivity | ].
  change (repeat (Fin p) (S k)) with (Fin p :: repeat (Fin p) k).
  cbn [min_from]. rewrite flt_irrefl. exact IH.
Qed.

Lemma max_from_repeat (p : Q) (k : nat) :
  max_from (Fin p) (repeat (Fin p) k) = Fin p.
Proof.
  induction k as [ | k IH ]; [ reflexivity | ].
  change (repeat (Fin p) (S k)) with (Fin p :: repeat (Fin p) k).
  cbn [max_from]. rewrite flt_irrefl. exact IH.
Qed.

Lemma price_statistics_repeat (p : Q) (k : nat) :
  is_double (Fin p) = true ->
  price_statistics (repeat (Fin p) (S k)) (repeat (Fin p) (S k))
  = Returned {| min_price := Some (round2 (Fin p));
                max_price := Some (round2 (Fin p));
                avg_price := Some (round2 (Fin p));
                currency := "USD";
                source_count := Z.of_nat (S k) |}.
Proof.
  intro Hd. unfold price_statistics.
  change (Py.is_empty (repeat (Fin p) (S k))) with false. cbv iota.
  rewrite mean_repeat. unfold bind at 1.
  rewrite sorted_repeat, repeat_length.
  rewrite (@round2_rnd_double p Hd).
  destruct (4 <=? S k)%nat eqn:E4.
  - apply Nat.leb_le in E4.
    destruct (@PyFacts.quartile_indices (S k)) as [Hi Hj]; [ lia | ].
    rewrite !(@getitem_in_range_64 (repeat (Fin p) (S k)) NaN)
      by (rewrite repeat_length; lia).
    rewrite !nth_repeat_in_range by lia.
    reflexivity.
  - change (repeat (Fin p) (S k)) with (Fin p :: repeat (Fin p) k).
    cbn [Binary64.min Binary64.max bind].
    rewrite min_from_repeat, max_from_repeat. reflexivity.
Qed.

Local Open Scope string_scope.

(** A summary whose low, high and average are one finite value that is
    not negative displays that value. *)
Lemma format_price_range_single (w : Q) (n : Z) :
  0 <= w ->
  _format_price_range
    {| min_price := Some (Fin w); max_price := Some (Fin w);
       avg_price := Some (Fin w); currency := "USD"; source_count := n |}
  = "~$" ++ format_0f (Fin w).
Proof.
  intro Hw. unfold _format_price_range.
  cbn [min_price max_price avg_price].
  destruct (truthy_float (Some (Fin w)) && truthy_float (Some (Fin w)));
    [ | reflexivity ].
  cbv zeta.
  assert (Es : fsub (Fin w) (Fin w) = Fin 0).
  { change (fsub (Fin w) (Fin w)) with (rnd (w + - w)).
    rewrite (@rnd_comp (w + - w) 0); [ reflexivity | ring ]. }
  rewrite Es.
  assert (El : exists t, literal_0_3 = Fin t /\ 0 <= t).
  { eexists. split; [ vm_compute; reflexivity | discriminate ]. }
  destruct El as (t & -> & Ht).
  change (fmul (Fin w) (Fin t)) with (rnd (w * t)).
  destruct (@rnd_nonneg (w * t)) as [ (u & -> & Hu) | -> ].
  - apply Qmult_le_0_compat; assumption.
  - cbn [fle]. replace (Qle_bool 0 u) with true; [ reflexivity | ].
    symmetry. apply Qle_bool_iff, Hu.
  - reflexivity.
Qed.

End Uniform64Facts.

Section Uniform64Properties.
Import Binary64 Schemas64 SerpApiPricingService64 AppraiserService64 Examples64.
Import Binary64Facts Pricing64Facts Statistics64Facts Uniform64Facts.

Local Open Scope Q_scope.
Local Open Scope string_scope.

(** X22.  When every valid price of the listings is the same finite
    value [p], nothing is filtered: the summary reports low, high and
    average all equal to [p] rounded to two decimals, a finite value [w],
    its sample count is the number of valid prices, and the value is
    displayed as the single value ["~$<w>"]. *)
Theorem uniform_prices_summary :
  forall (float_of : string -> option float)
         (get_dict : string -> outcome SearchResults)
         (query : string) (results : SearchResults) (p : Q) (n : nat),
    get_dict query = Returned results ->
    is_double (Fin p) = true ->
    _extract_prices float_of (get_shopping_results results)
    = repeat (Fin p) (S n) ->
    exists w,
      round2 (Fin p) = Fin w
      /\ get_price_data float_of get_dict query
         = Returned {| min_price := Some (Fin w);
                       max_price := Some (Fin w);
                       avg_price := Some (Fin w);
                       currency := "USD";
                       source_count := Z.of_nat (S n) |}
      /\ _format_price_range
           {| min_price := Some (Fin w);
              max_price := Some (Fin w);
              avg_price := Some (Fin w);
              currency := "USD";
              source_count := Z.of_nat (S n) |}
         = "~$" ++ format_0f (Fin w).
Proof.
  intros float_of get_dict query results p n Hd Hdb Hp.
  assert (Hne : _extract_prices float_of (get_shopping_results results) <> [])
    by (rewrite Hp; discriminate).
  assert (Hpos : 0 < p).
  { pose proof (extract_prices_positive_64 float_of
                  (get_shopping_results results)) as H.
    rewrite Hp in H. inversion H as [ | ? ? H0 _ ]; subst.
    cbn [flt] in H0. apply PyFacts.Qlt_bool_iff, H0. }
  destruct (@round2_double_finite p Hpos Hdb) as (w & Ew & Hw).
  exists w. split; [ exact Ew | ].
  split.
  - rewrite (@get_price_data_with_prices_64 float_of get_dict query results
               Hd Hne).
    rewrite Hp, (@remove_outliers_repeat p (S n) Hdb).
    rewrite (@price_statistics_repeat p n Hdb), Ew. reflexivity.
  - apply format_price_range_single, Hw.
Qed.

Lemma uniform_prices_summary_witness :
  exists w,
    round2 (Fin 20) = Fin w
    /\ get_price_data float_of_string (search_returning uniform_listings)
         "paperback"
       = Returned {| min_price := Some (Fin w);
                     max_price := Some (Fin w);
                     avg_price := Some (Fin w);
                     currency := "USD";
                     source_count := 5 |}
    /\ _format_price_range
         {| min_price := Some (Fin w);
            max_price := Some (Fin w);
            avg_price := Some (Fin w);
            currency := "USD";
            source_count := 5 |}
       = "~$" ++ format_0f (Fin w).
Proof.
  apply (@uniform_prices_summary float_of_string
           (search_returning uniform_listings) "paperback"
           {| shopping_results := Some uniform_listings |} 20 4);
    reflexivity.
Defined.

End Uniform64Properties.

Section ExtractionProperties.
Import Schemas SerpApiPricingService Examples.

Local Open Scope Q_scope.

(** X23.  The price string of a listing is read only when the listing has
    no extracted price: a listing whose extracted price is zero or
    negative is dropped even if its price string holds a valid price,
    and on listings that all carry an extracted price the result is the
    list of the positive ones, in order, whatever [float] does. *)
Theorem extracted_price_takes_precedence :
  forall (float1 float2 : string -> option Q) (items : list ShoppingItem),
    (forall item, In item items -> extracted_price item <> None) ->
    _extract_prices float1 items = _extract_prices float2 items
    /\ _extract_prices float1 items
       = filter (Py.Qlt_bool 0)
           (flat_map (fun item =>
                        match extracted_price item with
                        | Some p => [p]
                        | None => []
                        end) items).
Proof.
  intros float1 float2 items Hall.
  assert (Hform : forall float,
             _extract_prices float items
             = filter (Py.Qlt_bool 0)
                 (flat_map (fun item =>
                              match extracted_price item with
                              | Some p => [p]
                              | None => []
                              end) items)).
  { intro float. induction items as [ | item rest IH ]; [ reflexivity | ].
    assert (Hrest : forall i, In i rest -> extracted_price i <> None)
      by (intros i Hi; apply Hall; right; exact Hi).
    specialize (IH Hrest).
    assert (Hitem : extracted_price item <> None)
      by (apply Hall; left; reflexivity).
    simpl. destruct (extracted_price item) as [ p | ]; [ | congruence ].
    simpl. destruct (Py.Qlt_bool 0 p); rewrite IH; reflexivity. }
  split; [ rewrite (Hform float1), (Hform float2); reflexivity | apply Hform ].
Qed.

Lemma extracted_price_takes_precedence_witness :
  _extract_prices Py.float_decimal
    [ {| extracted_price := Some 0; price := Some "$25.00"%string |};
      priced 12 ]
  = _extract_prices (fun _ => Some 99)
      [ {| extracted_price := Some 0; price := Some "$25.00"%string |};
        priced 12 ]
  /\ _extract_prices Py.float_decimal
       [ {| extracted_price := Some 0; price := Some "$25.00"%string |};
         priced 12 ]
     = [12].
Proof.
  apply (@extracted_price_takes_precedence Py.float_decimal (fun _ => Some 99)
           [ {| extracted_price := Some 0; price := Some "$25.00"%string |};
             priced 12 ]).
  intros item [ <- | [ <- | [] ] ]; discriminate.
Defined.

End ExtractionProperties.

Section FurtherWitnesses.
Import Schemas SerpApiPricingService AppraiserService Examples.

Local Open Scope Q_scope.
Local Open Scope string_scope.

Lemma summary_all_or_nothing_witness :
  exists r,
    get_price_data Py.float_decimal (search_returning six_listings)
      "leather jacket" = Returned r
    /\ (0 <= source_count r)%Z
    /\ currency r = "USD"
    /\ ((exists results,
            search_returning six_listings "leather jacket" = Returned results
            /\ _extract_prices Py.float_decimal (get_shopping_results results)
               <> [])
        -> exists lo hi av,
          min_price r = Some lo /\ max_price r = Some hi
          /\ avg_price r = Some av)
    /\ ((forall results,
            search_returning six_listings "leather jacket" = Returned results ->
            _extract_prices Py.float_decimal (get_shopping_results results)
            = [])
        -> min_price r = None /\ max_price r = None /\ avg_price r = None).
Proof.
  apply (summary_all_or_nothing Py.float_decimal
           (search_returning six_listings) "leather jacket").
Defined.

Lemma response_fields_consistent_witness :
  let response := _build_response sneaker average_only in
  (LootAnalysisResponse.estimated_value response = "Price unavailable"
   <-> avg_price average_only = None)
  /\ (LootAnalysisResponse.rarity_score response = "Unknown"
      <-> avg_price average_only = None)
  /\ LootAnalysisResponse.category response <> ""
  /\ LootAnalysisResponse.description response <> ""
  /\ LootAnalysisResponse.source_count response = source_count average_only
  /\ 0 <= LootAnalysisResponse.confidence_score response
  /\ LootAnalysisResponse.confidence_score response <= 1.
Proof.
  apply (response_fields_consistent sneaker average_only).
Defined.

End FurtherWitnesses.
